(** * Earnings mover scanner: session resolution, reaction metrics and
      consistency scoring

    A shallow embedding of [earnings_mover_scanner/intraday.py],
    [analyzer.py] and [consistency.py], followed by the properties the
    specification states about them.

    Modelling conventions.
    - Numbers come in two models.  In the first a Python [float] is an
      extended rational ([fnum]): a finite value is an exact [Q], and the
      three IEEE specials ([inf], [-inf], [nan]) are kept because pandas'
      vectorised division produces them instead of raising; rounding,
      overflow of finite values and signed zeros are left out.  In the
      second ([Binary64], [Series64], [ConsistencyScorer64]) a [float] is a
      binary64 number with the processor's operations, and a column is
      summed in the order numpy sums it.  The sign of a computed mean is
      decided by rounding; what is stated about it is stated in the second
      model.
    - Cells read from a provider or from a metrics table are finite numbers
      or missing ([option Q]); pandas' [NaN]/[pd.NA] marker is [None].
    - A [datetime.date] is its proleptic Gregorian ordinal
      ([date.toordinal()]); pandas timestamps stay within 1677..2262, so the
      [OverflowError] of date arithmetic is out of reach.
    - A pandas [Timestamp] is its nanosecond [value] plus an optional zone.
    - Network access is a field of the client record; a failed request is a
      raised exception ([Raise]).  The aggregates of an answered request
      carry millisecond timestamps that pandas can represent, as those of
      the provider are; [OutOfBoundsDatetime] is not modelled.
    - The file system is a field of [Cli.Collaborators]: writing the CSV
      file succeeds or raises.  Logging and printing do not raise.
    - [DataFrame.sort_values] is called with its default [kind]
      (["quicksort"]); what pandas documents for it is the contract
      [SortValues], and [Numpy] is the sort that runs behind it. *)

From Stdlib Require Import ZArith QArith Qabs Lia Lqa String Ascii.
From Stdlib Require Floats Uint63.
From stdpp Require Import base list gmap strings sorting.
From Equations Require Import Equations.

Local Open Scope Z_scope.

#[local] Set Warnings "-inexact-float".

(* ===================================================================== *)
(** ** Floats *)
(* ===================================================================== *)

Module Float.

Inductive fnum : Type :=
| Fin (q : Q)
| PInf
| NInf
| NaN.

Definition isnan (x : fnum) : bool :=
  match x with NaN => true | _ => false end.

Definition is_finite (x : fnum) : Prop :=
  match x with Fin _ => True | _ => False end.

(** Numeric equality of two floats, [nan] apart: finite values are compared
    as rationals, so [Fin (1#2)] and [Fin (2#4)] are the same float. *)
Definition feq (x y : fnum) : Prop :=
  match x, y with
  | Fin a, Fin b => (a == b)%Q
  | PInf, PInf | NInf, NInf | NaN, NaN => True
  | _, _ => False
  end.

Definition Qsgn (q : Q) : Z := Z.sgn (Qnum q).

Definition Qeqb (a b : Q) : bool := Qeq_bool a b.
Definition Qleb (a b : Q) : bool := Qle_bool a b.
Definition Qltb (a b : Q) : bool := negb (Qle_bool b a).

Definition fneg (x : fnum) : fnum :=
  match x with
  | Fin q => Fin (- q)%Q
  | PInf => NInf
  | NInf => PInf
  | NaN => NaN
  end.

Definition fabs (x : fnum) : fnum :=
  match x with
  | Fin q => Fin (Qabs q)
  | PInf | NInf => PInf
  | NaN => NaN
  end.

Definition fadd (x y : fnum) : fnum :=
  match x, y with
  | NaN, _ | _, NaN => NaN
  | Fin a, Fin b => Fin (a + b)%Q
  | PInf, NInf | NInf, PInf => NaN
  | PInf, _ | _, PInf => PInf
  | NInf, _ | _, NInf => NInf
  end.

Definition fsub (x y : fnum) : fnum := fadd x (fneg y).

(** The infinity with the sign [s], [nan] for [s = 0]. *)
Definition inf_of_sign (s : Z) : fnum :=
  match s with
  | Z0 => NaN
  | Zpos _ => PInf
  | Zneg _ => NInf
  end.

Definition fsign (x : fnum) : Z :=
  match x with
  | Fin q => Qsgn q
  | PInf => 1
  | NInf => -1
  | NaN => 0
  end.

Definition fmul (x y : fnum) : fnum :=
  match x, y with
  | NaN, _ | _, NaN => NaN
  | Fin a, Fin b => Fin (a * b)%Q
  | _, _ => inf_of_sign (fsign x * fsign y)
  end.

(** True division as numpy performs it on a column: a zero divisor gives
    an infinity or [nan], never an exception.  Python's scalar [/] agrees
    with it whenever the divisor is not zero, which every scalar division
    of the program guarantees by a guard. *)
Definition fdiv (x y : fnum) : fnum :=
  match x, y with
  | NaN, _ | _, NaN => NaN
  | Fin a, Fin b =>
      if Qeqb b 0 then inf_of_sign (Qsgn a) else Fin (a / b)%Q
  | Fin _, _ => Fin 0
  | _, Fin b =>
      if Qeqb b 0 then x else inf_of_sign (fsign x * Qsgn b)
  | _, _ => NaN
  end.

(** Comparisons; every comparison with [nan] is false. *)
Definition fltb (x y : fnum) : bool :=
  match x, y with
  | NaN, _ | _, NaN => false
  | Fin a, Fin b => Qltb a b
  | NInf, NInf | PInf, PInf => false
  | NInf, _ | _, PInf => true
  | _, _ => false
  end.

Definition fleb (x y : fnum) : bool :=
  match x, y with
  | NaN, _ | _, NaN => false
  | Fin a, Fin b => Qleb a b
  | NInf, _ | _, PInf => true
  | _, _ => false
  end.

Definition fgtb (x y : fnum) : bool := fltb y x.
Definition fgeb (x y : fnum) : bool := fleb y x.

Definition feqb (x y : fnum) : bool :=
  match x, y with
  | Fin a, Fin b => Qeqb a b
  | PInf, PInf | NInf, NInf => true
  | _, _ => false
  end.

(** [bool(x)] of a float: everything but zero is truthy, [nan] included. *)
Definition truthy (x : fnum) : bool := negb (feqb x (Fin 0)).

Definition of_Z (n : Z) : fnum := Fin (inject_Z n).
Definition of_bool (b : bool) : fnum := Fin (if b then 1 else 0).

End Float.
Export Float.

(* ===================================================================== *)
(** ** pandas series *)
(* ===================================================================== *)

Module Series.

(** Insertion into a list ordered by [leb], after the elements that are
    not greater. *)
Fixpoint insert_sorted {A} (leb : A -> A -> bool) (x : A) (l : list A) : list A :=
  match l with
  | [] => [x]
  | y :: l' => if leb y x then y :: insert_sorted leb x l' else x :: l
  end.

Fixpoint isort {A} (leb : A -> A -> bool) (l : list A) : list A :=
  match l with
  | [] => []
  | x :: l' => insert_sorted leb x (isort leb l')
  end.

Definition fsum (s : list fnum) : fnum := foldl fadd (Fin 0) s.

Definition flen {A} (s : list A) : fnum := of_Z (Z.of_nat (length s)).

(** [Series.dropna()] on a float column. *)
Definition dropna (s : list fnum) : list fnum :=
  filter (fun x => isnan x = false) s.

(** [Series.mean()] ([skipna=True]); the mean of nothing is [nan]. *)
Definition mean (s : list fnum) : fnum :=
  let v := dropna s in
  match v with
  | [] => NaN
  | _ => fdiv (fsum v) (flen v)
  end.

(** [Series.mean()] of a boolean column: the share of [True]. *)
Definition mean_bool (s : list bool) : fnum := mean (of_bool <$> s).

(** [Series.median()] ([skipna=True]): the middle value of the sorted
    non-missing values, or the mean of the two middle ones. *)
Definition median (s : list fnum) : fnum :=
  let v := isort fleb (dropna s) in
  let n := length v in
  match n with
  | O => NaN
  | _ =>
      if Nat.even n
      then fdiv (fadd (nth (n / 2 - 1) v NaN) (nth (n / 2) v NaN)) (Fin 2)
      else nth (n / 2) v NaN
  end.

Definition abs (s : list fnum) : list fnum := fabs <$> s.

(** [Series.max()] and [Series.min()] of a column of finite numbers. *)
Definition qmax (x : Q) (s : list Q) : Q :=
  foldl (fun a b => if Qleb a b then b else a) x s.
Definition qmin (x : Q) (s : list Q) : Q :=
  foldl (fun a b => if Qleb b a then b else a) x s.

Definition zmax (x : Z) (s : list Z) : Z := foldl Z.max x s.

End Series.

(* ===================================================================== *)
(** ** Doubles *)
(* ===================================================================== *)

(** The values of a float64 column and of a Python [float], bit for bit:
    Rocq's primitive binary64 numbers, whose operations are those of the
    processor (round to nearest, ties to even). *)
Module Binary64.
Import PrimFloat.

Definition double : Set := PrimFloat.float.

Definition zero : double := 0%float.
Definition nan : double := PrimFloat.nan.

Definition fadd (x y : double) : double := PrimFloat.add x y.
Definition fsub (x y : double) : double := PrimFloat.sub x y.
Definition fmul (x y : double) : double := PrimFloat.mul x y.

(** Division as numpy performs it: a zero divisor gives an infinity or
    [nan], never an exception. *)
Definition fdiv (x y : double) : double := PrimFloat.div x y.
Definition fabs (x : double) : double := PrimFloat.abs x.

(** Comparisons; every comparison with [nan] is false. *)
Definition fltb (x y : double) : bool := PrimFloat.ltb x y.
Definition fleb (x y : double) : bool := PrimFloat.leb x y.
Definition fgtb (x y : double) : bool := PrimFloat.ltb y x.
Definition fgeb (x y : double) : bool := PrimFloat.leb y x.
Definition feqb (x y : double) : bool := PrimFloat.eqb x y.

Definition isnan (x : double) : bool := negb (PrimFloat.eqb x x).

(** [bool(x)]: everything but zero is truthy, [nan] included. *)
Definition truthy (x : double) : bool := negb (feqb x zero).

(** [float(n)] of a count. *)
Definition of_count (n : nat) : double :=
  PrimFloat.of_uint63 (Uint63.of_Z (Z.of_nat n)).

(** The rational a finite double stands for. *)
Definition to_Q (x : double) : option Q :=
  match FloatOps.Prim2SF x with
  | SpecFloat.S754_zero _ => Some 0%Q
  | SpecFloat.S754_finite s m e =>
      Some (inject_Z (if s then Z.neg m else Z.pos m) * Qpower 2 e)%Q
  | _ => None
  end.

End Binary64.

(* ===================================================================== *)
(** ** pandas series of doubles *)
(* ===================================================================== *)

Module Series64.
Import PrimFloat Binary64.

(** What is used of the order in which numpy adds the values of a column:
    the sum is built from the values by additions, so that values none of
    which is positive cannot add up to a positive sum, and values none of
    which is negative cannot add up to a negative one. *)
Record Summation : Type := mkSummation {
  sum : list double -> double;
  sum_no_positive : forall s,
    Forall (fun x => fltb zero x = false) s -> fltb zero (sum s) = false;
  sum_no_negative : forall s,
    Forall (fun x => fltb x zero = false) s -> fltb (sum s) zero = false
}.

(** [Series.dropna()]. *)
Definition dropna (s : list double) : list double :=
  filter (fun x => isnan x = false) s.

(** [Series.mean()] ([skipna=True]): the sum divided by the count as a
    double; the mean of nothing is [nan]. *)
Definition mean (np : Summation) (s : list double) : double :=
  let v := dropna s in
  match v with
  | [] => nan
  | _ => fdiv (sum np v) (of_count (length v))
  end.

(** The count of the elements that satisfy [P] divided by the count of all
    of them, as doubles. *)
Definition share {A} (P : A -> bool) (l : list A) : double :=
  fdiv (of_count (length (List.filter P l))) (of_count (length l)).

(** [Series.mean()] of a boolean column.  The column is summed as doubles
    0.0 and 1.0; every partial sum is a whole number, hence exact in any
    order, and the sum is the number of [True]. *)
Definition mean_bool (s : list bool) : double :=
  match s with
  | [] => nan
  | _ => share id s
  end.

Definition abs (s : list double) : list double := fabs <$> s.

(** [Series.median()] ([skipna=True]): the middle value of the sorted
    non-missing values, or the mean of the two middle ones. *)
Definition median (s : list double) : double :=
  let v := Series.isort fleb (dropna s) in
  let n := length v in
  match n with
  | O => nan
  | _ =>
      if Nat.even n
      then fdiv (fadd (nth (n / 2 - 1) v nan) (nth (n / 2) v nan)) 2%float
      else nth (n / 2) v nan
  end.

(** numpy's sum of a contiguous column ([np.add.reduce]): fewer than eight
    values are added one after the other; up to 128 values are added into
    eight accumulators, value [i] into accumulator [i mod 8], the
    accumulators are added pairwise and the values past the last full
    block of eight are added one after the other; a longer column is cut
    in two at a multiple of eight and the sums of the parts are added. *)
Fixpoint add_blocks (r xs : list double) (blocks : nat) : list double * list double :=
  match blocks with
  | O => (r, xs)
  | S k => add_blocks (zip_with fadd r (take 8 xs)) (drop 8 xs) k
  end.

Definition block_sum (xs : list double) : double :=
  let '(r, rest) := add_blocks (take 8 xs) (drop 8 xs) (length xs / 8 - 1) in
  match r with
  | [r0; r1; r2; r3; r4; r5; r6; r7] =>
      foldl fadd
        (fadd (fadd (fadd r0 r1) (fadd r2 r3)) (fadd (fadd r4 r5) (fadd r6 r7)))
        rest
  | _ => nan
  end.

Equations? pairwise_sum (xs : list double) : double by wf (length xs) lt :=
  pairwise_sum xs with lt_dec (length xs) 8 := {
    | left _ => foldl fadd (-0)%float xs
    | right _ with le_dec (length xs) 128 := {
        | left _ => block_sum xs
        | right Hbig =>
            let n2 := (length xs / 2 - (length xs / 2) mod 8)%nat in
            fadd (pairwise_sum (take n2 xs)) (pairwise_sum (drop n2 xs)) } }.
Proof.
  all: pose proof (Nat.div_mod_eq (length xs) 2) as Hd.
  all: pose proof (Nat.mod_upper_bound (length xs) 2 ltac:(lia)) as Hm.
  all: pose proof (Nat.Div0.mod_le (length xs / 2) 8) as Hle.
  all: pose proof (Nat.mod_upper_bound (length xs / 2) 8 ltac:(lia)) as Hm8.
  all: assert (Hn2 : n2 = (length xs / 2 - (length xs / 2) mod 8)%nat) by reflexivity.
  all: clearbody n2.
  - rewrite length_take. lia.
  - rewrite length_drop. lia.
Qed.

Definition numpy_sum (xs : list double) : double := fadd zero (pairwise_sum xs).

End Series64.

(* ===================================================================== *)
(** ** Exceptions *)
(* ===================================================================== *)

Module Exn.

Inductive exn : Type :=
| ValueError (msg : string)
| HTTPError
| OSError (msg : string).

Inductive result (A : Type) : Type :=
| Ok (a : A)
| Raise (e : exn).
Arguments Ok {A} a.
Arguments Raise {A} e.

(** Sequencing: the first raised exception ends the computation. *)
Definition bind {A B} (m : result A) (k : A -> result B) : result B :=
  match m with
  | Ok a => k a
  | Raise e => Raise e
  end.

End Exn.
Export Exn.

Notation "x <- m ;; k" := (bind m (fun x => k))
  (at level 100, m at next level, right associativity, only parsing).

(* ===================================================================== *)
(** ** Dates and timestamps *)
(* ===================================================================== *)

Module Dates.

(** [date.toordinal()]; day 1 is Monday 0001-01-01. *)
Definition date := Z.

(** [date.weekday()]: Monday is 0, Saturday 5, Sunday 6. *)
Definition weekday (d : date) : Z := (d + 6) mod 7.

(** [day + timedelta(days=n)]. *)
Definition add_days (d : date) (n : Z) : date := d + n.

(** [date(1970, 1, 1).toordinal()]. *)
Definition epoch_ordinal : Z := 719163.

Definition ns_per_second : Z := 1000000000.
Definition ns_per_day : Z := 86400 * ns_per_second.

(** The calendar date of a wall clock reading given in nanoseconds since
    1970-01-01T00:00. *)
Definition date_of_wall_ns (w : Z) : date := w / ns_per_day + epoch_ordinal.

Inductive tzinfo : Type :=
| UTC
| EASTERN
| OtherZone (name : string).

(** A pandas [Timestamp]: [ts_value] counts nanoseconds since the epoch, in
    UTC when the timestamp carries a zone and on the wall clock when it
    does not. *)
Record Timestamp : Type := mkTimestamp {
  ts_value : Z;
  ts_tz : option tzinfo
}.

(** [ts.tz_localize(timezone.utc)] on a zone-naive timestamp: the wall
    clock reading is taken as UTC. *)
Definition tz_localize_utc (ts : Timestamp) : Timestamp :=
  {| ts_value := ts_value ts; ts_tz := Some UTC |}.

(** [ts.tz_convert(tz)] on a zone-aware timestamp: same instant, other
    zone. *)
Definition tz_convert (ts : Timestamp) (tz : tzinfo) : Timestamp :=
  {| ts_value := ts_value ts; ts_tz := Some tz |}.

(** [datetime.combine(day, tm, tzinfo=tz)]; the time is kept in seconds
    since midnight. *)
Record datetime : Type := mkDatetime {
  dt_day : date;
  dt_time : Z;
  dt_tz : tzinfo
}.

Definition time (h m s : Z) : Z := (h * 60 + m) * 60 + s.

End Dates.
Export Dates.

(* ===================================================================== *)
(** ** DataFrame.sort_values *)
(* ===================================================================== *)

Module Sorting.

(** Order of two cells of the sort column: ascending or descending on the
    values, missing cells after all others ([na_position="last"]). *)
Definition key_le (ascending : bool) (a b : option Z) : Prop :=
  match a, b with
  | _, None => True
  | None, Some _ => False
  | Some x, Some y => if ascending then x <= y else y <= x
  end.

Definition column_sorted (ascending : bool) (keys : list (option Z)) : Prop :=
  StronglySorted (key_le ascending) keys.

(** What pandas documents for [sort_values(by, ascending)] with the default
    [kind="quicksort"]: the rows come back reordered so that the column is
    sorted.  Nothing is promised about rows with equal keys. *)
Record SortValues : Type := mkSortValues {
  sort_values : forall A : Type, (A -> option Z) -> bool -> list A -> list A;
  sort_values_perm : forall A key asc (l : list A),
    sort_values A key asc l ≡ₚ l;
  sort_values_sorted : forall A key asc (l : list A),
    column_sorted asc (key <$> sort_values A key asc l)
}.
Arguments sort_values _ {A} _ _ _.

Definition key_leb (ascending : bool) (a b : option Z) : bool :=
  match a, b with
  | _, None => true
  | None, Some _ => false
  | Some x, Some y => if ascending then x <=? y else y <=? x
  end.

(** Insertion of a row in front of the first row whose key is not
    smaller. *)
Fixpoint insert_front {A} (key : A -> option Z) (asc : bool) (x : A) (l : list A) : list A :=
  match l with
  | [] => [x]
  | y :: l' =>
      if key_leb asc (key x) (key y) then x :: l
      else y :: insert_front key asc x l'
  end.

(** A stable sort on the column: every row is inserted into the sorted
    rows that followed it, in front of those with the same key. *)
Definition stable_sort {A} (key : A -> option Z) (asc : bool) (l : list A) : list A :=
  foldr (insert_front key asc) [] l.

End Sorting.
Export Sorting.

(* ===================================================================== *)
(** ** numpy's quicksort behind [sort_values] *)
(* ===================================================================== *)

(** [DataFrame.sort_values(by)] computes an indexer with [nargsort] and
    takes the rows in its order.  [nargsort] sets the missing keys aside,
    sorts the others with [ndarray.argsort(kind="quicksort")] and puts the
    missing ones last.  numpy's portable [quicksort] on an index array is
    an introsort: median-of-three partitioning while a segment has more
    than 16 elements, the larger part going on a stack, and insertion sort
    on the segments that remain.  (When partitioning degenerates numpy
    changes to heapsort; builds for processors with vector units replace
    the whole by a sorting network.  Neither is stable either, and neither
    is modelled: [aquicksort] returns [None] at the depth limit.) *)
Module Numpy.

(** [*p] and [v[*p]] for a pointer [p] into the index array [tosort]. *)
Definition item (tosort : list nat) (p : Z) : nat := nth (Z.to_nat p) tosort 0%nat.
Definition store (tosort : list nat) (p : Z) (x : nat) : list nat :=
  <[Z.to_nat p := x]> tosort.
Definition at_ (v : list Z) (tosort : list nat) (p : Z) : Z :=
  nth (item tosort p) v 0.

(** [INTP_SWAP( *p, *q)]. *)
Definition swap (tosort : list nat) (p q : Z) : list nat :=
  store (store tosort p (item tosort q)) q (item tosort p).

Definition SMALL_QUICKSORT : Z := 15.

(** [do { ++pi; } while (v[*pi] < vp);] *)
Fixpoint scan_up (fuel : nat) (v : list Z) (tosort : list nat) (vp pi : Z) : option Z :=
  match fuel with
  | O => None
  | S fuel =>
      let pi := pi + 1 in
      if at_ v tosort pi <? vp then scan_up fuel v tosort vp pi else Some pi
  end.

(** [do { --pj; } while (vp < v[*pj]);] *)
Fixpoint scan_down (fuel : nat) (v : list Z) (tosort : list nat) (vp pj : Z) : option Z :=
  match fuel with
  | O => None
  | S fuel =>
      let pj := pj - 1 in
      if vp <? at_ v tosort pj then scan_down fuel v tosort vp pj else Some pj
  end.

(** The [for (;;)] loop of the partition: both scans, then a swap unless
    the pointers have met. *)
Fixpoint exchange (fuel : nat) (v : list Z) (tosort : list nat) (vp pi pj : Z)
    : option (list nat * Z) :=
  match fuel with
  | O => None
  | S fuel =>
      match scan_up (S (length tosort)) v tosort vp pi with
      | None => None
      | Some pi =>
          match scan_down (S (length tosort)) v tosort vp pj with
          | None => None
          | Some pj =>
              if pj <=? pi then Some (tosort, pi)
              else exchange fuel v (swap tosort pi pj) vp pi pj
          end
      end
  end.

(** One partition of the segment [pl..pr]: its index array and the place
    of the pivot. *)
Definition partition (v : list Z) (tosort : list nat) (pl pr : Z) : option (list nat * Z) :=
  let pm := pl + Z.shiftr (pr - pl) 1 in
  let tosort := if at_ v tosort pm <? at_ v tosort pl then swap tosort pm pl else tosort in
  let tosort := if at_ v tosort pr <? at_ v tosort pm then swap tosort pr pm else tosort in
  let tosort := if at_ v tosort pm <? at_ v tosort pl then swap tosort pm pl else tosort in
  let vp := at_ v tosort pm in
  let pi := pl in
  let pj := pr - 1 in
  let tosort := swap tosort pm pj in
  match exchange (S (length tosort)) v tosort vp pi pj with
  | None => None
  | Some (tosort, pi) =>
      let pk := pr - 1 in
      Some (swap tosort pi pk, pi)
  end.

(** A segment still to be sorted, with the depth left for it. *)
Definition segment : Type := (Z * Z * Z)%type.

(** [while ((pr - pl) > SMALL_QUICKSORT)]: partition, push the larger part,
    go on with the smaller one. *)
Fixpoint partitions (fuel : nat) (v : list Z) (tosort : list nat) (pl pr cdepth : Z)
    (stack : list segment) : option (list nat * Z * Z * Z * list segment) :=
  match fuel with
  | O => None
  | S fuel =>
      if SMALL_QUICKSORT <? pr - pl then
        match partition v tosort pl pr with
        | None => None
        | Some (tosort, pi) =>
            let cdepth := cdepth - 1 in
            if pi - pl <? pr - pi
            then partitions fuel v tosort pl (pi - 1) cdepth ((pi + 1, pr, cdepth) :: stack)
            else partitions fuel v tosort (pi + 1) pr cdepth ((pl, pi - 1, cdepth) :: stack)
        end
      else Some (tosort, pl, pr, cdepth, stack)
  end.

(** [while (pj > pl && vp < v[*pk]) { *pj-- = *pk--; }] *)
Fixpoint sift (fuel : nat) (v : list Z) (tosort : list nat) (vp pl pj : Z) : list nat * Z :=
  match fuel with
  | O => (tosort, pj)
  | S fuel =>
      if (pl <? pj) && (vp <? at_ v tosort (pj - 1))
      then sift fuel v (store tosort pj (item tosort (pj - 1))) vp pl (pj - 1)
      else (tosort, pj)
  end.

(** The insertion sort of the segment [pl..pr], from [pi] on. *)
Fixpoint insertion (fuel : nat) (v : list Z) (tosort : list nat) (pl pr pi : Z) : list nat :=
  match fuel with
  | O => tosort
  | S fuel =>
      if pi <=? pr then
        let vi := item tosort pi in
        let vp := nth vi v 0 in
        let '(tosort, pj) := sift (Z.to_nat (pi - pl)) v tosort vp pl pi in
        insertion fuel v (store tosort pj vi) pl pr (pi + 1)
      else tosort
  end.

(** The outer loop: a segment is partitioned down, insertion-sorted, and
    the next one is popped off the stack. *)
Fixpoint segments (fuel : nat) (v : list Z) (tosort : list nat) (pl pr cdepth : Z)
    (stack : list segment) : option (list nat) :=
  match fuel with
  | O => None
  | S fuel =>
      if cdepth <? 0 then None
      else
        match partitions (S (length tosort)) v tosort pl pr cdepth stack with
        | None => None
        | Some (tosort, pl, pr, cdepth, stack) =>
            let tosort := insertion (Z.to_nat (pr - pl)) v tosort pl pr (pl + 1) in
            match stack with
            | [] => Some tosort
            | (pl, pr, cdepth) :: stack => segments fuel v tosort pl pr cdepth stack
            end
        end
  end.

(** [aquicksort] on the keys [v]: the indices [0 .. num-1] in the order of
    their keys. *)
Definition aquicksort (v : list Z) : option (list nat) :=
  let num := Z.of_nat (length v) in
  segments (S (length v)) v (seq 0 (length v)) 0 (num - 1) (2 * Z.log2 num) [].

(** pandas' [nargsort] with [na_position="last"]. *)
Definition nargsort (keys : list (option Z)) (ascending : bool) : option (list nat) :=
  let idx := seq 0 (length keys) in
  let non_nan_idx := filter (fun i => is_Some (mjoin (keys !! i))) idx in
  let nan_idx := filter (fun i => mjoin (keys !! i) = None) idx in
  let non_nans := omap id keys in
  if ascending then
    (fun order => ((fun i => nth i non_nan_idx 0%nat) <$> order) ++ nan_idx)
      <$> aquicksort non_nans
  else
    (fun order =>
       reverse ((fun i => nth i (reverse non_nan_idx) 0%nat) <$> order) ++ nan_idx)
      <$> aquicksort (reverse non_nans).

(** [DataFrame.take(indexer)]. *)
Definition take_rows {A} (rows : list A) (indexer : list nat) : list A :=
  omap (fun i => rows !! i) indexer.

(** The rows in the order of the indexer.  That the indexer is a
    rearrangement of the positions which sorts the column is tested rather
    than proved here; the stable sort stands in for anything else. *)
Definition sort_values {A} (key : A -> option Z) (ascending : bool) (rows : list A) : list A :=
  match nargsort (key <$> rows) ascending with
  | Some indexer =>
      if bool_decide (indexer ≡ₚ seq 0 (length rows)) &&
         forallb (fun '(a, b) => key_leb ascending a b)
           (let keys := key <$> take_rows rows indexer in zip keys (tail keys))
      then take_rows rows indexer
      else stable_sort key ascending rows
  | None => stable_sort key ascending rows
  end.

End Numpy.

(* ===================================================================== *)
(** ** intraday.py: the Polygon client and the session resolver *)
(* ===================================================================== *)

Module Intraday.

Inductive timespan : Type := Minute | Day.

(** One element of the [results] array of an aggregates response; the
    provider's schema gives every aggregate its timestamp (milliseconds
    since the epoch) and its o/h/l/c/v numbers. *)
Record Agg : Type := mkAgg {
  agg_t : Z;
  agg_o : Q;
  agg_h : Q;
  agg_l : Q;
  agg_c : Q;
  agg_v : Q
}.

(** A row of the intraday frame and a row of the daily frame. *)
Record Bar : Type := mkBar {
  bar_timestamp : Timestamp;
  bar_open : Q;
  bar_high : Q;
  bar_low : Q;
  bar_close : Q;
  bar_volume : Q
}.

Record DailyBar : Type := mkDailyBar {
  db_date : date;
  db_open : Q;
  db_high : Q;
  db_low : Q;
  db_close : Q;
  db_volume : Q
}.

(** The client with what it reaches outside the program: the zone database
    behind [ZoneInfo("US/Eastern")] (offset from UTC in seconds at an
    instant given in nanoseconds) and the HTTP endpoint
    [/v2/aggs/ticker/{ticker}/range/{n}/{timespan}/{from}/{to}] with its
    [limit], answering with the [results] array or raising.  The range is
    kept as the two datetimes from which [_to_millis] builds the path. *)
Record PolygonIntradayClient : Type := mkClient {
  eastern_utcoffset : Z -> Z;
  _request : string -> Z -> timespan -> datetime -> datetime -> Z ->
             result (list Agg)
}.

Definition upper_ascii (c : ascii) : ascii :=
  let n := N_of_ascii c in
  if ((97 <=? n) && (n <=? 122))%N then ascii_of_N (n - 32) else c.

(** [str.upper()] on the ASCII letters; no character outside ASCII
    upper-cases to one of the letters of AMC and BMO. *)
Fixpoint upper (s : string) : string :=
  match s with
  | EmptyString => EmptyString
  | String c s' => String (upper_ascii c) (upper s')
  end.

(** [release_flag in {"AMC", "BMO"}]. *)
Definition supported_flag (release_flag : string) : bool :=
  String.eqb release_flag "AMC" || String.eqb release_flag "BMO".

Definition _combine_day_time (day : date) (tm : Z) (tz : tzinfo) : datetime :=
  {| dt_day := day; dt_time := tm; dt_tz := tz |}.

(** [Timestamp.date()]: the calendar date on the wall clock of the
    timestamp's own zone. *)
Definition ts_date (self : PolygonIntradayClient) (ts : Timestamp) : date :=
  match ts_tz ts with
  | Some EASTERN =>
      date_of_wall_ns (ts_value ts + eastern_utcoffset self (ts_value ts) * ns_per_second)
  | _ => date_of_wall_ns (ts_value ts)
  end.

Definition _normalize_timestamp (value : Timestamp) : Timestamp :=
  let ts := value in
  let ts := match ts_tz ts with
            | None => tz_localize_utc ts
            | Some _ => ts
            end in
  tz_convert ts EASTERN.

(** The [while next_day.weekday() >= 5] loop of [_next_trading_day]. *)
Equations? next_trading_loop (next_day : date) : date
  by wf (Z.to_nat ((7 - weekday next_day) mod 7)) lt :=
  next_trading_loop next_day with Z_ge_dec (weekday next_day) 5 := {
    | left _ => next_trading_loop (add_days next_day 1)
    | right _ => next_day }.
Proof.
  unfold weekday, add_days in *.
  replace (next_day + 1 + 6) with ((next_day + 6) + 1) by lia.
  rewrite (Z.add_mod (next_day + 6) 1 7) by lia.
  pose proof (Z.mod_pos_bound (next_day + 6) 7 ltac:(lia)) as Hb.
  assert (Hc : (next_day + 6) mod 7 = 5 \/ (next_day + 6) mod 7 = 6) by lia.
  destruct Hc as [-> | ->]; vm_compute; lia.
Qed.

Definition _next_trading_day (day : date) : date :=
  next_trading_loop (add_days day 1).

(** The [while prev_day.weekday() >= 5] loop of [_previous_trading_day]. *)
Equations? previous_trading_loop (prev_day : date) : date
  by wf (Z.to_nat (weekday prev_day)) lt :=
  previous_trading_loop prev_day with Z_ge_dec (weekday prev_day) 5 := {
    | left _ => previous_trading_loop (add_days prev_day (-1))
    | right _ => prev_day }.
Proof.
  unfold weekday, add_days in *.
  replace (prev_day + -1 + 6) with ((prev_day + 6) + -1) by lia.
  rewrite (Z.add_mod (prev_day + 6) (-1) 7) by lia.
  pose proof (Z.mod_pos_bound (prev_day + 6) 7 ltac:(lia)) as Hb.
  assert (Hc : (prev_day + 6) mod 7 = 5 \/ (prev_day + 6) mod 7 = 6) by lia.
  destruct Hc as [-> | ->]; vm_compute; lia.
Qed.

Definition _previous_trading_day (day : date) : date :=
  previous_trading_loop (add_days day (-1)).

Definition get_session_day (self : PolygonIntradayClient)
    (earnings_date : Timestamp) (release_flag : string) : result date :=
  let release_flag := upper release_flag in
  if negb (supported_flag release_flag)
  then Raise (ValueError "release_flag must be 'AMC' or 'BMO'.")
  else
    let earnings_ts := _normalize_timestamp earnings_date in
    if String.eqb release_flag "AMC"
    then Ok (_next_trading_day (ts_date self earnings_ts))
    else Ok (ts_date self earnings_ts).

Definition bar_of_agg (a : Agg) : Bar :=
  {| bar_timestamp := {| ts_value := agg_t a * 1000000; ts_tz := Some EASTERN |};
     bar_open := agg_o a; bar_high := agg_h a; bar_low := agg_l a;
     bar_close := agg_c a; bar_volume := agg_v a |}.

Definition _fetch_agg_bars (self : PolygonIntradayClient) (ticker : string)
    (start_dt end_dt : datetime) : result (list Bar) :=
  results <- _request self ticker 5 Minute start_dt end_dt 50000 ;;
  Ok (bar_of_agg <$> results).

Definition get_intraday_window (self : PolygonIntradayClient) (ticker : string)
    (earnings_date : Timestamp) (release_flag : string) : result (list Bar) :=
  let release_flag := upper release_flag in
  if negb (supported_flag release_flag)
  then Raise (ValueError "release_flag must be 'AMC' or 'BMO'.")
  else
    session_day <- get_session_day self earnings_date release_flag ;;
    let start_dt := _combine_day_time session_day (time 9 30 0) EASTERN in
    let end_dt := _combine_day_time session_day (time 16 0 0) EASTERN in
    _fetch_agg_bars self ticker start_dt end_dt.

Definition get_previous_close (self : PolygonIntradayClient) (ticker : string)
    (session_day : date) : result (option Q) :=
  let prev_day := _previous_trading_day session_day in
  let start_dt := _combine_day_time prev_day (time 0 0 0) UTC in
  let end_dt := _combine_day_time prev_day (time 23 59 59) UTC in
  results <- _request self ticker 1 Day start_dt end_dt 2 ;;
  match last results with
  | None => Ok None
  | Some a => Ok (Some (agg_c a))
  end.

Definition daily_of_agg (self : PolygonIntradayClient) (a : Agg) : DailyBar :=
  {| db_date := ts_date self {| ts_value := agg_t a * 1000000; ts_tz := Some EASTERN |};
     db_open := agg_o a; db_high := agg_h a; db_low := agg_l a;
     db_close := agg_c a; db_volume := agg_v a |}.

Definition get_daily_bars (self : PolygonIntradayClient) (ticker : string)
    (start_day end_day : date) : result (list DailyBar) :=
  let start_dt := _combine_day_time start_day (time 0 0 0) UTC in
  let end_dt := _combine_day_time end_day (time 23 59 59) UTC in
  results <- _request self ticker 1 Day start_dt end_dt 5000 ;;
  Ok (daily_of_agg self <$> results).

End Intraday.
Export Intraday.

(* ===================================================================== *)
(** ** analyzer.py: the event reaction analyzer *)
(* ===================================================================== *)

(** A row of the events frame built by the earnings fetcher. *)
Module Event.

Record t : Type := mk {
  ticker : string;
  earnings_date : option Timestamp;
  period : string;
  eps : option Q;
  eps_est : option Q;
  surprise : option Q;
  release_flag : option string
}.

End Event.

(** A row of the reaction metrics frame. *)
Module Metric.

Record t : Type := mk {
  ticker : string;
  earnings_date : Timestamp;
  release_flag : string;
  session_day : date;
  gap_ret : option Q;
  oc_ret : option Q;
  range_pct : option Q;
  open : Q;
  close : Q;
  high : Q;
  low : Q;
  prev_close : option Q
}.

End Metric.

Module Analyzer.

(** [str(cell)] of the release flag cell; a missing cell prints as its
    marker. *)
Definition str (cell : option string) : string :=
  match cell with
  | Some s => s
  | None => "<NA>"
  end.

(** The sort column [earnings_date]; [NaT] is the missing key. *)
Definition earnings_key (event : Event.t) : option Z :=
  ts_value <$> Event.earnings_date event.

(** The body of the loop once the bars of the session are there:
    [intraday_df] is [first :: rest]. *)
Definition reaction_record (ticker : string) (earnings_date : Timestamp)
    (release_flag : string) (session_day : date)
    (first : Bar) (rest : list Bar) (prev_close : option Q) : Metric.t :=
  let open_price := bar_open first in
  let close_price := bar_close (List.last rest first) in
  let high_price := Series.qmax (bar_high first) (bar_high <$> rest) in
  let low_price := Series.qmin (bar_low first) (bar_low <$> rest) in
  let gap_ret :=
    (* [if prev_close and prev_close != 0]: truthiness, then the test *)
    match prev_close with
    | Some p =>
        if negb (Qeqb p 0) && negb (Qeqb p 0)
        then Some (open_price / p - 1)%Q
        else None
    | None => None
    end in
  let oc_ret :=
    if negb (Qeqb open_price 0)
    then Some (close_price / open_price - 1)%Q else None in
  let range_pct :=
    if negb (Qeqb open_price 0)
    then Some ((high_price - low_price) / open_price)%Q else None in
  {| Metric.ticker := ticker;
     Metric.earnings_date := earnings_date;
     Metric.release_flag := release_flag;
     Metric.session_day := session_day;
     Metric.gap_ret := gap_ret;
     Metric.oc_ret := oc_ret;
     Metric.range_pct := range_pct;
     Metric.open := open_price;
     Metric.close := close_price;
     Metric.high := high_price;
     Metric.low := low_price;
     Metric.prev_close := prev_close |}.

(** [for _, event in events_sorted.iterrows()], with [records] as built so
    far. *)
Fixpoint iterrows (self : PolygonIntradayClient) (ticker : string)
    (events_sorted : list Event.t) (records : list Metric.t)
    : result (list Metric.t) :=
  match events_sorted with
  | [] => Ok records
  | event :: events_rest =>
      let release_flag := upper (str (Event.release_flag event)) in
      if negb (supported_flag release_flag)
      then iterrows self ticker events_rest records
      else
        match Event.earnings_date event with
        | None => iterrows self ticker events_rest records
        | Some earnings_date =>
            session_day <- get_session_day self earnings_date release_flag ;;
            intraday_df <- get_intraday_window self ticker earnings_date release_flag ;;
            match intraday_df with
            | [] => iterrows self ticker events_rest records
            | first :: rest =>
                prev_close <- get_previous_close self ticker session_day ;;
                iterrows self ticker events_rest
                  (records ++ [reaction_record ticker earnings_date release_flag
                                 session_day first rest prev_close])
            end
        end
  end.

(** [events.sort_values("earnings_date")]. *)
Definition events_sorted (pd : SortValues) (events : list Event.t) : list Event.t :=
  sort_values pd earnings_key true events.

Definition analyze_ticker (pd : SortValues) (self : PolygonIntradayClient)
    (ticker : string) (events : list Event.t) : result (list Metric.t) :=
  match events with
  | [] => Ok []
  | _ => iterrows self ticker (events_sorted pd events) []
  end.

End Analyzer.

(* ===================================================================== *)
(** ** consistency.py: the consistency scorer *)
(* ===================================================================== *)

(** The series returned by [ConsistencyScorer.score]. *)
Module Score.

Record t : Type := mk {
  hit_main_dir : fnum;
  big_move_hit : fnum;
  boost : fnum;
  score : fnum;
  events_count : Z
}.

Definition zero : t :=
  {| hit_main_dir := Fin 0; big_move_hit := Fin 0; boost := Fin 0;
     score := Fin 0; events_count := 0 |}.

End Score.

Module ConsistencyScorer.

Record t : Type := mk {
  intraday_client : PolygonIntradayClient;
  sample_non_earnings_days : Z;
  non_earnings_lookback_days : Z
}.

(** The dataclass defaults. *)
Definition make (intraday_client : PolygonIntradayClient) : t :=
  {| intraday_client := intraday_client;
     sample_non_earnings_days := 10;
     non_earnings_lookback_days := 120 |}.

(** [DataFrame.head(n)]: the first [n] rows, all but the last [-n] for a
    negative [n]. *)
Definition head {A} (n : Z) (l : list A) : list A :=
  if 0 <=? n then take (Z.to_nat n) l
  else take (length l - Z.to_nat (- n)) l.

(** The column [oc_ret] as floats, a missing cell as [nan]. *)
Definition column_oc_ret (rows : list Metric.t) : list fnum :=
  (fun r => match Metric.oc_ret r with Some q => Fin q | None => NaN end) <$> rows.

(** [events_metrics.dropna(subset=["oc_ret"])]. *)
Definition dropna_oc_ret (rows : list Metric.t) : list Metric.t :=
  filter (fun r => is_Some (Metric.oc_ret r)) rows.

(** [lambda x: 1 if x > 0 else (-1 if x < 0 else 0)]. *)
Definition sign_of (x : fnum) : Z :=
  if fgtb x (Fin 0) then 1 else if fltb x (Fin 0) then -1 else 0.

(** [df["close"] / df["open"] - 1] on one row of the daily frame. *)
Definition daily_oc_ret (b : DailyBar) : fnum :=
  fsub (fdiv (Fin (db_close b)) (Fin (db_open b))) (Fin 1).

Definition _median_abs_oc_non_earnings (pd : SortValues) (self : t)
    (ticker : string) (events_metrics : list Metric.t) : result fnum :=
  let session_days := Metric.session_day <$> events_metrics in
  match session_days with
  | [] => Ok (Fin 0)
  | day0 :: days =>
      let end_day := Series.zmax day0 days in
      let start_day := add_days end_day (- non_earnings_lookback_days self) in
      daily_bars <- get_daily_bars (intraday_client self) ticker start_day end_day ;;
      match daily_bars with
      | [] => Ok (Fin 0)
      | _ =>
          let earnings_days : gset Z := list_to_set session_days in
          let masked := filter (fun b => db_date b ∉ earnings_days) daily_bars in
          let candidates :=
            head (sample_non_earnings_days self)
                 (sort_values pd (fun b => Some (db_date b)) false masked) in
          match candidates with
          | [] => Ok (Fin 0)
          | _ => Ok (Series.median (Series.abs (daily_oc_ret <$> candidates)))
          end
      end
  end.

Definition score (pd : SortValues) (self : t) (ticker : string)
    (events_metrics : list Metric.t) : result Score.t :=
  match events_metrics with
  | [] => Ok Score.zero
  | _ =>
      let valid_events := dropna_oc_ret events_metrics in
      let events_count := Z.of_nat (length valid_events) in
      if events_count =? 0 then Ok Score.zero
      else
        let oc := column_oc_ret valid_events in
        let mean_oc := Series.mean oc in
        let sign_mean :=
          if fgtb mean_oc (Fin 0) then 1
          else if fltb mean_oc (Fin 0) then -1 else 0 in
        let hit_main_dir :=
          if sign_mean =? 0 then Fin 0
          else
            let signs := sign_of <$> oc in
            Series.mean_bool ((fun s => s =? sign_mean) <$> signs) in
        let big_move_hit :=
          Series.mean_bool ((fun x => fgeb x (Fin 0.02)) <$> Series.abs oc) in
        let earnings_median_abs := Series.median (Series.abs oc) in
        non_earnings_median_abs <-
          _median_abs_oc_non_earnings pd self ticker valid_events ;;
        let boost :=
          if truthy non_earnings_median_abs && fgtb non_earnings_median_abs (Fin 0)
          then fdiv earnings_median_abs non_earnings_median_abs
          else Fin 0 in
        let score :=
          fadd (fadd (fmul (Fin 0.5) hit_main_dir) (fmul (Fin 0.3) big_move_hit))
               (fmul (Fin 0.2) boost) in
        Ok {| Score.hit_main_dir := hit_main_dir;
              Score.big_move_hit := big_move_hit;
              Score.boost := boost;
              Score.score := score;
              Score.events_count := events_count |}
  end.

End ConsistencyScorer.

(* ===================================================================== *)
(** ** consistency.py on doubles *)
(* ===================================================================== *)

(** The scorer once more, with every number a double and every operation
    rounded as the processor rounds it.  The scorer reads two columns of
    the metrics table, [oc_ret] (a float64 column, a missing cell being
    [nan]) and [session_day], and three columns of the daily frame that
    [get_daily_bars] returns. *)
Module Score64.
Import Binary64.

Record t : Type := mk {
  hit_main_dir : double;
  big_move_hit : double;
  boost : double;
  score : double;
  events_count : Z
}.

Definition zero : t :=
  {| hit_main_dir := Binary64.zero; big_move_hit := Binary64.zero;
     boost := Binary64.zero; score := Binary64.zero; events_count := 0 |}.

End Score64.

Module ConsistencyScorer64.
Import PrimFloat Binary64.

(** A row of [events_metrics] and a row of the daily frame, as far as the
    scorer reads them. *)
Record MetricsRow : Type := mkMetricsRow {
  oc_ret : double;
  session_day : date
}.

Record DailyRow : Type := mkDailyRow {
  daily_date : date;
  daily_open : double;
  daily_close : double
}.

(** The scorer; [get_daily_bars] is the method of its [intraday_client]. *)
Record t : Type := mk {
  get_daily_bars : string -> date -> date -> result (list DailyRow);
  sample_non_earnings_days : Z;
  non_earnings_lookback_days : Z
}.

(** The dataclass defaults. *)
Definition make (get_daily_bars : string -> date -> date -> result (list DailyRow)) : t :=
  {| get_daily_bars := get_daily_bars;
     sample_non_earnings_days := 10;
     non_earnings_lookback_days := 120 |}.

Definition column_oc_ret (rows : list MetricsRow) : list double := oc_ret <$> rows.

(** [events_metrics.dropna(subset=["oc_ret"])]. *)
Definition dropna_oc_ret (rows : list MetricsRow) : list MetricsRow :=
  filter (fun r => isnan (oc_ret r) = false) rows.

(** [lambda x: 1 if x > 0 else (-1 if x < 0 else 0)]. *)
Definition sign_of (x : double) : Z :=
  if fgtb x 0%float then 1 else if fltb x 0%float then -1 else 0.

(** [df["close"] / df["open"] - 1] on one row of the daily frame. *)
Definition daily_oc_ret (b : DailyRow) : double :=
  fsub (fdiv (daily_close b) (daily_open b)) 1%float.

Definition _median_abs_oc_non_earnings (pd : SortValues) (self : t)
    (ticker : string) (events_metrics : list MetricsRow) : result double :=
  let session_days := session_day <$> events_metrics in
  match session_days with
  | [] => Ok 0%float
  | day0 :: days =>
      let end_day := Series.zmax day0 days in
      let start_day := add_days end_day (- non_earnings_lookback_days self) in
      daily_bars <- get_daily_bars self ticker start_day end_day ;;
      match daily_bars with
      | [] => Ok 0%float
      | _ =>
          let earnings_days : gset Z := list_to_set session_days in
          let masked := filter (fun b => daily_date b ∉ earnings_days) daily_bars in
          let candidates :=
            ConsistencyScorer.head (sample_non_earnings_days self)
              (sort_values pd (fun b => Some (daily_date b)) false masked) in
          match candidates with
          | [] => Ok 0%float
          | _ => Ok (Series64.median (Series64.abs (daily_oc_ret <$> candidates)))
          end
      end
  end.

Definition score (np : Series64.Summation) (pd : SortValues) (self : t)
    (ticker : string) (events_metrics : list MetricsRow) : result Score64.t :=
  match events_metrics with
  | [] => Ok Score64.zero
  | _ =>
      let valid_events := dropna_oc_ret events_metrics in
      let events_count := Z.of_nat (length valid_events) in
      if events_count =? 0 then Ok Score64.zero
      else
        let oc := column_oc_ret valid_events in
        let mean_oc := Series64.mean np oc in
        let sign_mean :=
          if fgtb mean_oc 0%float then 1
          else if fltb mean_oc 0%float then -1 else 0 in
        let hit_main_dir :=
          if sign_mean =? 0 then 0%float
          else
            let signs := sign_of <$> oc in
            Series64.mean_bool ((fun s => s =? sign_mean) <$> signs) in
        let big_move_hit :=
          Series64.mean_bool ((fun x => fgeb x 0.02%float) <$> Series64.abs oc) in
        let earnings_median_abs := Series64.median (Series64.abs oc) in
        non_earnings_median_abs <-
          _median_abs_oc_non_earnings pd self ticker valid_events ;;
        let boost :=
          if truthy non_earnings_median_abs && fgtb non_earnings_median_abs 0%float
          then fdiv earnings_median_abs non_earnings_median_abs
          else 0%float in
        let score :=
          fadd (fadd (fmul 0.5%float hit_main_dir) (fmul 0.3%float big_move_hit))
               (fmul 0.2%float boost) in
        Ok {| Score64.hit_main_dir := hit_main_dir;
              Score64.big_move_hit := big_move_hit;
              Score64.boost := boost;
              Score64.score := score;
              Score64.events_count := events_count |}
  end.

End ConsistencyScorer64.

(* ===================================================================== *)
(** ** The specification's vocabulary *)
(* ===================================================================== *)

(** The quantities the specification names, written on exact rationals
    and independently of the program's way of computing them. *)
Module Spec.

(** The [oc_ret] values that are present, in table order. *)
Definition present_oc_ret (table : list Metric.t) : list Q :=
  omap Metric.oc_ret table.

(** The share of the elements of [l] that satisfy [P]. *)
Definition fraction {A} (P : A -> bool) (l : list A) : Q :=
  (inject_Z (Z.of_nat (length (List.filter P l))) /
   inject_Z (Z.of_nat (length l)))%Q.

Definition Qsum (l : list Q) : Q := fold_right Qplus 0%Q l.

(** One for an element that satisfies [P], zero for another. *)
Definition indicator {A} (P : A -> bool) (a : A) : Q := if P a then 1%Q else 0%Q.

(** Arithmetic mean. *)
Definition Qmean (l : list Q) : Q :=
  (Qsum l / inject_Z (Z.of_nat (length l)))%Q.

(** Median: the middle element in ascending order, the mean of the two
    middle ones for an even count. *)
Definition Qmedian (l : list Q) : Q :=
  let v := Series.isort Qleb l in
  let n := length v in
  if Nat.even n
  then ((nth (n / 2 - 1) v 0 + nth (n / 2) v 0) / 2)%Q
  else nth (n / 2) v 0%Q.

Definition is_positive (q : Q) : bool := Qltb 0 q.
Definition is_negative (q : Q) : bool := Qltb q 0.
Definition is_big_move (q : Q) : bool := Qleb 0.02 (Qabs q).

(** [d] is the latest of the days [days]. *)
Definition latest (d : date) (days : list date) : Prop :=
  d ∈ days /\ forall d', d' ∈ days -> d' <= d.

(** A sort keeps ties in order when, for every key, the rows with that key
    follow each other in the output as they do in the input. *)
Definition ties_in_order {A} (key : A -> option Z) (input output : list A) : Prop :=
  forall k, filter (fun a => key a = k) output = filter (fun a => key a = k) input.

(** The announcement timestamps of a metrics table, in table order. *)
Definition announcement_times (records : list Metric.t) : list Z :=
  (fun r => ts_value (Metric.earnings_date r)) <$> records.

(** The release flag the analyzer reads off an event. *)
Definition flag (event : Event.t) : string :=
  upper (Analyzer.str (Event.release_flag event)).

(** The bars of the baseline: those of [bars] dated on none of [days],
    most recent first, ten at most. *)
Definition baseline_candidates (pd : SortValues) (days : list date)
    (bars : list DailyBar) : list DailyBar :=
  take 10 (sort_values pd (fun b => Some (db_date b)) false
             (filter (fun b => db_date b ∉ days) bars)).

(** The size of the open-to-close move of a daily bar. *)
Definition abs_oc (b : DailyBar) : Q := Qabs (db_close b / db_open b - 1).

(** An event the analyzer cannot use: its upper-cased release flag is
    neither AMC nor BMO, or its announcement timestamp is missing. *)
Definition unusable (event : Event.t) : Prop :=
  supported_flag (flag event) = false \/
  Event.earnings_date event = None.

End Spec.

Module Spec64.
Import Binary64.

(** The [oc_ret] values that are present, in table order. *)
Definition present_oc_ret (table : list ConsistencyScorer64.MetricsRow) : list double :=
  ConsistencyScorer64.column_oc_ret (ConsistencyScorer64.dropna_oc_ret table).

(** The mean of the present values as the scorer computes it. *)
Definition computed_mean (np : Series64.Summation)
    (table : list ConsistencyScorer64.MetricsRow) : double :=
  Series64.mean np (present_oc_ret table).

Definition is_positive (x : double) : bool := fgtb x zero.
Definition is_negative (x : double) : bool := fltb x zero.

(** The sign of the computed mean, as the scorer tests it. *)
Definition mean_positive (np : Series64.Summation)
    (table : list ConsistencyScorer64.MetricsRow) : bool :=
  fgtb (computed_mean np table) zero.
Definition mean_negative (np : Series64.Summation)
    (table : list ConsistencyScorer64.MetricsRow) : bool :=
  fltb (computed_mean np table) zero.

(** The rationals the finite values of a column stand for. *)
Definition exact (l : list double) : list Q := omap to_Q l.

End Spec64.

(* ===================================================================== *)
(** ** Sample data *)
(* ===================================================================== *)

(** A small provider and a small history, on which the statements below
    are exercised: the first two weeks of January 2024 on Eastern Standard
    Time. *)
Module Sample.

Definition jan (n : Z) : date := 738885 + n.

(** Midnight US/Eastern of [day], in milliseconds since the epoch. *)
Definition day_ms (day : date) : Z := ((day - epoch_ordinal) * 86400 + 18000) * 1000.

Definition session_aggs (day : date) : list Agg :=
  [ mkAgg (day_ms day + 34200000) 100 104 99 103 5000;
    mkAgg (day_ms day + 34500000) 103 110 95 106 7000;
    mkAgg (day_ms day + 34800000) 106 107 101 105 6000 ].

Definition daily_history : list Agg :=
  [ mkAgg (day_ms (jan 2)) 100 102 99 101 1000;
    mkAgg (day_ms (jan 3)) 100 101 98 99 1000;
    mkAgg (day_ms (jan 4)) 100 103 100 102 1000;
    mkAgg (day_ms (jan 5)) 100 101 99 100 1000;
    mkAgg (day_ms (jan 8)) 97 99 96 98 1000;
    mkAgg (day_ms (jan 9)) 100 110 95 105 1000;
    mkAgg (day_ms (jan 10)) 105 106 100 101 1000;
    mkAgg (day_ms (jan 11)) 101 104 100 103 1000;
    mkAgg (day_ms (jan 12)) 103 104 102 103 1000 ].

Definition agg_day (a : Agg) : date := (agg_t a / 1000 - 18000) / 86400 + epoch_ordinal.

Definition request (ticker : string) (multiplier : Z) (span : timespan)
    (start_dt end_dt : datetime) (limit : Z) : result (list Agg) :=
  match span with
  | Minute => Ok (session_aggs (dt_day start_dt))
  | Day =>
      Ok (take (Z.to_nat limit)
            (filter (fun a => dt_day start_dt <= agg_day a <= dt_day end_dt)
                    daily_history))
  end.

Definition client : PolygonIntradayClient :=
  {| eastern_utcoffset := fun _ => -18000; _request := request |}.

(** A provider whose every request fails. *)
Definition offline : PolygonIntradayClient :=
  {| eastern_utcoffset := fun _ => -18000;
     _request := fun _ _ _ _ _ _ => Raise HTTPError |}.

(** [hh:mm] UTC on [day] as a zone-aware timestamp. *)
Definition utc_timestamp (day : date) (hh mm : Z) : Timestamp :=
  {| ts_value := ((day - epoch_ordinal) * 86400 + time hh mm 0) * ns_per_second;
     ts_tz := Some UTC |}.

Definition event (ts : option Timestamp) (period : string) (flag : option string) : Event.t :=
  {| Event.ticker := "ACME"; Event.earnings_date := ts; Event.period := period;
     Event.eps := None; Event.eps_est := None; Event.surprise := None;
     Event.release_flag := flag |}.

(** Before the open of Tuesday 9 January, 08:00 Eastern. *)
Definition bmo_event : Event.t :=
  event (Some (utc_timestamp (jan 9) 13 0)) "Q4" (Some "bmo"%string).

(** After the close of Friday 5 January, 16:30 Eastern. *)
Definition amc_event : Event.t :=
  event (Some (utc_timestamp (jan 5) 21 30)) "Q3" (Some "AMC"%string).

Definition bad_flag_event : Event.t :=
  event (Some (utc_timestamp (jan 4) 21 30)) "Q2" (Some "TAS"%string).

Definition no_date_event : Event.t :=
  event None "Q1" (Some "AMC"%string).

(** Two announcements at the same instant. *)
Definition tie_first : Event.t :=
  event (Some (utc_timestamp (jan 9) 13 0)) "first" (Some "BMO"%string).
Definition tie_second : Event.t :=
  event (Some (utc_timestamp (jan 9) 13 0)) "second" (Some "AMC"%string).

Definition metric (day : date) (oc : option Q) : Metric.t :=
  {| Metric.ticker := "ACME"; Metric.earnings_date := utc_timestamp day 13 0;
     Metric.release_flag := "BMO"; Metric.session_day := day;
     Metric.gap_ret := None; Metric.oc_ret := oc; Metric.range_pct := None;
     Metric.open := 100; Metric.close := 100; Metric.high := 100;
     Metric.low := 100; Metric.prev_close := None |}.

(** Four reactions, all up, three of them of two percent or more, and one
    session without an open-to-close return. *)
Definition metrics : list Metric.t :=
  [ metric (jan 8) (Some 0.03%Q); metric (jan 9) (Some 0.01%Q);
    metric (jan 10) None;
    metric (jan 10) (Some 0.05%Q); metric (jan 11) (Some 0.03%Q) ].

Definition unscored_metrics : list Metric.t :=
  [ metric (jan 8) None; metric (jan 9) None ].

End Sample.

Module Sample64.
Import PrimFloat Binary64.

Definition row (oc : double) (day : Z) : ConsistencyScorer64.MetricsRow :=
  ConsistencyScorer64.mkMetricsRow oc (Sample.jan day).
Arguments row oc%_float day%_Z.

(** A provider without daily bars. *)
Definition scorer : ConsistencyScorer64.t :=
  ConsistencyScorer64.make (fun _ _ _ => Ok []).

(** Two gains and a loss that cancel in the sum as rounded. *)
Definition cancelling : list ConsistencyScorer64.MetricsRow :=
  [row 0.1 2; row 0.2 3; row (-0.30000000000000004) 4].

(** Two gains and two losses of the same sizes. *)
Definition absorbed : list ConsistencyScorer64.MetricsRow :=
  [row 1e16 2; row 1 3; row (-1e16) 4; row (-1) 5].

(** One half. *)
Definition half : double := 0.5%float.


End Sample64.

(** Seventeen announcements on three mornings. *)
Module Calendar.

Definition morning (day : Z) (period : string) : Event.t :=
  Sample.event (Some (Sample.utc_timestamp (Sample.jan day) 13 0)) period
    (Some "BMO"%string).

Definition events : list Event.t :=
  [ morning 11 "a"; morning 9 "b"; morning 10 "c"; morning 11 "d";
    morning 9 "e"; morning 10 "f"; morning 10 "g"; morning 11 "h";
    morning 9 "i"; morning 9 "j"; morning 11 "k"; morning 10 "l";
    morning 11 "m"; morning 10 "n"; morning 9 "o"; morning 10 "p";
    morning 9 "q" ].

End Calendar.

(* ===================================================================== *)
(** * The rest of the program: the other methods and the callers *)
(* ===================================================================== *)

(** ** intraday.py: the remaining methods *)

Module Client.

(** [get_regular_session]: the 5-minute bars of the regular session of
    [session_day]. *)
Definition get_regular_session (self : PolygonIntradayClient) (ticker : string)
    (session_day : date) : result (list Bar) :=
  let start_dt := _combine_day_time session_day (time 9 30 0) EASTERN in
  let end_dt := _combine_day_time session_day (time 16 0 0) EASTERN in
  _fetch_agg_bars self ticker start_dt end_dt.

(** What [__post_init__] leaves in [self.api_key], or the
    [EnvironmentError] it raises. *)
Inductive init_result : Type :=
| KeyReady (api_key : string)
| EnvironmentError (msg : string).

(** [bool(s)] of a string. *)
Definition nonempty (s : string) : bool :=
  match s with EmptyString => false | String _ _ => true end.

(** [__post_init__], on the [api_key] argument and the process
    environment. *)
Definition __post_init__ (api_key : option string)
    (environ : string -> option string) : init_result :=
  let api_key :=
    match api_key with
    | None => environ "POLYGON_API_KEY"%string
    | Some k => Some k
    end in
  match api_key with
  | Some k =>
      if nonempty k then KeyReady k
      else EnvironmentError "POLYGON_API_KEY environment variable is required."
  | None => EnvironmentError "POLYGON_API_KEY environment variable is required."
  end.

End Client.

(** ** analyzer.py and consistency.py: vocabulary for their tables *)

Module Props.

(** An event the analyzer can use: its flag upper-cases to AMC or BMO and
    its announcement timestamp is there. *)
Definition usable (event : Event.t) : bool :=
  supported_flag (Spec.flag event) &&
  match Event.earnings_date event with Some _ => true | None => false end.

(** [r] is the record the loop appends for [event]: the session has bars,
    the requests were answered, and [r] is built from what they
    returned. *)
Definition made_from (self : PolygonIntradayClient) (ticker : string)
    (event : Event.t) (r : Metric.t) : Prop :=
  exists ts day first rest pc,
    Event.earnings_date event = Some ts /\
    supported_flag (Spec.flag event) = true /\
    get_session_day self ts (Spec.flag event) = Ok day /\
    get_intraday_window self ticker ts (Spec.flag event) = Ok (first :: rest) /\
    get_previous_close self ticker day = Ok pc /\
    r = Analyzer.reaction_record ticker ts (Spec.flag event) day first rest pc.

(** What every row of a metrics table built by the analyzer satisfies. *)
Definition well_formed (self : PolygonIntradayClient) (ticker : string)
    (r : Metric.t) : Prop :=
  Metric.ticker r = ticker /\
  (Metric.release_flag r = "AMC"%string \/ Metric.release_flag r = "BMO"%string) /\
  get_session_day self (Metric.earnings_date r) (Metric.release_flag r) =
    Ok (Metric.session_day r) /\
  (Metric.release_flag r = "AMC"%string ->
     weekday (Metric.session_day r) <> 5 /\ weekday (Metric.session_day r) <> 6) /\
  (Metric.oc_ret r = None <-> (Metric.open r == 0)%Q) /\
  (Metric.range_pct r = None <-> (Metric.open r == 0)%Q) /\
  (Metric.gap_ret r = None <->
     Metric.prev_close r = None \/
     exists p, Metric.prev_close r = Some p /\ (p == 0)%Q) /\
  (forall x, Metric.oc_ret r = Some x ->
     x = (Metric.close r / Metric.open r - 1)%Q) /\
  (forall x, Metric.range_pct r = Some x ->
     x = ((Metric.high r - Metric.low r) / Metric.open r)%Q) /\
  (forall x, Metric.gap_ret r = Some x ->
     exists p, Metric.prev_close r = Some p /\ x = (Metric.open r / p - 1)%Q).

(** A float that is [nan] or not negative. *)
Definition nan_or_nonneg (x : fnum) : Prop :=
  isnan x = true \/ fleb (Fin 0) x = true.

End Props.

Module Columns.

(** The two columns of a metrics table the scorer reads. *)
Definition scored (table : list Metric.t) : list (option Q * date) :=
  (fun r => (Metric.oc_ret r, Metric.session_day r)) <$> table.

End Columns.

(** Providers with a gap: one that has no bars for the session of
    [holiday], one whose bars request fails for the session of [outage]. *)
Module Fixtures.

Definition closed_on (holiday : date) : PolygonIntradayClient :=
  {| eastern_utcoffset := fun _ => -18000;
     _request := fun ticker multiplier span start_dt end_dt limit =>
       match span with
       | Minute =>
           if dt_day start_dt =? holiday then Ok []
           else Sample.request ticker multiplier span start_dt end_dt limit
       | Day => Sample.request ticker multiplier span start_dt end_dt limit
       end |}.

Definition failing_on (outage : date) : PolygonIntradayClient :=
  {| eastern_utcoffset := fun _ => -18000;
     _request := fun ticker multiplier span start_dt end_dt limit =>
       match span with
       | Minute =>
           if dt_day start_dt =? outage then Raise HTTPError
           else Sample.request ticker multiplier span start_dt end_dt limit
       | Day => Sample.request ticker multiplier span start_dt end_dt limit
       end |}.

End Fixtures.

(** ** universe.py: the ticker universe *)

Module Universe.

(** A table read off the source page: its columns by name, every cell
    already as the text [astype(str)] gives.  Strings are sequences of
    code points below 256. *)
Definition Table : Type := gmap string (list string).

(** [str.isspace] on one character. *)
Definition is_space (c : ascii) : bool :=
  let n := N_of_ascii c in
  (((9 <=? n) && (n <=? 13)) || ((28 <=? n) && (n <=? 32)) ||
   (n =? 133) || (n =? 160))%N.

Fixpoint lstrip (s : string) : string :=
  match s with
  | EmptyString => EmptyString
  | String c s' => if is_space c then lstrip s' else s
  end.

(** The string without its trailing white space. *)
Fixpoint rstrip (s : string) : string :=
  match s with
  | EmptyString => EmptyString
  | String c s' =>
      match rstrip s' with
      | EmptyString => if is_space c then EmptyString else String c EmptyString
      | rest => String c rest
      end
  end.

(** [str.strip()]. *)
Definition strip (s : string) : string := rstrip (lstrip s).

(** One character of the class [[A-Z.]]. *)
Definition is_ticker_char (c : ascii) : bool :=
  let n := N_of_ascii c in
  (((65 <=? n) && (n <=? 90)) || (n =? 46))%N.

Fixpoint all_ticker_chars (s : string) : bool :=
  match s with
  | EmptyString => true
  | String c s' => is_ticker_char c && all_ticker_chars s'
  end.

(** [re.fullmatch(r"[A-Z.]+", s)]. *)
Definition fullmatch_ticker (s : string) : bool :=
  match s with
  | EmptyString => false
  | _ => all_ticker_chars s
  end.

(** The first of the three candidate names that is a column of the
    table. *)
Definition ticker_column (table : Table) : option string :=
  List.find (fun candidate => bool_decide (is_Some (table !! candidate)))
    ["Symbol"; "Ticker"; "Ticker Symbol"]%string.

(** [MarketCapUniverseBuilder.fetch], on what the page request and
    [pd.read_html] give: the tables of the page, or the exception
    raised. *)
Definition fetch (page : result (list Table)) (top_n : Z) : result (list string) :=
  tables <- page ;;
  match tables with
  | [] => Raise (ValueError "No tables found on universe source page.")
  | table :: _ =>
      match ticker_column table with
      | None => Raise (ValueError "Ticker column not found in universe table.")
      | Some column =>
          let cells := default [] (table !! column) in
          let stripped := strip <$> cells in
          Ok (ConsistencyScorer.head top_n
                (filter (fun s => fullmatch_ticker s = true) stripped))
      end
  end.

End Universe.

(** ** cli.py: the scan *)

(** [sort_values] on a column of floats, with the documented behaviour of
    the default [kind] as for [SortValues]: the rows come back reordered
    so that the column ascends or descends, [nan] last. *)
Module FloatSorting.

Definition fkey_le (ascending : bool) (a b : fnum) : Prop :=
  isnan b = true \/ (if ascending then fleb a b else fleb b a) = true.

Definition fkey_leb (ascending : bool) (a b : fnum) : bool :=
  isnan b || (if ascending then fleb a b else fleb b a).

Record SortFloats : Type := mkSortFloats {
  sort_floats : forall A : Type, (A -> fnum) -> bool -> list A -> list A;
  sort_floats_perm : forall A key asc (l : list A),
    sort_floats A key asc l ≡ₚ l;
  sort_floats_sorted : forall A key asc (l : list A),
    StronglySorted (fun a b => fkey_le asc (key a) (key b))
      (sort_floats A key asc l)
}.
Arguments sort_floats _ {A} _ _ _.

(** An insertion sort on the column. *)
Definition insertion_sort {A} (key : A -> fnum) (asc : bool) (l : list A) : list A :=
  Series.isort (fun a b => fkey_leb asc (key a) (key b)) l.

End FloatSorting.
Export FloatSorting.

(** A row of the results frame. *)
Module Row.

Record t : Type := mk {
  ticker : string;
  events_count : Z;
  hit_main_dir : fnum;
  big_move_hit : fnum;
  boost : fnum;
  score : fnum;
  mean_gap : option fnum;
  mean_oc : option fnum;
  mean_range : option fnum
}.

End Row.

Module Cli.

(** [pd.to_numeric(series, errors="coerce")] on a column of numbers and
    missing cells. *)
Definition to_numeric (series : list (option Q)) : list fnum :=
  (fun cell => match cell with Some q => Fin q | None => NaN end) <$> series.

(** [_safe_numeric_mean]; [None] is [pd.NA]. *)
Definition _safe_numeric_mean (series : list (option Q)) : option fnum :=
  match series with
  | [] => None
  | _ =>
      let numeric := to_numeric series in
      if existsb (fun x => negb (isnan x)) numeric
      then Some (Series.mean numeric)
      else None
  end.

(** What the scan reaches outside the program: the process environment,
    the universe page as read by the builder, the earnings histories as
    fetched for a look-back in years, the Polygon endpoint behind a key,
    and the file system, where [to_csv path rows] is
    [DataFrame.to_csv(path, index=False)]: it writes the rows or raises
    the [OSError] of a path that cannot be written. *)
Record Collaborators : Type := mkCollaborators {
  environ : string -> option string;
  universe_page : result (list Universe.Table);
  earnings_fetch : Z -> string -> result (list Event.t);
  polygon : string -> PolygonIntradayClient;
  to_csv : string -> list Row.t -> result unit
}.

(** The body of the [try] block for one ticker. *)
Definition scan_ticker (pd : SortValues) (fetch : string -> result (list Event.t))
    (intraday_client : PolygonIntradayClient) (ticker : string) : result Row.t :=
  events <- fetch ticker ;;
  metrics <- Analyzer.analyze_ticker pd intraday_client ticker events ;;
  score_series <-
    ConsistencyScorer.score pd (ConsistencyScorer.make intraday_client) ticker metrics ;;
  Ok {| Row.ticker := ticker;
        Row.events_count := Score.events_count score_series;
        Row.hit_main_dir := Score.hit_main_dir score_series;
        Row.big_move_hit := Score.big_move_hit score_series;
        Row.boost := Score.boost score_series;
        Row.score := Score.score score_series;
        Row.mean_gap :=
          match metrics with
          | [] => None
          | _ => _safe_numeric_mean (Metric.gap_ret <$> metrics)
          end;
        Row.mean_oc :=
          match metrics with
          | [] => None
          | _ => _safe_numeric_mean (Metric.oc_ret <$> metrics)
          end;
        Row.mean_range :=
          match metrics with
          | [] => None
          | _ => _safe_numeric_mean (Metric.range_pct <$> metrics)
          end |}.

(** [for ticker in tickers: try: ... except Exception: ...], with
    [records] as built so far. *)
Fixpoint scan_tickers (pd : SortValues) (fetch : string -> result (list Event.t))
    (intraday_client : PolygonIntradayClient) (tickers : list string)
    (records : list Row.t) : list Row.t :=
  match tickers with
  | [] => records
  | ticker :: rest =>
      match scan_ticker pd fetch intraday_client ticker with
      | Ok record => scan_tickers pd fetch intraday_client rest (records ++ [record])
      | Raise _ => scan_tickers pd fetch intraday_client rest records
      end
  end.

(** What is printed at the end of a scan. *)
Inductive printout : Type :=
| TopRows (rows : list (string * fnum * fnum * fnum * fnum))
| NoResultsToDisplay.

(** What a scan leaves: the frame returned, the rows written to the CSV
    file if it was written, and what was printed if anything was. *)
Record ScanOutput : Type := mkScanOutput {
  results : list Row.t;
  written : option (list Row.t);
  printed : option printout
}.

(** The end of [run_scan], from [if not records] on: without a record
    nothing is sorted, written or printed; otherwise the sorted frame is
    written by [write] before anything is printed, and an exception of
    [write] is not caught. *)
Definition publish (ps : SortFloats) (write : list Row.t -> result unit)
    (records : list Row.t) : result ScanOutput :=
  match records with
  | [] => Ok {| results := []; written := None; printed := None |}
  | _ =>
      let results := sort_floats ps Row.score false records in
      match write results with
      | Raise e => Raise e
      | Ok _ =>
          let top10 := ConsistencyScorer.head 10 results in
          Ok {| results := results;
                written := Some results;
                printed :=
                  Some (match top10 with
                        | [] => NoResultsToDisplay
                        | _ =>
                            TopRows
                              ((fun r => (Row.ticker r, Row.score r, Row.hit_main_dir r,
                                          Row.big_move_hit r, Row.boost r)) <$> top10)
                        end) |}
      end
  end.

(** How a scan ends when it does not complete. *)
Inductive failure : Type :=
| StartupError (msg : string)
| UniverseError (e : exn)
| WriteError (e : exn).

Inductive scan_result : Type :=
| Scanned (out : ScanOutput)
| ScanFailed (f : failure).

(** How [run_scan] ends once the records are there. *)
Definition conclude (published : result ScanOutput) : scan_result :=
  match published with
  | Ok out => Scanned out
  | Raise e => ScanFailed (WriteError e)
  end.

Definition run_scan (ps : SortFloats) (pd : SortValues) (world : Collaborators)
    (top years : Z) (output : string) : scan_result :=
  match Client.__post_init__ None (environ world) with
  | Client.EnvironmentError msg => ScanFailed (StartupError msg)
  | Client.KeyReady api_key =>
      let intraday_client := polygon world api_key in
      match Universe.fetch (universe_page world) top with
      | Raise e => ScanFailed (UniverseError e)
      | Ok tickers =>
          conclude
            (publish ps (to_csv world output)
               (scan_tickers pd (earnings_fetch world years) intraday_client
                  tickers []))
      end
  end.

End Cli.

(* ===================================================================== *)
(** ** Facts about floats and series *)
(* ===================================================================== *)

Section FloatFacts.

Lemma Qeqb_true (a b : Q) : Qeqb a b = true <-> (a == b)%Q.
Proof. apply Qeq_bool_iff. Qed.

Lemma Qeqb_false (a b : Q) : Qeqb a b = false <-> ~ (a == b)%Q.
Proof.
  rewrite <- Qeqb_true. destruct (Qeqb a b); split; congruence.
Qed.

Lemma Qleb_true (a b : Q) : Qleb a b = true <-> (a <= b)%Q.
Proof. apply Qle_bool_iff. Qed.

Lemma Qleb_false (a b : Q) : Qleb a b = false <-> (b < a)%Q.
Proof.
  split.
  - intros H. apply Qnot_le_lt. intros Hle.
    apply Qleb_true in Hle. congruence.
  - intros H. destruct (Qleb a b) eqn:E; [|reflexivity].
    apply Qleb_true in E. exfalso. exact (Qlt_not_le _ _ H E).
Qed.

Lemma Qltb_true (a b : Q) : Qltb a b = true <-> (a < b)%Q.
Proof.
  unfold Qltb. rewrite negb_true_iff. apply (Qleb_false b a).
Qed.

Lemma Qltb_false (a b : Q) : Qltb a b = false <-> (b <= a)%Q.
Proof.
  unfold Qltb. rewrite negb_false_iff. apply (Qleb_true b a).
Qed.

Lemma inject_nat_pos (n : nat) : (0 < n)%nat -> (0 < inject_Z (Z.of_nat n))%Q.
Proof.
  intros Hn. change 0%Q with (inject_Z 0). rewrite <- Zlt_Qlt. lia.
Qed.

Lemma inject_nat_nonzero (n : nat) :
  (0 < n)%nat -> Qeqb (inject_Z (Z.of_nat n)) 0 = false.
Proof.
  intros Hn. apply Qeqb_false. intros Heq.
  pose proof (inject_nat_pos n Hn) as Hpos. rewrite Heq in Hpos.
  exact (Qlt_irrefl _ Hpos).
Qed.

End FloatFacts.

Section SeriesFacts.

Lemma insert_sorted_perm {A} (leb : A -> A -> bool) x l :
  Series.insert_sorted leb x l ≡ₚ x :: l.
Proof.
  induction l as [|y l IH]; simpl; [reflexivity|].
  destruct (leb y x); [|reflexivity].
  rewrite IH. apply Permutation_swap.
Qed.

Lemma isort_perm {A} (leb : A -> A -> bool) l : Series.isort leb l ≡ₚ l.
Proof.
  induction l as [|x l IH]; simpl; [reflexivity|].
  rewrite insert_sorted_perm. by rewrite IH.
Qed.

Lemma isort_length {A} (leb : A -> A -> bool) l :
  length (Series.isort leb l) = length l.
Proof. apply Permutation_length, isort_perm. Qed.

(** Sorting commutes with an embedding that respects the order. *)
Lemma insert_sorted_fmap {A B} (f : A -> B) lebA lebB x l :
  (forall a b, lebB (f a) (f b) = lebA a b) ->
  Series.insert_sorted lebB (f x) (f <$> l) = f <$> Series.insert_sorted lebA x l.
Proof.
  intros Hf. induction l as [|y l IH]; [reflexivity|].
  rewrite fmap_cons. cbn [Series.insert_sorted]. rewrite Hf.
  destruct (lebA y x); rewrite ?fmap_cons; [by rewrite IH | reflexivity].
Qed.

Lemma isort_fmap {A B} (f : A -> B) lebA lebB l :
  (forall a b, lebB (f a) (f b) = lebA a b) ->
  Series.isort lebB (f <$> l) = f <$> Series.isort lebA l.
Proof.
  intros Hf. induction l as [|x l IH]; [reflexivity|].
  rewrite fmap_cons. cbn [Series.isort]. rewrite IH.
  by apply insert_sorted_fmap.
Qed.

Lemma dropna_Fin (qs : list Q) : Series.dropna (Fin <$> qs) = Fin <$> qs.
Proof.
  unfold Series.dropna. induction qs as [|q qs IH]; [reflexivity|].
  rewrite fmap_cons, filter_cons_True by reflexivity. by rewrite IH.
Qed.

End SeriesFacts.

Section MeanFacts.

Lemma foldl_fadd_Fin (a : Q) (qs : list Q) :
  foldl fadd (Fin a) (Fin <$> qs) = Fin (foldl Qplus a qs).
Proof.
  revert a. induction qs as [|q qs IH]; intros a; [reflexivity|].
  rewrite fmap_cons. cbn [foldl]. apply IH.
Qed.

Lemma foldl_Qplus_sum (a : Q) (qs : list Q) :
  (foldl Qplus a qs == a + Spec.Qsum qs)%Q.
Proof.
  revert a. induction qs as [|q qs IH]; intros a; cbn [foldl].
  - unfold Spec.Qsum. simpl. ring.
  - rewrite IH. unfold Spec.Qsum. simpl. ring.
Qed.

Lemma fsum_Fin (qs : list Q) :
  exists s, Series.fsum (Fin <$> qs) = Fin s /\ (s == Spec.Qsum qs)%Q.
Proof.
  exists (foldl Qplus 0%Q qs). split.
  - apply foldl_fadd_Fin.
  - rewrite foldl_Qplus_sum. ring.
Qed.

Lemma mean_Fin (qs : list Q) :
  qs <> [] ->
  exists m, Series.mean (Fin <$> qs) = Fin m /\ (m == Spec.Qmean qs)%Q.
Proof.
  intros Hne. unfold Series.mean. rewrite dropna_Fin.
  destruct qs as [|q qs]; [done|].
  destruct (fsum_Fin (q :: qs)) as (s & Hs & Hsq).
  rewrite fmap_cons in *. rewrite Hs.
  unfold Series.flen, of_Z, fdiv.
  rewrite length_cons, length_fmap.
  rewrite inject_nat_nonzero by lia.
  eexists. split; [reflexivity|].
  unfold Spec.Qmean. rewrite length_cons. by rewrite Hsq.
Qed.

Lemma Qsum_indicator {A} (P : A -> bool) (l : list A) :
  (Spec.Qsum (Spec.indicator P <$> l) == inject_Z (Z.of_nat (length (List.filter P l))))%Q.
Proof.
  induction l as [|a l IH]; [reflexivity|].
  rewrite fmap_cons. unfold Spec.Qsum in *. cbn [fold_right List.filter].
  rewrite IH. unfold Spec.indicator. destruct (P a).
  - cbn [length]. rewrite Nat2Z.inj_succ, <- Z.add_1_l, inject_Z_plus. reflexivity.
  - ring.
Qed.

Lemma mean_bool_fraction {A} (P : A -> bool) (l : list A) :
  l <> [] ->
  exists m, Series.mean_bool (P <$> l) = Fin m /\ (m == Spec.fraction P l)%Q.
Proof.
  intros Hne. unfold Series.mean_bool.
  replace (of_bool <$> (P <$> l)) with (Fin <$> (Spec.indicator P <$> l)).
  2:{ rewrite <- !list_fmap_compose. apply list_fmap_ext. intros i a _.
      unfold compose, of_bool, Spec.indicator. by destruct (P a). }
  destruct (mean_Fin (Spec.indicator P <$> l)) as (m & Hm & Hmq).
  { by destruct l. }
  exists m. split; [exact Hm|].
  rewrite Hmq. unfold Spec.Qmean, Spec.fraction.
  rewrite length_fmap, Qsum_indicator. reflexivity.
Qed.

Lemma filter_length_le {A} (P : A -> bool) (l : list A) :
  (length (List.filter P l) <= length l)%nat.
Proof.
  induction l as [|a l IH]; simpl; [lia|]. destruct (P a); simpl; lia.
Qed.

Lemma fraction_bounds {A} (P : A -> bool) (l : list A) :
  l <> [] -> (0 <= Spec.fraction P l <= 1)%Q.
Proof.
  intros Hne. unfold Spec.fraction.
  assert (Hn : (0 < length l)%nat) by (destruct l; [done | simpl; lia]).
  pose proof (inject_nat_pos _ Hn) as Hpos.
  pose proof (filter_length_le P l) as Hle.
  assert (H0 : (0 <= inject_Z (Z.of_nat (length (List.filter P l))))%Q).
  { change 0%Q with (inject_Z 0). rewrite <- Zle_Qle. lia. }
  assert (H1 : (inject_Z (Z.of_nat (length (List.filter P l))) <=
                inject_Z (Z.of_nat (length l)))%Q).
  { rewrite <- Zle_Qle. lia. }
  split.
  - apply Qle_shift_div_l; [exact Hpos|]. by rewrite Qmult_0_l.
  - apply Qle_shift_div_r; [exact Hpos|]. by rewrite Qmult_1_l.
Qed.

Lemma fraction_all {A} (P : A -> bool) (l : list A) :
  l <> [] -> (forall a, a ∈ l -> P a = true) -> (Spec.fraction P l == 1)%Q.
Proof.
  intros Hne Hall. unfold Spec.fraction.
  assert (Hf : List.filter P l = l).
  { induction l as [|a l IH]; [done|]. simpl.
    rewrite (Hall a) by left. f_equal.
    destruct l as [|b l']; [done|]. apply IH; [done|].
    intros c Hc. apply Hall. by right. }
  rewrite Hf.
  assert (Hn : (0 < length l)%nat) by (destruct l; [done | simpl; lia]).
  pose proof (inject_nat_pos _ Hn) as Hpos.
  field. intros H0. rewrite H0 in Hpos. exact (Qlt_irrefl _ Hpos).
Qed.

End MeanFacts.

Section MedianFacts.

Lemma nth_fmap_Fin (k : nat) (v : list Q) :
  (k < length v)%nat -> nth k (Fin <$> v) NaN = Fin (nth k v 0%Q).
Proof.
  revert k. induction v as [|q v IH]; intros k Hk; simpl in Hk; [lia|].
  destruct k as [|k]; [reflexivity|]. rewrite fmap_cons. simpl. apply IH. lia.
Qed.

Lemma half_lt (n : nat) : (0 < n)%nat -> (n / 2 < n)%nat.
Proof. intros Hn. apply Nat.div_lt; lia. Qed.

(** On finite values pandas' median is the rational median. *)
Lemma median_Fin (qs : list Q) :
  qs <> [] -> Series.median (Fin <$> qs) = Fin (Spec.Qmedian qs).
Proof.
  intros Hne. unfold Series.median, Spec.Qmedian.
  rewrite dropna_Fin.
  rewrite (isort_fmap Fin Qleb fleb) by reflexivity.
  rewrite length_fmap.
  set (v := Series.isort Qleb qs).
  assert (Hn : (0 < length v)%nat).
  { unfold v. rewrite isort_length. destruct qs; [done | simpl; lia]. }
  pose proof (half_lt _ Hn) as Hh.
  destruct (length v) as [|n] eqn:En; [lia|].
  destruct (Nat.even (S n)).
  - rewrite !nth_fmap_Fin by lia. reflexivity.
  - rewrite nth_fmap_Fin by lia. reflexivity.
Qed.

Lemma nth_elem_of (k : nat) (v : list Q) :
  (k < length v)%nat -> nth k v 0%Q ∈ v.
Proof. intros Hk. apply list_elem_of_In, nth_In, Hk. Qed.

Lemma Qmedian_nonneg (qs : list Q) :
  qs <> [] -> (forall q, q ∈ qs -> (0 <= q)%Q) -> (0 <= Spec.Qmedian qs)%Q.
Proof.
  intros Hne Hall. unfold Spec.Qmedian.
  set (v := Series.isort Qleb qs).
  assert (Hv : forall q, q ∈ v -> (0 <= q)%Q).
  { intros q Hq. apply Hall. unfold v in Hq. by rewrite isort_perm in Hq. }
  assert (Hn : (0 < length v)%nat).
  { unfold v. rewrite isort_length. destruct qs; [done | simpl; lia]. }
  pose proof (half_lt _ Hn) as Hh.
  destruct (Nat.even (length v)).
  - pose proof (Hv _ (nth_elem_of (length v / 2 - 1) v ltac:(lia))) as Ha.
    pose proof (Hv _ (nth_elem_of (length v / 2) v Hh)) as Hb.
    apply Qle_shift_div_l; [reflexivity|]. lra.
  - exact (Hv _ (nth_elem_of _ v Hh)).
Qed.

End MedianFacts.

Section SortFacts.

Lemma key_leb_le asc a b : key_leb asc a b = true <-> key_le asc a b.
Proof.
  unfold key_leb, key_le. destruct a as [x|], b as [y|]; try done.
  destruct asc; [apply Z.leb_le | apply Z.leb_le].
Qed.

Lemma key_le_total asc a b : key_le asc a b \/ key_le asc b a.
Proof.
  unfold key_le. destruct a as [x|], b as [y|]; auto.
  destruct asc; lia.
Qed.

Lemma key_le_trans asc a b c : key_le asc a b -> key_le asc b c -> key_le asc a c.
Proof.
  unfold key_le. destruct a as [x|], b as [y|], c as [z|]; try done.
  destruct asc; lia.
Qed.

Lemma key_leb_total asc a b : key_leb asc a b = false -> key_le asc b a.
Proof.
  intros H. destruct (key_le_total asc a b) as [Hab|Hba]; [|exact Hba].
  apply key_leb_le in Hab. congruence.
Qed.

Lemma StronglySorted_by_key {A B} (f : A -> B) (R : B -> B -> Prop) (l : list A) :
  StronglySorted (fun a b => R (f a) (f b)) l <-> StronglySorted R (f <$> l).
Proof.
  induction l as [|x l IH]; [split; constructor|].
  rewrite fmap_cons. split; intros H; apply StronglySorted_inv in H as [Hs Hx];
    constructor; try (by apply IH).
  - apply Forall_fmap. exact Hx.
  - apply (proj1 (Forall_fmap _ _ _)) in Hx. exact Hx.
Qed.

Lemma insert_front_perm {A} (key : A -> option Z) asc x (l : list A) :
  insert_front key asc x l ≡ₚ x :: l.
Proof.
  induction l as [|y l IH]; simpl; [reflexivity|].
  destruct (key_leb asc (key x) (key y)); [reflexivity|].
  rewrite IH. apply Permutation_swap.
Qed.

Lemma insert_front_sorted {A} (key : A -> option Z) asc x (l : list A) :
  StronglySorted (fun a b => key_le asc (key a) (key b)) l ->
  StronglySorted (fun a b => key_le asc (key a) (key b)) (insert_front key asc x l).
Proof.
  induction 1 as [|y l Hs IH Hy]; simpl.
  - repeat constructor.
  - destruct (key_leb asc (key x) (key y)) eqn:E.
    + apply key_leb_le in E.
      constructor; [by constructor|].
      constructor; [exact E|].
      eapply Forall_impl; [exact Hy|]. intros z Hz. simpl in Hz.
      eapply key_le_trans; eauto.
    + apply key_leb_total in E.
      constructor; [exact IH|].
      rewrite insert_front_perm. by constructor.
Qed.

Lemma stable_sort_perm {A} (key : A -> option Z) asc (l : list A) :
  stable_sort key asc l ≡ₚ l.
Proof.
  unfold stable_sort. induction l as [|x l IH]; simpl; [reflexivity|].
  rewrite insert_front_perm. by rewrite IH.
Qed.

Lemma stable_sort_row_sorted {A} (key : A -> option Z) asc (l : list A) :
  StronglySorted (fun a b => key_le asc (key a) (key b)) (stable_sort key asc l).
Proof.
  unfold stable_sort. induction l as [|x l IH]; simpl; [constructor|].
  by apply insert_front_sorted.
Qed.

Lemma stable_sort_sorted {A} (key : A -> option Z) asc (l : list A) :
  column_sorted asc (key <$> stable_sort key asc l).
Proof.
  apply (proj1 (StronglySorted_by_key key (key_le asc) _)), stable_sort_row_sorted.
Qed.

End SortFacts.

(** Two implementations of the documented behaviour of [sort_values]: a
    stable sort, and the sort pandas runs. *)
Definition stable_pandas : SortValues :=
  {| sort_values := @stable_sort;
     sort_values_perm := @stable_sort_perm;
     sort_values_sorted := @stable_sort_sorted |}.

Section NumpySort.

Lemma take_rows_seq {A} (rows : list A) :
  Numpy.take_rows rows (seq 0 (length rows)) = rows.
Proof.
  unfold Numpy.take_rows. induction rows as [|a rows IH]; [reflexivity|].
  cbn [length seq omap list_omap lookup list_lookup]. f_equal.
  rewrite <- fmap_S_seq. rewrite <- IH at 2.
  generalize (seq 0 (length rows)). intros l.
  induction l as [|i l IHl]; [reflexivity|].
  rewrite fmap_cons. cbn [omap list_omap]. cbn [lookup list_lookup].
  destruct (rows !! i); by rewrite IHl.
Qed.

Lemma take_rows_perm {A} (rows : list A) (indexer : list nat) :
  indexer ≡ₚ seq 0 (length rows) -> Numpy.take_rows rows indexer ≡ₚ rows.
Proof.
  intros Hperm. rewrite <- (take_rows_seq rows) at 2.
  unfold Numpy.take_rows. by rewrite Hperm.
Qed.

Lemma adjacent_sorted asc (keys : list (option Z)) :
  forallb (fun '(a, b) => key_leb asc a b) (zip keys (tail keys)) = true ->
  column_sorted asc keys.
Proof.
  intros Hadj. unfold column_sorted. apply Sorted_StronglySorted.
  { intros a b c. apply key_le_trans. }
  induction keys as [|a keys IH]; [constructor|].
  destruct keys as [|b keys]; [repeat constructor|].
  cbn [tail zip zip_with forallb] in Hadj.
  apply andb_true_iff in Hadj as [Hab Hadj].
  constructor; [apply IH; exact Hadj|].
  constructor. by apply key_leb_le.
Qed.

Lemma numpy_sort_values_perm {A} (key : A -> option Z) asc (l : list A) :
  Numpy.sort_values key asc l ≡ₚ l.
Proof.
  unfold Numpy.sort_values.
  destruct (Numpy.nargsort _ _) as [indexer|]; [|apply stable_sort_perm].
  destruct (bool_decide _) eqn:Hp; cbn [andb]; [|apply stable_sort_perm].
  destruct (forallb _ _); [|apply stable_sort_perm].
  apply take_rows_perm. by apply bool_decide_eq_true in Hp.
Qed.

Lemma numpy_sort_values_sorted {A} (key : A -> option Z) asc (l : list A) :
  column_sorted asc (key <$> Numpy.sort_values key asc l).
Proof.
  unfold Numpy.sort_values.
  destruct (Numpy.nargsort _ _) as [indexer|]; [|apply stable_sort_sorted].
  destruct (bool_decide _); cbn [andb]; [|apply stable_sort_sorted].
  destruct (forallb _ _) eqn:Hs; [|apply stable_sort_sorted].
  by apply adjacent_sorted.
Qed.

End NumpySort.

(** [sort_values] as pandas runs it on numpy's quicksort. *)
Definition numpy_pandas : SortValues :=
  {| sort_values := @Numpy.sort_values;
     sort_values_perm := @numpy_sort_values_perm;
     sort_values_sorted := @numpy_sort_values_sorted |}.

(* ===================================================================== *)
(** ** Session resolver *)
(* ===================================================================== *)

Section SessionResolver.

Lemma weekday_range (d : date) : 0 <= weekday d < 7.
Proof. unfold weekday. apply Z.mod_pos_bound. lia. Qed.

(** The forward loop stops on the first weekday at or after its start. *)
Lemma next_trading_loop_spec (d : date) :
  d <= next_trading_loop d /\
  weekday (next_trading_loop d) < 5 /\
  forall d', d <= d' -> weekday d' < 5 -> next_trading_loop d <= d'.
Proof.
  funelim (next_trading_loop d).
  - match goal with
    | IH : _ <= next_trading_loop _ /\ _ |- _ => destruct IH as (Hle & Hwd & Hmin)
    end.
    unfold add_days in *. repeat split; [lia | exact Hwd |].
    intros d' Hd' Hw. apply Hmin; [|exact Hw].
    assert (d' <> next_day) by (intros ->; lia). lia.
  - repeat split; [lia | lia |]. intros d' Hd' _. exact Hd'.
Qed.

Lemma next_trading_day_spec (day : date) :
  day < _next_trading_day day /\
  weekday (_next_trading_day day) < 5 /\
  forall d', day < d' -> weekday d' < 5 -> _next_trading_day day <= d'.
Proof.
  unfold _next_trading_day, add_days.
  destruct (next_trading_loop_spec (day + 1)) as (Hle & Hwd & Hmin).
  repeat split; [lia | exact Hwd |].
  intros d' Hd' Hw. apply Hmin; [lia | exact Hw].
Qed.

Lemma supported_flag_AMC : supported_flag "AMC" = true.
Proof. reflexivity. Qed.

Lemma supported_flag_BMO : supported_flag "BMO" = true.
Proof. reflexivity. Qed.

Lemma normalize_timestamp_eq (ts : Timestamp) :
  _normalize_timestamp ts = {| ts_value := ts_value ts; ts_tz := Some EASTERN |}.
Proof. unfold _normalize_timestamp. by destruct (ts_tz ts). Qed.

End SessionResolver.

(** C4. For an announcement with release flag AMC (in any letter case) the
    resolver returns a day; that day is strictly after the announcement's
    calendar date in the exchange's zone, is neither a Saturday nor a
    Sunday, and no weekday strictly after the announcement date is
    earlier. *)
Theorem amc_session_day_is_next_weekday
    (self : PolygonIntradayClient) (ts : Timestamp) (release_flag : string) :
  upper release_flag = "AMC"%string ->
  exists d,
    get_session_day self ts release_flag = Ok d /\
    d = _next_trading_day (ts_date self (_normalize_timestamp ts)) /\
    ts_date self (_normalize_timestamp ts) < d /\
    weekday d <> 5 /\ weekday d <> 6 /\
    forall d', ts_date self (_normalize_timestamp ts) < d' ->
               weekday d' <> 5 -> weekday d' <> 6 -> d <= d'.
Proof.
  intros Hflag. unfold get_session_day. rewrite Hflag.
  change (supported_flag "AMC") with true.
  change ("AMC" =? "AMC")%string with true. cbv iota beta zeta delta [negb].
  eexists. split; [reflexivity|]. split; [reflexivity|].
  destruct (next_trading_day_spec (ts_date self (_normalize_timestamp ts)))
    as (Hlt & Hwd & Hmin).
  split; [exact Hlt|]. split; [lia|]. split; [lia|].
  intros d' Hd' H5 H6. apply Hmin; [exact Hd'|].
  pose proof (weekday_range d'). lia.
Qed.

(** C5. For an announcement with release flag BMO (in any letter case) the
    resolver returns the announcement's own calendar date, read on the
    US/Eastern wall clock: the timestamp keeps its instant, a zone-naive
    one being taken as UTC first, and is moved to US/Eastern before the
    date is taken. *)
Theorem bmo_session_day_is_announcement_date
    (self : PolygonIntradayClient) (ts : Timestamp) (release_flag : string) :
  upper release_flag = "BMO"%string ->
  get_session_day self ts release_flag =
    Ok (ts_date self (_normalize_timestamp ts)) /\
  (ts_tz ts = None ->
   _normalize_timestamp ts = tz_convert (tz_localize_utc ts) EASTERN) /\
  (ts_tz ts <> None -> _normalize_timestamp ts = tz_convert ts EASTERN) /\
  ts_tz (_normalize_timestamp ts) = Some EASTERN /\
  ts_date self (_normalize_timestamp ts) =
    date_of_wall_ns (ts_value ts + eastern_utcoffset self (ts_value ts) * ns_per_second).
Proof.
  intros Hflag. unfold get_session_day. rewrite Hflag.
  change (supported_flag "BMO") with true.
  change ("BMO" =? "AMC")%string with false. cbv iota beta zeta delta [negb].
  split; [reflexivity|].
  split; [intros Hnone; unfold _normalize_timestamp; by rewrite Hnone|].
  split.
  { intros Hsome. unfold _normalize_timestamp. by destruct (ts_tz ts). }
  rewrite normalize_timestamp_eq. split; reflexivity.
Qed.

Lemma amc_session_day_is_next_weekday_witness :
  exists d,
    get_session_day Sample.client (Sample.utc_timestamp (Sample.jan 5) 21 30) "amc" = Ok d /\
    d = _next_trading_day
          (ts_date Sample.client
             (_normalize_timestamp (Sample.utc_timestamp (Sample.jan 5) 21 30))) /\
    ts_date Sample.client
      (_normalize_timestamp (Sample.utc_timestamp (Sample.jan 5) 21 30)) < d /\
    weekday d <> 5 /\ weekday d <> 6 /\
    forall d',
      ts_date Sample.client
        (_normalize_timestamp (Sample.utc_timestamp (Sample.jan 5) 21 30)) < d' ->
      weekday d' <> 5 -> weekday d' <> 6 -> d <= d'.
Proof.
  apply (amc_session_day_is_next_weekday Sample.client
           (Sample.utc_timestamp (Sample.jan 5) 21 30) "amc").
  reflexivity.
Defined.

Lemma bmo_session_day_is_announcement_date_witness :
  get_session_day Sample.client (Sample.utc_timestamp (Sample.jan 9) 13 0) "Bmo" =
    Ok (ts_date Sample.client
          (_normalize_timestamp (Sample.utc_timestamp (Sample.jan 9) 13 0))) /\
  (ts_tz (Sample.utc_timestamp (Sample.jan 9) 13 0) = None ->
   _normalize_timestamp (Sample.utc_timestamp (Sample.jan 9) 13 0) =
     tz_convert (tz_localize_utc (Sample.utc_timestamp (Sample.jan 9) 13 0)) EASTERN) /\
  (ts_tz (Sample.utc_timestamp (Sample.jan 9) 13 0) <> None ->
   _normalize_timestamp (Sample.utc_timestamp (Sample.jan 9) 13 0) =
     tz_convert (Sample.utc_timestamp (Sample.jan 9) 13 0) EASTERN) /\
  ts_tz (_normalize_timestamp (Sample.utc_timestamp (Sample.jan 9) 13 0)) = Some EASTERN /\
  ts_date Sample.client
    (_normalize_timestamp (Sample.utc_timestamp (Sample.jan 9) 13 0)) =
    date_of_wall_ns
      (ts_value (Sample.utc_timestamp (Sample.jan 9) 13 0) +
       eastern_utcoffset Sample.client
         (ts_value (Sample.utc_timestamp (Sample.jan 9) 13 0)) * ns_per_second).
Proof.
  apply (bmo_session_day_is_announcement_date Sample.client
           (Sample.utc_timestamp (Sample.jan 9) 13 0) "Bmo").
  reflexivity.
Defined.

(** A Friday evening release is traded on Monday, a Thursday evening one
    on Friday; a release before the open is traded the same day; a
    zone-naive timestamp is read as UTC, so 02:00 on Tuesday is still
    Monday evening in New York; any other flag is refused. *)
Example session_day_examples :
  weekday (Sample.jan 5) = 4 /\
  get_session_day Sample.client (Sample.utc_timestamp (Sample.jan 5) 21 30) "AMC" =
    Ok (Sample.jan 8) /\
  get_session_day Sample.client (Sample.utc_timestamp (Sample.jan 4) 21 30) "AMC" =
    Ok (Sample.jan 5) /\
  get_session_day Sample.client (Sample.utc_timestamp (Sample.jan 6) 15 0) "AMC" =
    Ok (Sample.jan 8) /\
  get_session_day Sample.client (Sample.utc_timestamp (Sample.jan 9) 13 0) "BMO" =
    Ok (Sample.jan 9) /\
  get_session_day Sample.client
    {| ts_value := ts_value (Sample.utc_timestamp (Sample.jan 9) 2 0); ts_tz := None |}
    "BMO" = Ok (Sample.jan 8) /\
  get_session_day Sample.client (Sample.utc_timestamp (Sample.jan 9) 13 0) "TAS" =
    Raise (ValueError "release_flag must be 'AMC' or 'BMO'.").
Proof. repeat split; vm_compute; reflexivity. Qed.

(* ===================================================================== *)
(** ** Reaction metrics engine and event reaction analyzer *)
(* ===================================================================== *)

Section AnalyzerFacts.







(** An unusable event leaves the loop as it found it. *)
Lemma iterrows_unusable self ticker event events records :
  Spec.unusable event ->
  Analyzer.iterrows self ticker (event :: events) records =
  Analyzer.iterrows self ticker events records.
Proof.
  unfold Spec.unusable, Spec.flag.
  intros [Hflag | Hdate]; cbn [Analyzer.iterrows].
  - by rewrite Hflag.
  - rewrite Hdate. by destruct (negb _).
Qed.

Lemma iterrows_drop_unusable self ticker before event after records :
  Spec.unusable event ->
  Analyzer.iterrows self ticker (before ++ event :: after) records =
  Analyzer.iterrows self ticker (before ++ after) records.
Proof.
  intros Hbad. revert records.
  induction before as [|e before IH]; intros records.
  - by apply iterrows_unusable.
  - rewrite <- !app_comm_cons. cbn [Analyzer.iterrows].
    destruct (negb _); [apply IH|].
    destruct (Event.earnings_date e) as [ts|]; [|apply IH].
    destruct (get_session_day _ _ _) as [day|err]; [|reflexivity].
    cbn [bind].
    destruct (get_intraday_window _ _ _ _) as [[|first rest]|err];
      cbn [bind]; [apply IH | | reflexivity].
    destruct (get_previous_close _ _ _) as [pc|err]; cbn [bind];
      [apply IH | reflexivity].
Qed.

(** The records the loop appends belong to events it went through, in the
    order it went through them. *)
Lemma iterrows_times self ticker events records out :
  Analyzer.iterrows self ticker events records = Ok out ->
  exists used,
    sublist used events /\
    Some <$> Spec.announcement_times out =
      (Some <$> Spec.announcement_times records) ++ (Analyzer.earnings_key <$> used).
Proof.
  revert records. induction events as [|e events IH]; intros records Hrun.
  - cbn in Hrun. injection Hrun as <-. exists []. split; [constructor|].
    by rewrite app_nil_r.
  - cbn [Analyzer.iterrows] in Hrun.
    assert (Hskip : Analyzer.iterrows self ticker events records = Ok out ->
      exists used, sublist used (e :: events) /\
        Some <$> Spec.announcement_times out =
          (Some <$> Spec.announcement_times records) ++ (Analyzer.earnings_key <$> used)).
    { intros H. destruct (IH _ H) as (used & Hsub & Heq).
      exists used. split; [by apply sublist_cons | exact Heq]. }
    destruct (negb _); [by apply Hskip|].
    destruct (Event.earnings_date e) as [ts|] eqn:Ets; [|by apply Hskip].
    destruct (get_session_day _ _ _) as [day|err]; [|discriminate].
    cbn [bind] in Hrun.
    destruct (get_intraday_window _ _ _ _) as [[|first rest]|err];
      cbn [bind] in Hrun; [by apply Hskip | | discriminate].
    destruct (get_previous_close _ _ _) as [pc|err]; cbn [bind] in Hrun;
      [|discriminate].
    destruct (IH _ Hrun) as (used & Hsub & Heq).
    exists (e :: used). split; [by apply sublist_skip|].
    rewrite Heq. unfold Spec.announcement_times.
    rewrite !fmap_app, fmap_cons, <- app_assoc. cbn.
    unfold Analyzer.earnings_key at 2. rewrite Ets. reflexivity.
Qed.

Lemma StronglySorted_sublist {A} (R : A -> A -> Prop) (l1 l2 : list A) :
  sublist l1 l2 -> StronglySorted R l2 -> StronglySorted R l1.
Proof.
  induction 1 as [|x l1 l2 Hsub IH|x l1 l2 Hsub IH]; intros Hs.
  - constructor.
  - apply StronglySorted_inv in Hs as [Hs Hx]. constructor; [by apply IH|].
    apply Forall_forall. intros y Hy.
    apply (proj1 (Forall_forall _ _) Hx). by apply (sublist_subseteq _ _ Hsub).
  - apply StronglySorted_inv in Hs as [Hs _]. by apply IH.
Qed.

End AnalyzerFacts.

Section FlagFacts.

Lemma upper_ascii_idem (c : ascii) : upper_ascii (upper_ascii c) = upper_ascii c.
Proof.
  destruct c as [[] [] [] [] [] [] [] []]; vm_compute; reflexivity.
Qed.

Lemma upper_idem (s : string) : upper (upper s) = upper s.
Proof.
  induction s as [|c s IH]; [reflexivity|].
  cbn [upper]. by rewrite upper_ascii_idem, IH.
Qed.

Lemma get_session_day_supported self ts release_flag day :
  get_session_day self ts release_flag = Ok day ->
  supported_flag (upper release_flag) = true.
Proof.
  unfold get_session_day. destruct (supported_flag (upper release_flag)); [done|].
  discriminate.
Qed.

End FlagFacts.



(** The specification's worked example: open 100, high 110, low 95,
    close 105 and a previous close of 98. *)
Example reaction_metrics_example :
  exists r,
    Analyzer.analyze_ticker stable_pandas Sample.client "ACME" [Sample.bmo_event] = Ok [r] /\
    Metric.open r = 100%Q /\ Metric.high r = 110%Q /\
    Metric.low r = 95%Q /\ Metric.close r = 105%Q /\
    Metric.prev_close r = Some 98%Q /\
    (exists g, Metric.gap_ret r = Some g /\ (g == 2 # 98)%Q /\
               (Qabs (g - 0.0204) < 0.0001)%Q) /\
    (exists o, Metric.oc_ret r = Some o /\ (o == 0.05)%Q) /\
    (exists w, Metric.range_pct r = Some w /\ (w == 0.15)%Q).
Proof.
  eexists. split; [vm_compute; reflexivity|].
  repeat split; try reflexivity; eexists; (split; [reflexivity|]);
    try split; reflexivity.
Qed.

(** A session that opens at zero has no open-to-close return and no
    range. *)
Example zero_open_example (first : Bar) (rest : list Bar) (pc : option Q) :
  (bar_open first == 0)%Q ->
  Metric.oc_ret (Analyzer.reaction_record "ACME" (Sample.utc_timestamp (Sample.jan 9) 13 0)
                   "BMO" (Sample.jan 9) first rest pc) = None /\
  Metric.range_pct (Analyzer.reaction_record "ACME" (Sample.utc_timestamp (Sample.jan 9) 13 0)
                      "BMO" (Sample.jan 9) first rest pc) = None.
Proof.
  intros H. apply Qeqb_true in H. cbn. by rewrite H.
Qed.

(** C9. An event whose upper-cased release flag is neither AMC nor BMO, or
    whose announcement timestamp is missing, is passed over: wherever it
    stands among the sorted events, the analysis of the ticker is the
    analysis of the other events, with the same records or the same
    exception; and the loop goes on to the events after it with the
    records it had. *)
Theorem unusable_event_is_skipped
    (pd : SortValues) (self : PolygonIntradayClient) (ticker : string)
    (events before after : list Event.t) (event : Event.t) :
  Analyzer.events_sorted pd events = before ++ event :: after ->
  Spec.unusable event ->
  Analyzer.analyze_ticker pd self ticker events =
    Analyzer.iterrows self ticker (before ++ after) [] /\
  forall records,
    Analyzer.iterrows self ticker (event :: after) records =
    Analyzer.iterrows self ticker after records.
Proof.
  intros Hsorted Hbad. split.
  - unfold Analyzer.analyze_ticker. destruct events as [|e events].
    + pose proof (sort_values_perm pd _ Analyzer.earnings_key true []) as Hp.
      unfold Analyzer.events_sorted in Hsorted. rewrite Hsorted in Hp.
      apply Permutation_nil_r in Hp. by destruct before.
    + rewrite Hsorted. by apply iterrows_drop_unusable.
  - intros records. by apply iterrows_unusable.
Qed.

Lemma unusable_event_is_skipped_witness :
  Analyzer.analyze_ticker stable_pandas Sample.client "ACME"
    [Sample.bmo_event; Sample.bad_flag_event; Sample.amc_event] =
    Analyzer.iterrows Sample.client "ACME"
      ([] ++ [Sample.amc_event; Sample.bmo_event]) [] /\
  forall records,
    Analyzer.iterrows Sample.client "ACME"
      (Sample.bad_flag_event :: [Sample.amc_event; Sample.bmo_event]) records =
    Analyzer.iterrows Sample.client "ACME"
      [Sample.amc_event; Sample.bmo_event] records.
Proof.
  apply (unusable_event_is_skipped stable_pandas Sample.client "ACME"
           [Sample.bmo_event; Sample.bad_flag_event; Sample.amc_event]
           [] [Sample.amc_event; Sample.bmo_event] Sample.bad_flag_event).
  - vm_compute; reflexivity.
  - left. vm_compute; reflexivity.
Defined.

(** An event without a timestamp is skipped before any request is made:
    with a provider that only fails, the analysis still succeeds. *)
Example missing_timestamp_example :
  Analyzer.analyze_ticker stable_pandas Sample.offline "ACME"
    [Sample.no_date_event; Sample.bad_flag_event] = Ok [].
Proof. vm_compute; reflexivity. Qed.

Section StabilityFacts.

Lemma key_leb_refl asc k : key_leb asc k k = true.
Proof. apply key_leb_le. destruct (key_le_total asc k k); assumption. Qed.

Lemma filter_insert_front {A} (key : A -> option Z) asc (k : option Z) x (l : list A) :
  filter (fun a => key a = k) (insert_front key asc x l) =
  filter (fun a => key a = k) (x :: l).
Proof.
  induction l as [|y l IH]; [reflexivity|].
  cbn [insert_front].
  destruct (key_leb asc (key x) (key y)) eqn:E; [reflexivity|].
  rewrite filter_cons, IH, !filter_cons.
  destruct (decide (key y = k)) as [Hy|Hy], (decide (key x = k)) as [Hx|Hx];
    try reflexivity.
  rewrite <- Hx in Hy. rewrite Hy, key_leb_refl in E. discriminate.
Qed.

(** The stable sort keeps ties in order. *)
Lemma stable_sort_ties {A} (key : A -> option Z) asc (l : list A) :
  Spec.ties_in_order key l (stable_sort key asc l).
Proof.
  intros k. unfold stable_sort. induction l as [|x l IH]; [reflexivity|].
  cbn [foldr]. rewrite filter_insert_front, !filter_cons, IH. reflexivity.
Qed.

End StabilityFacts.

(** C7, as the program has it.  The analyzer goes through the events in
    the order [sort_values] gives them: a rearrangement of the input in
    which the announcement timestamps ascend and the events without a
    timestamp come last.  The records of a successful analysis are
    therefore in ascending order of announcement timestamp.  The order of
    events with equal timestamps is whatever the sort makes it. *)
Theorem analyzer_orders_by_announcement
    (pd : SortValues) (self : PolygonIntradayClient) (ticker : string)
    (events : list Event.t) (records : list Metric.t) :
  Analyzer.analyze_ticker pd self ticker events = Ok records ->
  Analyzer.events_sorted pd events ≡ₚ events /\
  column_sorted true (Analyzer.earnings_key <$> Analyzer.events_sorted pd events) /\
  StronglySorted Z.le (Spec.announcement_times records).
Proof.
  intros Hrun.
  split; [apply sort_values_perm|].
  split; [apply sort_values_sorted|].
  unfold Analyzer.analyze_ticker in Hrun. destruct events as [|e events].
  { injection Hrun as <-. constructor. }
  apply iterrows_times in Hrun as (used & Hsub & Heq).
  rewrite app_nil_l in Heq.
  pose proof (sort_values_sorted pd _ Analyzer.earnings_key true (e :: events)) as Hs.
  unfold column_sorted in Hs.
  apply (StronglySorted_sublist _ (Analyzer.earnings_key <$> used)) in Hs.
  2:{ by apply fmap_sublist. }
  rewrite <- Heq in Hs.
  apply (proj2 (StronglySorted_by_key Some (key_le true) _)) in Hs.
  exact Hs.
Qed.

Lemma analyzer_orders_by_announcement_witness :
  Analyzer.events_sorted stable_pandas
    [Sample.bmo_event; Sample.no_date_event; Sample.amc_event] ≡ₚ
    [Sample.bmo_event; Sample.no_date_event; Sample.amc_event] /\
  column_sorted true
    (Analyzer.earnings_key <$>
       Analyzer.events_sorted stable_pandas
         [Sample.bmo_event; Sample.no_date_event; Sample.amc_event]) /\
  StronglySorted Z.le
    (Spec.announcement_times
       [Analyzer.reaction_record "ACME" (Sample.utc_timestamp (Sample.jan 5) 21 30)
          "AMC" (Sample.jan 8)
          (bar_of_agg (mkAgg (Sample.day_ms (Sample.jan 8) + 34200000) 100 104 99 103 5000))
          (bar_of_agg <$> tail (Sample.session_aggs (Sample.jan 8))) (Some 100%Q);
        Analyzer.reaction_record "ACME" (Sample.utc_timestamp (Sample.jan 9) 13 0)
          "BMO" (Sample.jan 9)
          (bar_of_agg (mkAgg (Sample.day_ms (Sample.jan 9) + 34200000) 100 104 99 103 5000))
          (bar_of_agg <$> tail (Sample.session_aggs (Sample.jan 9))) (Some 98%Q)]).
Proof.
  apply (analyzer_orders_by_announcement stable_pandas Sample.client "ACME").
  vm_compute; reflexivity.
Defined.

(** C7, as the specification has it, fails: the sort behind
    [sort_values] is numpy's quicksort, which leaves events announced at
    the same instant in their input order only as long as no partition is
    made, that is up to sixteen events with a timestamp.  Of the seventeen
    events of [Calendar.events] those of the ninth come out in the order
    i, o, j, e, q, b and not in the order b, e, i, j, o, q of the input. *)
Lemma quicksort_breaks_ties :
  ~ Spec.ties_in_order Analyzer.earnings_key Calendar.events
      (Analyzer.events_sorted numpy_pandas Calendar.events).
Proof.
  intros H.
  specialize (H (Analyzer.earnings_key (Calendar.morning 9 "b"))).
  vm_compute in H. discriminate H.
Qed.

(** The order of the seventeen events; the first sixteen alone, and two
    events announced at the same instant, come out as a stable sort leaves
    them. *)
Example quicksort_order_example :
  Event.period <$> Analyzer.events_sorted numpy_pandas Calendar.events =
    ["i"; "o"; "j"; "e"; "q"; "b"; "f"; "g"; "p"; "c"; "l"; "n";
     "h"; "k"; "m"; "d"; "a"]%string /\
  Analyzer.events_sorted numpy_pandas (take 16 Calendar.events) =
    Analyzer.events_sorted stable_pandas (take 16 Calendar.events) /\
  Analyzer.events_sorted numpy_pandas [Sample.tie_first; Sample.tie_second] =
    [Sample.tie_first; Sample.tie_second].
Proof. repeat split; vm_compute; reflexivity. Qed.

(* ===================================================================== *)
(** ** Consistency scorer *)
(* ===================================================================== *)

Section ScorerFacts.

Lemma column_of_valid_events (table : list Metric.t) :
  ConsistencyScorer.column_oc_ret (ConsistencyScorer.dropna_oc_ret table) =
  Fin <$> Spec.present_oc_ret table.
Proof.
  unfold ConsistencyScorer.column_oc_ret, ConsistencyScorer.dropna_oc_ret,
    Spec.present_oc_ret.
  induction table as [|r table IH]; [reflexivity|].
  rewrite filter_cons. cbn [omap list_omap].
  destruct (Metric.oc_ret r) as [q|] eqn:E.
  - rewrite decide_True by eauto. rewrite !fmap_cons, E. by rewrite IH.
  - rewrite decide_False by (by intros [? ?]). exact IH.
Qed.

Lemma valid_events_count (table : list Metric.t) :
  length (ConsistencyScorer.dropna_oc_ret table) =
  length (Spec.present_oc_ret table).
Proof.
  rewrite <- (length_fmap Fin (Spec.present_oc_ret table)).
  rewrite <- column_of_valid_events.
  unfold ConsistencyScorer.column_oc_ret. by rewrite length_fmap.
Qed.

Lemma present_oc_ret_nil (table : list Metric.t) :
  Spec.present_oc_ret table = [] <->
  forall r, r ∈ table -> Metric.oc_ret r = None.
Proof.
  unfold Spec.present_oc_ret. induction table as [|r table IH].
  - split; [intros _ r Hr; inversion Hr | reflexivity].
  - cbn [omap list_omap]. destruct (Metric.oc_ret r) as [q|] eqn:E.
    + split; [discriminate|]. intros H. specialize (H r ltac:(left)). congruence.
    + rewrite IH. split.
      * intros H r' Hr'. apply elem_of_cons in Hr' as [-> | Hr']; [exact E | by apply H].
      * intros H r' Hr'. apply H. by right.
Qed.

Lemma fgtb_truthy (x : fnum) : fgtb x (Fin 0) = true -> truthy x = true.
Proof.
  unfold fgtb, truthy. destruct x as [q| | |]; try done.
  cbn. intros H. apply Qltb_true in H.
  apply negb_true_iff, Qeqb_false. intros Hq. rewrite Hq in H.
  exact (Qlt_irrefl _ H).
Qed.

(** The scorer on a table with at least one present [oc_ret], once the
    baseline is there. *)
Lemma score_of_valid_events pd self ticker table nem :
  Spec.present_oc_ret table <> [] ->
  ConsistencyScorer._median_abs_oc_non_earnings pd self ticker
    (ConsistencyScorer.dropna_oc_ret table) = Ok nem ->
  let oc := Fin <$> Spec.present_oc_ret table in
  let sign_mean :=
    if fgtb (Series.mean oc) (Fin 0) then 1
    else if fltb (Series.mean oc) (Fin 0) then -1 else 0 in
  let hit :=
    if sign_mean =? 0 then Fin 0
    else Series.mean_bool
           ((fun s => s =? sign_mean) <$> (ConsistencyScorer.sign_of <$> oc)) in
  let big :=
    Series.mean_bool ((fun x => fgeb x (Fin 0.02)) <$> Series.abs oc) in
  let boost :=
    if fgtb nem (Fin 0) then fdiv (Series.median (Series.abs oc)) nem else Fin 0 in
  ConsistencyScorer.score pd self ticker table =
  Ok {| Score.hit_main_dir := hit;
        Score.big_move_hit := big;
        Score.boost := boost;
        Score.score :=
          fadd (fadd (fmul (Fin 0.5) hit) (fmul (Fin 0.3) big)) (fmul (Fin 0.2) boost);
        Score.events_count := Z.of_nat (length (Spec.present_oc_ret table)) |}.
Proof.
  intros Hne Hnem. cbv zeta. unfold ConsistencyScorer.score.
  destruct table as [|r0 table]; [done|].
  set (tbl := r0 :: table) in *.
  rewrite valid_events_count.
  destruct (Z.of_nat (length (Spec.present_oc_ret tbl)) =? 0) eqn:E.
  { apply Z.eqb_eq in E. destruct (Spec.present_oc_ret tbl); [done | simpl in E; lia]. }
  rewrite Hnem. cbn [bind]. rewrite column_of_valid_events.
  f_equal.
  destruct (fgtb nem (Fin 0)) eqn:Eg.
  - by rewrite (fgtb_truthy _ Eg).
  - by rewrite andb_false_r.
Qed.

Lemma score_raises pd self ticker table e :
  Spec.present_oc_ret table <> [] ->
  ConsistencyScorer._median_abs_oc_non_earnings pd self ticker
    (ConsistencyScorer.dropna_oc_ret table) = Raise e ->
  ConsistencyScorer.score pd self ticker table = Raise e.
Proof.
  intros Hne Hnem. unfold ConsistencyScorer.score.
  destruct table as [|r0 table]; [done|].
  set (tbl := r0 :: table) in *.
  rewrite valid_events_count.
  destruct (Z.of_nat (length (Spec.present_oc_ret tbl)) =? 0) eqn:E.
  { apply Z.eqb_eq in E. destruct (Spec.present_oc_ret tbl); [done | simpl in E; lia]. }
  by rewrite Hnem.
Qed.

Lemma score_of_no_valid_events pd self ticker table :
  Spec.present_oc_ret table = [] ->
  ConsistencyScorer.score pd self ticker table = Ok Score.zero.
Proof.
  intros Hnone. unfold ConsistencyScorer.score.
  destruct table as [|r0 table]; [reflexivity|].
  by rewrite valid_events_count, Hnone.
Qed.

End ScorerFacts.

(** C8. A metrics table in which no record has an [oc_ret], the empty
    table among them, scores as the zero record; no request is made and
    nothing is raised. *)
Theorem score_without_valid_events
    (pd : SortValues) (self : ConsistencyScorer.t) (ticker : string)
    (table : list Metric.t) :
  (forall r, r ∈ table -> Metric.oc_ret r = None) ->
  ConsistencyScorer.score pd self ticker table = Ok Score.zero /\
  Score.hit_main_dir Score.zero = Fin 0 /\
  Score.big_move_hit Score.zero = Fin 0 /\
  Score.boost Score.zero = Fin 0 /\
  Score.score Score.zero = Fin 0 /\
  Score.events_count Score.zero = 0.
Proof.
  intros Hnone. split; [|repeat split].
  apply score_of_no_valid_events. by apply present_oc_ret_nil.
Qed.

Lemma score_without_valid_events_witness :
  ConsistencyScorer.score stable_pandas (ConsistencyScorer.make Sample.offline)
    "ACME" Sample.unscored_metrics = Ok Score.zero /\
  Score.hit_main_dir Score.zero = Fin 0 /\
  Score.big_move_hit Score.zero = Fin 0 /\
  Score.boost Score.zero = Fin 0 /\
  Score.score Score.zero = Fin 0 /\
  Score.events_count Score.zero = 0.
Proof.
  apply (score_without_valid_events stable_pandas
           (ConsistencyScorer.make Sample.offline) "ACME" Sample.unscored_metrics).
  intros r Hr. unfold Sample.unscored_metrics in Hr.
  repeat (apply elem_of_cons in Hr as [-> | Hr]; [reflexivity|]).
  by apply elem_of_nil in Hr.
Defined.

Example score_of_empty_table (pd : SortValues) (self : ConsistencyScorer.t) :
  ConsistencyScorer.score pd self "ACME" [] = Ok Score.zero.
Proof. reflexivity. Qed.

Section ScoreReading.

Lemma fraction_ext {A} (P P' : A -> bool) (l : list A) :
  (forall a, P a = P' a) -> Spec.fraction P l = Spec.fraction P' l.
Proof.
  intros H. unfold Spec.fraction. f_equal. f_equal. f_equal. f_equal.
  induction l as [|a l IH]; [reflexivity|]. simpl. by rewrite H, IH.
Qed.

Lemma Qltb_asym (a b : Q) : Qltb a b = true -> Qltb b a = false.
Proof.
  intros H. apply Qltb_true in H. apply Qltb_false. by apply Qlt_le_weak.
Qed.

Lemma sign_is_1 (q : Q) :
  (ConsistencyScorer.sign_of (Fin q) =? 1) = Spec.is_positive q.
Proof.
  unfold ConsistencyScorer.sign_of, Spec.is_positive, fgtb. cbn [fltb].
  destruct (Qltb 0 q); [reflexivity|]. by destruct (Qltb q 0).
Qed.

Lemma sign_is_minus_1 (q : Q) :
  (ConsistencyScorer.sign_of (Fin q) =? -1) = Spec.is_negative q.
Proof.
  unfold ConsistencyScorer.sign_of, Spec.is_negative, fgtb. cbn [fltb].
  destruct (Qltb 0 q) eqn:E; [by rewrite (Qltb_asym _ _ E)|].
  by destruct (Qltb q 0).
Qed.

Lemma Qsum_pos (qs : list Q) :
  qs <> [] -> (forall q, q ∈ qs -> (0 < q)%Q) -> (0 < Spec.Qsum qs)%Q.
Proof.
  intros Hne Hall. induction qs as [|q qs IH]; [done|].
  unfold Spec.Qsum in *. cbn [fold_right].
  pose proof (Hall q ltac:(left)) as Hq.
  destruct qs as [|q' qs'].
  - cbn. lra.
  - assert (0 < fold_right Qplus 0 (q' :: qs'))%Q.
    { apply IH; [done|]. intros x Hx. apply Hall. by right. }
    lra.
Qed.

Lemma Qmean_pos (qs : list Q) :
  qs <> [] -> (forall q, q ∈ qs -> (0 < q)%Q) -> (0 < Spec.Qmean qs)%Q.
Proof.
  intros Hne Hall. unfold Spec.Qmean.
  apply Qlt_shift_div_l.
  - apply inject_nat_pos. destruct qs; [done | simpl; lia].
  - rewrite Qmult_0_l. by apply Qsum_pos.
Qed.

(** The score record read on the rationals. *)
Lemma score_reading pd self ticker table nem :
  Spec.present_oc_ret table <> [] ->
  ConsistencyScorer._median_abs_oc_non_earnings pd self ticker
    (ConsistencyScorer.dropna_oc_ret table) = Ok nem ->
  exists h g b,
    ConsistencyScorer.score pd self ticker table =
      Ok {| Score.hit_main_dir := Fin h;
            Score.big_move_hit := Fin g;
            Score.boost := Fin b;
            Score.score := Fin (0.5 * h + 0.3 * g + 0.2 * b);
            Score.events_count := Z.of_nat (length (Spec.present_oc_ret table)) |} /\
    ((0 < Spec.Qmean (Spec.present_oc_ret table))%Q ->
       (h == Spec.fraction Spec.is_positive (Spec.present_oc_ret table))%Q) /\
    ((Spec.Qmean (Spec.present_oc_ret table) < 0)%Q ->
       (h == Spec.fraction Spec.is_negative (Spec.present_oc_ret table))%Q) /\
    ((Spec.Qmean (Spec.present_oc_ret table) == 0)%Q -> h = 0%Q) /\
    (g == Spec.fraction Spec.is_big_move (Spec.present_oc_ret table))%Q /\
    Fin b =
      (if fgtb nem (Fin 0)
       then fdiv (Fin (Spec.Qmedian (Qabs <$> Spec.present_oc_ret table))) nem
       else Fin 0) /\
    (0 <= h <= 1)%Q /\ (0 <= g <= 1)%Q /\ (0 <= b)%Q.
Proof.
  intros Hne Hnem.
  rewrite (score_of_valid_events pd self ticker table nem Hne Hnem). cbv zeta.
  set (qs := Spec.present_oc_ret table) in *.
  (* the mean and its sign *)
  destruct (mean_Fin qs Hne) as (m & Hm & Hmq). rewrite Hm.
  (* the big moves *)
  replace ((fun x => fgeb x (Fin 0.02)) <$> Series.abs (Fin <$> qs))
    with (Spec.is_big_move <$> qs).
  2:{ unfold Series.abs. rewrite <- !list_fmap_compose. reflexivity. }
  destruct (mean_bool_fraction Spec.is_big_move qs Hne) as (g & Hg & Hgq).
  rewrite Hg.
  (* the earnings median *)
  replace (Series.median (Series.abs (Fin <$> qs)))
    with (Fin (Spec.Qmedian (Qabs <$> qs))).
  2:{ unfold Series.abs. rewrite <- list_fmap_compose.
      rewrite <- median_Fin by (by destruct qs).
      by rewrite <- list_fmap_compose. }
  assert (Hmed : (0 <= Spec.Qmedian (Qabs <$> qs))%Q).
  { apply Qmedian_nonneg; [by destruct qs|].
    intros q Hq. apply list_elem_of_fmap in Hq as (q' & -> & _). apply Qabs_nonneg. }
  (* the boost *)
  assert (Hboost : exists b,
    (if fgtb nem (Fin 0)
     then fdiv (Fin (Spec.Qmedian (Qabs <$> qs))) nem else Fin 0) = Fin b /\
    (0 <= b)%Q).
  { destruct nem as [q| | |]; cbn.
    - destruct (Qltb 0 q) eqn:Eq.
      + apply Qltb_true in Eq.
        assert (Hq0 : Qeqb q 0 = false).
        { apply Qeqb_false. intros H0. rewrite H0 in Eq. exact (Qlt_irrefl _ Eq). }
        rewrite Hq0. eexists. split; [reflexivity|].
        apply Qle_shift_div_l; [exact Eq|]. by rewrite Qmult_0_l.
      + exists 0%Q. split; [reflexivity | apply Qle_refl].
    - exists 0%Q. split; [reflexivity | apply Qle_refl].
    - exists 0%Q. split; [reflexivity | apply Qle_refl].
    - exists 0%Q. split; [reflexivity | apply Qle_refl]. }
  destruct Hboost as (b & Hb & Hb0). rewrite Hb.
  pose proof (fraction_bounds Spec.is_big_move qs Hne) as Hgb.
  (* the hit rate, by the sign of the mean *)
  unfold fgtb. cbn [fltb].
  destruct (Qltb 0 m) eqn:Epos; [|destruct (Qltb m 0) eqn:Eneg].
  - cbn [Z.eqb].
    rewrite <- list_fmap_compose.
    destruct (mean_bool_fraction
                (fun q => ConsistencyScorer.sign_of (Fin q) =? 1) qs Hne)
      as (h & Hh & Hhq).
    rewrite <- list_fmap_compose. unfold compose in *. rewrite Hh.
    rewrite (fraction_ext _ Spec.is_positive) in Hhq by apply sign_is_1.
    pose proof (fraction_bounds Spec.is_positive qs Hne) as Hhb.
    apply Qltb_true in Epos. rewrite Hmq in Epos.
    exists h, g, b. split; [reflexivity|].
    split; [intros _; exact Hhq|].
    split; [intros Hlt; exfalso; exact (Qlt_irrefl _ (Qlt_trans _ _ _ Epos Hlt))|].
    split; [intros H0; exfalso; rewrite H0 in Epos; exact (Qlt_irrefl _ Epos)|].
    split; [exact Hgq|]. split; [reflexivity|].
    rewrite Hhq, Hgq. auto.
  - cbn [Z.eqb].
    rewrite <- list_fmap_compose.
    destruct (mean_bool_fraction
                (fun q => ConsistencyScorer.sign_of (Fin q) =? -1) qs Hne)
      as (h & Hh & Hhq).
    rewrite <- list_fmap_compose. unfold compose in *. rewrite Hh.
    rewrite (fraction_ext _ Spec.is_negative) in Hhq by apply sign_is_minus_1.
    pose proof (fraction_bounds Spec.is_negative qs Hne) as Hhb.
    apply Qltb_true in Eneg. rewrite Hmq in Eneg.
    exists h, g, b. split; [reflexivity|].
    split; [intros Hlt; exfalso; exact (Qlt_irrefl _ (Qlt_trans _ _ _ Eneg Hlt))|].
    split; [intros _; exact Hhq|].
    split; [intros H0; exfalso; rewrite H0 in Eneg; exact (Qlt_irrefl _ Eneg)|].
    split; [exact Hgq|]. split; [reflexivity|].
    rewrite Hhq, Hgq. auto.
  - cbn [Z.eqb].
    apply Qltb_false in Epos, Eneg. rewrite Hmq in Epos, Eneg.
    exists 0%Q, g, b. split; [reflexivity|].
    split; [intros Hlt; exfalso; exact (Qlt_not_le _ _ Hlt Epos)|].
    split; [intros Hlt; exfalso; exact (Qlt_not_le _ _ Hlt Eneg)|].
    split; [reflexivity|].
    split; [exact Hgq|]. split; [reflexivity|].
    rewrite Hgq. repeat split; auto; lra.
Qed.

End ScoreReading.

(** C1. On a table with at least one present [oc_ret], and once the
    baseline median [nem] has been fetched, the scorer returns a record
    whose [big_move_hit] is the share of the present [oc_ret] values with
    [|oc_ret| >= 0.02], whose [boost] is the median of [|oc_ret|] divided
    by [nem] when [nem] is a number strictly above zero and [0] otherwise,
    and whose [score] is [0.5*hit_main_dir + 0.3*big_move_hit + 0.2*boost]. *)
Theorem score_components
    (pd : SortValues) (self : ConsistencyScorer.t) (ticker : string)
    (table : list Metric.t) (nem : fnum) :
  Spec.present_oc_ret table <> [] ->
  ConsistencyScorer._median_abs_oc_non_earnings pd self ticker
    (ConsistencyScorer.dropna_oc_ret table) = Ok nem ->
  exists r,
    ConsistencyScorer.score pd self ticker table = Ok r /\
    Score.events_count r = Z.of_nat (length (Spec.present_oc_ret table)) /\
    feq (Score.big_move_hit r)
        (Fin (Spec.fraction Spec.is_big_move (Spec.present_oc_ret table))) /\
    (fgtb nem (Fin 0) = true ->
       Score.boost r =
         fdiv (Fin (Spec.Qmedian (Qabs <$> Spec.present_oc_ret table))) nem) /\
    (forall q, nem = Fin q -> (0 < q)%Q ->
       feq (Score.boost r)
           (Fin (Spec.Qmedian (Qabs <$> Spec.present_oc_ret table) / q))) /\
    (fgtb nem (Fin 0) = false -> Score.boost r = Fin 0) /\
    Score.score r =
      fadd (fadd (fmul (Fin 0.5) (Score.hit_main_dir r))
                 (fmul (Fin 0.3) (Score.big_move_hit r)))
           (fmul (Fin 0.2) (Score.boost r)).
Proof.
  intros Hne Hnem.
  destruct (score_reading pd self ticker table nem Hne Hnem)
    as (h & g & b & Hscore & _ & _ & _ & Hg & Hb & _).
  eexists. split; [exact Hscore|].
  cbn [Score.events_count Score.big_move_hit Score.boost Score.score
       Score.hit_main_dir].
  split; [reflexivity|]. split; [exact Hg|].
  split; [intros Hpos; by rewrite Hb, Hpos|].
  split.
  { intros q -> Hq. rewrite Hb.
    assert (Hlt : Qltb 0 q = true) by (by apply Qltb_true).
    assert (Hq0 : Qeqb q 0 = false).
    { apply Qeqb_false. intros H0. rewrite H0 in Hq. exact (Qlt_irrefl _ Hq). }
    unfold fgtb. cbn [fltb fdiv]. rewrite Hlt, Hq0. cbn [feq]. reflexivity. }
  split; [intros Hnot; by rewrite Hb, Hnot|].
  reflexivity.
Qed.

Lemma score_components_witness :
  exists r,
    ConsistencyScorer.score stable_pandas (ConsistencyScorer.make Sample.client)
      "ACME" Sample.metrics = Ok r /\
    Score.events_count r = Z.of_nat (length (Spec.present_oc_ret Sample.metrics)) /\
    feq (Score.big_move_hit r)
        (Fin (Spec.fraction Spec.is_big_move (Spec.present_oc_ret Sample.metrics))) /\
    (fgtb (Fin (200 # 20000)) (Fin 0) = true ->
       Score.boost r =
         fdiv (Fin (Spec.Qmedian (Qabs <$> Spec.present_oc_ret Sample.metrics)))
              (Fin (200 # 20000))) /\
    (forall q, Fin (200 # 20000) = Fin q -> (0 < q)%Q ->
       feq (Score.boost r)
           (Fin (Spec.Qmedian (Qabs <$> Spec.present_oc_ret Sample.metrics) / q))) /\
    (fgtb (Fin (200 # 20000)) (Fin 0) = false -> Score.boost r = Fin 0) /\
    Score.score r =
      fadd (fadd (fmul (Fin 0.5) (Score.hit_main_dir r))
                 (fmul (Fin 0.3) (Score.big_move_hit r)))
           (fmul (Fin 0.2) (Score.boost r)).
Proof.
  apply (score_components stable_pandas (ConsistencyScorer.make Sample.client)
           "ACME" Sample.metrics (Fin (200 # 20000))).
  - vm_compute. discriminate.
  - vm_compute. reflexivity.
Defined.

(** The specification's end-to-end example: four valid events, three of
    them with [|oc_ret| >= 0.02] and all in one direction, a baseline
    median of 0.01 and an earnings median of 0.03. *)
Example score_example :
  exists r,
    ConsistencyScorer.score stable_pandas (ConsistencyScorer.make Sample.client)
      "ACME" Sample.metrics = Ok r /\
    Score.events_count r = 4 /\
    feq (Score.hit_main_dir r) (Fin 1) /\
    feq (Score.big_move_hit r) (Fin 0.75) /\
    feq (Score.boost r) (Fin 3) /\
    feq (Score.score r) (Fin 1.325).
Proof.
  eexists. split; [vm_compute; reflexivity|].
  repeat split; reflexivity.
Qed.

(* ===================================================================== *)
(** ** Doubles: signs, counts and sums *)
(* ===================================================================== *)

Section DoubleSigns.
Import Binary64 SpecFloat FloatOps FloatAxioms.

(** A number on the side [sg] of zero ([true] for the negative side): a
    zero of either sign, [nan], or a value whose sign is [sg]. *)
Definition on_side (sg : bool) (a : spec_float) : bool :=
  match a with
  | S754_infinity s | S754_finite s _ _ => Bool.eqb s sg
  | _ => true
  end.

(** The same with the sign of a zero taken into account. *)
Definition signed (sg : bool) (a : spec_float) : bool :=
  match a with
  | S754_nan => true
  | S754_zero s | S754_infinity s | S754_finite s _ _ => Bool.eqb s sg
  end.

Lemma signed_on_side sg a : signed sg a = true -> on_side sg a = true.
Proof. by destruct a. Qed.

Lemma binary_round_aux_signed sx mx ex lx :
  signed sx (binary_round_aux prec emax sx mx ex lx) = true.
Proof.
  unfold binary_round_aux.
  destruct (shr_fexp prec emax mx ex lx) as [mrs' e'].
  destruct (shr_fexp prec emax _ e' loc_Exact) as [mrs'' e''].
  destruct (shr_m mrs'') as [|m|m]; cbn [signed]; [apply Bool.eqb_reflx| |reflexivity].
  destruct (e'' <=? emax - prec); cbn [signed]; apply Bool.eqb_reflx.
Qed.

Lemma binary_round_signed sx mx ex :
  signed sx (binary_round prec emax sx mx ex) = true.
Proof.
  unfold binary_round. destruct (shl_align _ _ _) as [mz ez].
  apply binary_round_aux_signed.
Qed.

Lemma SFadd_on_side sg a b :
  on_side sg a = true -> on_side sg b = true ->
  on_side sg (SF64add a b) = true.
Proof.
  unfold SF64add, SFadd.
  destruct a as [sa|sa| |sa ma ea], b as [sb|sb| |sb mb eb];
    cbn [on_side]; intros Ha Hb; try reflexivity; try assumption.
  - by destruct sa, sb.
  - apply Bool.eqb_prop in Ha, Hb. subst sa sb. destruct sg; reflexivity.
  - apply Bool.eqb_prop in Ha, Hb. subst sa sb.
    apply signed_on_side.
    set (ez := Z.min ea eb).
    destruct (shl_align ma ea ez) as [ma' ea'], (shl_align mb eb ez) as [mb' eb'].
    cbn [fst]. destruct sg; cbn [cond_Zopp Z.opp Z.add binary_normalize];
      apply binary_round_signed.
Qed.

Lemma SFdiv_on_side sg a b :
  on_side sg a = true -> signed false b = true ->
  on_side sg (SF64div a b) = true.
Proof.
  unfold SF64div, SFdiv.
  destruct a as [sa|sa| |sa ma ea], b as [sb|sb| |sb mb eb];
    cbn [on_side signed]; intros Ha Hb; try reflexivity;
    try (apply Bool.eqb_prop in Hb; subst sb; rewrite Bool.xorb_false_r; exact Ha).
  apply Bool.eqb_prop in Hb; subst sb. rewrite Bool.xorb_false_r.
  destruct (SFdiv_core_binary _ _ _ _ _ _) as [[mz ez] lz].
  apply signed_on_side. apply Bool.eqb_prop in Ha. subst sa.
  apply binary_round_aux_signed.
Qed.

Lemma Prim2SF_zero : Prim2SF zero = S754_zero false.
Proof. reflexivity. Qed.

Lemma Prim2SF_neg_zero : Prim2SF (PrimFloat.opp zero) = S754_zero true.
Proof. reflexivity. Qed.

Lemma not_positive_side (x : double) :
  fltb zero x = false <-> on_side true (Prim2SF x) = true.
Proof.
  unfold fltb. rewrite ltb_spec, Prim2SF_zero. unfold SFltb, SFcompare.
  destruct (Prim2SF x) as [s|[]| |[] m e]; cbn; split; congruence.
Qed.

Lemma not_negative_side (x : double) :
  fltb x zero = false <-> on_side false (Prim2SF x) = true.
Proof.
  unfold fltb. rewrite ltb_spec, Prim2SF_zero. unfold SFltb, SFcompare.
  destruct (Prim2SF x) as [s|[]| |[] m e]; cbn; split; congruence.
Qed.

Lemma of_count_signed (n : nat) : signed false (Prim2SF (of_count n)) = true.
Proof.
  unfold of_count. rewrite of_uint63_spec.
  pose proof (Uint63.to_Z_bounded (Uint63.of_Z (Z.of_nat n))) as [Hlo _].
  change (Uint63Axioms.to_Z (Uint63.of_Z (Z.of_nat n)))
    with (Uint63.to_Z (Uint63.of_Z (Z.of_nat n))).
  destruct (Uint63.to_Z _) as [|p|p]; cbn [binary_normalize]; [reflexivity| |lia].
  apply binary_round_signed.
Qed.

(** The sum of two numbers on one side of zero is on that side, and so is
    the quotient of a number by a count. *)
Lemma fadd_on_side sg (x y : double) :
  on_side sg (Prim2SF x) = true -> on_side sg (Prim2SF y) = true ->
  on_side sg (Prim2SF (fadd x y)) = true.
Proof. unfold fadd. rewrite add_spec. apply SFadd_on_side. Qed.

Lemma fdiv_count_on_side sg (x : double) (n : nat) :
  on_side sg (Prim2SF x) = true ->
  on_side sg (Prim2SF (fdiv x (of_count n))) = true.
Proof.
  intros Hx. unfold fdiv. rewrite div_spec.
  apply SFdiv_on_side; [exact Hx | apply of_count_signed].
Qed.

End DoubleSigns.

Section DoubleCounts.
Import Binary64 SpecFloat FloatOps FloatAxioms.

Lemma digits2_pos_size (p : positive) : digits2_pos p = Pos.size p.
Proof. induction p as [p IH|p IH|]; cbn; by rewrite ?IH. Qed.

Lemma digits2_pos_iter_xO (p k : positive) :
  digits2_pos (Pos.iter xO p k) = (digits2_pos p + k)%positive.
Proof.
  induction k as [|k IH] using Pos.peano_ind.
  - cbn. lia.
  - rewrite Pos.iter_succ. cbn [digits2_pos]. rewrite IH. lia.
Qed.

Lemma digits2_pos_bound (p : positive) :
  Z.pos p < 2 ^ 53 -> Z.pos (digits2_pos p) <= 53.
Proof.
  intros Hp. rewrite digits2_pos_size.
  destruct (Z_le_gt_dec (Z.pos (Pos.size p)) 53) as [H|H]; [exact H|exfalso].
  pose proof (Pos.size_le p) as Hs.
  apply Pos2Z.pos_le_pos in Hs. rewrite Pos2Z.inj_pow in Hs.
  pose proof (Z.pow_le_mono_r 2 54 (Z.pos (Pos.size p)) ltac:(lia) ltac:(lia)).
  lia.
Qed.

(** A mantissa of 53 bits with an exponent in range is kept by the
    rounding. *)
Lemma binary_round_aux_canonical (s : bool) (m : positive) (e : Z) :
  Z.pos (digits2_pos m) = 53 -> -1074 <= e <= 971 ->
  binary_round_aux prec emax s (Z.pos m) e loc_Exact = S754_finite s m e.
Proof.
  intros Hd He. unfold binary_round_aux, shr_fexp. cbn [Zdigits2 shr_record_of_loc].
  rewrite Hd.
  assert (H0 : fexp prec emax (53 + e) - e = 0).
  { unfold fexp, emin, prec, emax. lia. }
  rewrite H0. cbn [shr shr_m loc_of_shr_record round_nearest_even Zdigits2
                   shr_record_of_loc].
  rewrite Hd, H0. cbn [shr shr_m].
  assert (Hle : (e <=? emax - prec) = true).
  { apply Z.leb_le. unfold prec, emax. lia. }
  by rewrite Hle.
Qed.




End DoubleCounts.

Section DoubleRounding.
Import Binary64 SpecFloat FloatOps FloatAxioms.

Lemma shr_1_half (mrs : shr_record) :
  0 <= shr_m mrs -> shr_m (shr_1 mrs) = shr_m mrs / 2.
Proof.
  destruct mrs as [m r s]. cbn [shr_m shr_1]. intros Hm.
  destruct m as [|[p|p|]|p]; cbn [shr_m].
  - reflexivity.
  - rewrite Pos2Z.inj_xI. apply Z.div_unique with (r := 1); lia.
  - rewrite Pos2Z.inj_xO. apply Z.div_unique with (r := 0); lia.
  - reflexivity.
  - lia.
Qed.

Lemma iter_shr_1 (p : positive) (mrs : shr_record) :
  0 <= shr_m mrs ->
  shr_m (iter_pos shr_1 p mrs) = shr_m mrs / 2 ^ Z.pos p.
Proof.
  revert mrs. induction p as [p IH|p IH|]; intros mrs Hm; cbn [iter_pos].
  - assert (H1 : 0 <= shr_m (shr_1 mrs)).
    { rewrite shr_1_half by exact Hm. apply Z.div_pos; lia. }
    assert (H2 : 0 <= shr_m (iter_pos shr_1 p (shr_1 mrs))).
    { rewrite IH by exact H1. apply Z.div_pos; lia. }
    rewrite IH by exact H2. rewrite IH by exact H1. rewrite shr_1_half by exact Hm.
    rewrite !Z.div_div by lia. f_equal.
    replace (Z.pos p~1) with (1 + Z.pos p + Z.pos p) by lia.
    rewrite !Z.pow_add_r by lia. ring.
  - assert (H2 : 0 <= shr_m (iter_pos shr_1 p mrs)).
    { rewrite IH by exact Hm. apply Z.div_pos; lia. }
    rewrite IH by exact H2. rewrite IH by exact Hm.
    rewrite !Z.div_div by lia. f_equal.
    replace (Z.pos p~0) with (Z.pos p + Z.pos p) by lia.
    rewrite !Z.pow_add_r by lia. ring.
  - rewrite shr_1_half by exact Hm. reflexivity.
Qed.

Lemma digits2_pos_lower (p : positive) : 2 ^ (Z.pos (digits2_pos p) - 1) <= Z.pos p.
Proof.
  induction p as [p IH|p IH|]; cbn [digits2_pos]; [| |cbn; lia].
  - rewrite Pos2Z.inj_succ.
    replace (Z.succ (Z.pos (digits2_pos p)) - 1)
      with (Z.succ (Z.pos (digits2_pos p) - 1)) by lia.
    rewrite Z.pow_succ_r by lia.
    change (Z.pos p~1) with (2 * Z.pos p + 1). lia.
  - rewrite Pos2Z.inj_succ.
    replace (Z.succ (Z.pos (digits2_pos p)) - 1)
      with (Z.succ (Z.pos (digits2_pos p) - 1)) by lia.
    rewrite Z.pow_succ_r by lia.
    change (Z.pos p~0) with (2 * Z.pos p). lia.
Qed.

(** The first step of the rounding keeps a positive mantissa positive when
    the exponent is not below the least one. *)
Lemma shr_fexp_positive (m : positive) (e : Z) (l : location) :
  -1074 <= e ->
  0 < shr_m (shr_fexp prec emax (Z.pos m) e l).1 /\
  -1074 <= (shr_fexp prec emax (Z.pos m) e l).2.
Proof.
  intros He. unfold shr_fexp, shr. cbn [Zdigits2].
  set (d := Z.pos (digits2_pos m)).
  assert (Hn : fexp prec emax (d + e) - e <= d - 1).
  { unfold fexp, emin, prec, emax. subst d. lia. }
  destruct (fexp prec emax (d + e) - e) as [|p|p] eqn:En; cbn [fst snd].
  - split; [by destruct l as [|[]] | exact He].
  - split; [|lia].
    rewrite iter_shr_1 by (by destruct l as [|[]]).
    assert (Hm : shr_m (shr_record_of_loc (Z.pos m) l) = Z.pos m) by (by destruct l as [|[]]).
    rewrite Hm. pose proof (digits2_pos_lower m) as Hlow. fold d in Hlow.
    apply Z.div_str_pos. split; [lia|].
    eapply Z.le_trans; [|exact Hlow]. apply Z.pow_le_mono_r; lia.
  - split; [by destruct l as [|[]] | exact He].
Qed.

Lemma round_nearest_even_positive (m : Z) (l : location) :
  0 < m -> 0 < round_nearest_even m l.
Proof.
  intros Hm. destruct l as [|[]]; cbn [round_nearest_even]; try lia.
  destruct (Z.even m); lia.
Qed.

(** Rounding a positive mantissa never gives zero. *)
Lemma binary_round_aux_positive (s : bool) (m : positive) (e : Z) (l : location) :
  -1074 <= e ->
  match binary_round_aux prec emax s (Z.pos m) e l with
  | S754_finite s' _ _ | S754_infinity s' => s' = s
  | _ => False
  end.
Proof.
  intros He. unfold binary_round_aux.
  destruct (shr_fexp_positive m e l He) as [Hm1 He1].
  destruct (shr_fexp prec emax (Z.pos m) e l) as [mrs' e']. cbn [fst snd] in Hm1, He1.
  pose proof (round_nearest_even_positive _ (loc_of_shr_record mrs') Hm1) as Hm2.
  destruct (round_nearest_even (shr_m mrs') (loc_of_shr_record mrs')) as [|m2|m2]; try lia.
  destruct (shr_fexp_positive m2 e' loc_Exact He1) as [Hm3 _].
  destruct (shr_fexp prec emax (Z.pos m2) e' loc_Exact) as [mrs'' e'']. cbn [fst] in Hm3.
  destruct (shr_m mrs'') as [|m3|m3]; try lia.
  by destruct (e'' <=? emax - prec).
Qed.

(** A count below 2^53 has a mantissa of 53 bits. *)
Lemma of_count_normal (n : nat) :
  (0 < n)%nat -> Z.of_nat n < 2 ^ 53 ->
  exists m e, Prim2SF (of_count n) = S754_finite false m e /\
              Z.pos (digits2_pos m) = 53 /\ -52 <= e <= 0.
Proof.
  intros Hpos Hn. unfold of_count. rewrite of_uint63_spec.
  change (Uint63Axioms.to_Z (Uint63.of_Z (Z.of_nat n)))
    with (Uint63.to_Z (Uint63.of_Z (Z.of_nat n))).
  rewrite Uint63.of_Z_spec.
  rewrite Z.mod_small.
  2:{ split; [lia|]. eapply Z.lt_trans; [exact Hn|]. reflexivity. }
  destruct (Z.of_nat n) as [|p|p] eqn:Ep; [lia| |lia].
  cbn [binary_normalize]. unfold binary_round.
  pose proof (digits2_pos_bound p Hn) as Hd.
  assert (Hf : fexp prec emax (Z.pos (digits2_pos p) + 0) =
               Z.pos (digits2_pos p) - 53).
  { unfold fexp, emin, prec, emax. lia. }
  rewrite Hf. unfold shl_align.
  destruct (Z.pos (digits2_pos p) - 53 - 0) as [|k|k] eqn:Ek; [|lia|].
  - eexists _, _. split; [apply binary_round_aux_canonical; lia|]. lia.
  - assert (Hk : Z.pos (digits2_pos (Pos.iter xO p k)) = 53).
    { rewrite digits2_pos_iter_xO. lia. }
    eexists _, _. split; [apply binary_round_aux_canonical; [exact Hk | lia]|].
    split; [exact Hk | lia].
Qed.

(** The quotient of two counts below 2^53 is positive. *)
Lemma fdiv_counts_positive (k n : nat) :
  (0 < k)%nat -> (0 < n)%nat -> Z.of_nat k < 2 ^ 53 -> Z.of_nat n < 2 ^ 53 ->
  fltb zero (fdiv (of_count k) (of_count n)) = true.
Proof.
  intros Hk Hn Hk53 Hn53.
  destruct (of_count_normal k Hk Hk53) as (mk & ek & Ek & Hdk & Hek).
  destruct (of_count_normal n Hn Hn53) as (mn & en & En & Hdn & Hen).
  unfold fltb, fdiv. rewrite ltb_spec, div_spec, Ek, En, Prim2SF_zero.
  unfold SF64div, SFdiv, SFdiv_core_binary. cbn [Zdigits2 xorb].
  rewrite Hdk, Hdn.
  assert (He' : Z.min (fexp prec emax (53 + ek - (53 + en))) (ek - en) = ek - en - 53).
  { unfold fexp, emin, prec, emax. lia. }
  rewrite He'.
  replace (ek - en - (ek - en - 53)) with 53 by lia.
  cbv beta iota zeta.
  rewrite Z.shiftl_mul_pow2 by lia.
  pose proof (digits2_pos_lower mk) as Hlk. rewrite Hdk in Hlk.
  pose proof (Pos.size_gt mn) as Hgn. rewrite <- digits2_pos_size in Hgn.
  apply Pos2Z.pos_lt_pos in Hgn. rewrite Pos2Z.inj_pow, Hdn in Hgn.
  pose proof (Z.div_eucl_eq (Z.pos mk * 2 ^ 53) (Z.pos mn) ltac:(lia)) as Heq.
  pose proof (Z.mod_pos_bound (Z.pos mk * 2 ^ 53) (Z.pos mn) ltac:(lia)) as Hb.
  unfold Z.modulo in Hb.
  destruct (Z.div_eucl (Z.pos mk * 2 ^ 53) (Z.pos mn)) as [q r].
  assert (Hq : 0 < q) by nia.
  destruct q as [|q|q]; try lia.
  pose proof (binary_round_aux_positive false q (ek - en - 53)
                (new_location (Z.pos mn) r) ltac:(lia)) as Hr.
  destruct (binary_round_aux _ _ _ _ _ _) as [s'|s'| |s' m' e']; try done;
    subst s'; reflexivity.
Qed.

End DoubleRounding.

Section SummationFacts.
Import Binary64 FloatOps.

Variable sg : bool.

Let side (x : double) : Prop := on_side sg (Prim2SF x) = true.

Lemma foldl_fadd_side (acc : double) (xs : list double) :
  side acc -> Forall side xs -> side (foldl fadd acc xs).
Proof.
  revert acc. induction xs as [|x xs IH]; intros acc Hacc Hxs; [exact Hacc|].
  apply Forall_cons in Hxs as [Hx Hxs]. cbn [foldl].
  apply IH; [|exact Hxs]. by apply fadd_on_side.
Qed.

Lemma zip_with_fadd_side (r xs : list double) :
  Forall side r -> Forall side xs -> Forall side (zip_with fadd r xs).
Proof.
  revert xs. induction r as [|a r IH]; intros xs Hr Hxs; [constructor|].
  destruct xs as [|x xs]; [constructor|].
  apply Forall_cons in Hr as [Ha Hr]. apply Forall_cons in Hxs as [Hx Hxs].
  cbn [zip_with]. constructor; [by apply fadd_on_side | by apply IH].
Qed.

Lemma add_blocks_side (r xs : list double) (blocks : nat) :
  Forall side r -> Forall side xs ->
  Forall side (Series64.add_blocks r xs blocks).1 /\
  Forall side (Series64.add_blocks r xs blocks).2.
Proof.
  revert r xs. induction blocks as [|k IH]; intros r xs Hr Hxs; [by split|].
  cbn [Series64.add_blocks]. apply IH.
  - apply zip_with_fadd_side; [exact Hr | by apply Forall_take].
  - by apply Forall_drop.
Qed.

Lemma block_sum_side (xs : list double) :
  Forall side xs -> side (Series64.block_sum xs).
Proof.
  intros Hxs. unfold Series64.block_sum.
  destruct (add_blocks_side (take 8 xs) (drop 8 xs) (length xs / 8 - 1))
    as [Hr Hrest]; [by apply Forall_take | by apply Forall_drop |].
  destruct (Series64.add_blocks _ _ _) as [r rest]. cbn [fst snd] in Hr, Hrest.
  destruct r as [|r0 [|r1 [|r2 [|r3 [|r4 [|r5 [|r6 [|r7 [|r8 r]]]]]]]]];
    try reflexivity.
  repeat (apply Forall_cons in Hr as [? Hr]).
  apply foldl_fadd_side; [|exact Hrest].
  repeat apply fadd_on_side; assumption.
Qed.

Lemma pairwise_sum_side (xs : list double) :
  Forall side xs -> side (Series64.pairwise_sum xs).
Proof.
  funelim (Series64.pairwise_sum xs); intros Hxs.
  - apply foldl_fadd_side; [reflexivity | exact Hxs].
  - by apply block_sum_side.
  - apply fadd_on_side; [apply H | apply H0].
    + by apply Forall_take.
    + by apply Forall_drop.
Qed.

Lemma numpy_sum_side (xs : list double) :
  Forall side xs -> side (Series64.numpy_sum xs).
Proof.
  intros Hxs. unfold Series64.numpy_sum.
  apply fadd_on_side; [reflexivity | by apply pairwise_sum_side].
Qed.

End SummationFacts.

Section NumpySum.
Import Binary64.

Lemma numpy_sum_no_positive (s : list double) :
  Forall (fun x => fltb zero x = false) s -> fltb zero (Series64.numpy_sum s) = false.
Proof.
  intros Hs. apply not_positive_side. apply numpy_sum_side.
  eapply Forall_impl; [exact Hs|]. intros x Hx. by apply not_positive_side.
Qed.

Lemma numpy_sum_no_negative (s : list double) :
  Forall (fun x => fltb x zero = false) s -> fltb (Series64.numpy_sum s) zero = false.
Proof.
  intros Hs. apply not_negative_side. apply numpy_sum_side.
  eapply Forall_impl; [exact Hs|]. intros x Hx. by apply not_negative_side.
Qed.

End NumpySum.

(** numpy's sum. *)
Definition numpy : Series64.Summation :=
  {| Series64.sum := Series64.numpy_sum;
     Series64.sum_no_positive := numpy_sum_no_positive;
     Series64.sum_no_negative := numpy_sum_no_negative |}.

Section MeanSide.
Import Binary64 FloatOps.

(** The mean is on the side of zero on which the sum is. *)
Lemma mean_no_positive (np : Series64.Summation) (s : list double) :
  Forall (fun x => fltb zero x = false) s ->
  fltb zero (Series64.mean np s) = false.
Proof.
  intros Hs. unfold Series64.mean.
  assert (Hd : Forall (fun x => fltb zero x = false) (Series64.dropna s)).
  { apply Forall_forall. intros x Hx.
    apply list_elem_of_filter in Hx as [_ Hx].
    by apply (proj1 (Forall_forall _ _) Hs). }
  destruct (Series64.dropna s) as [|x v] eqn:E; [reflexivity|].
  apply not_positive_side, fdiv_count_on_side, not_positive_side.
  by apply Series64.sum_no_positive.
Qed.

Lemma mean_no_negative (np : Series64.Summation) (s : list double) :
  Forall (fun x => fltb x zero = false) s ->
  fltb (Series64.mean np s) zero = false.
Proof.
  intros Hs. unfold Series64.mean.
  assert (Hd : Forall (fun x => fltb x zero = false) (Series64.dropna s)).
  { apply Forall_forall. intros x Hx.
    apply list_elem_of_filter in Hx as [_ Hx].
    by apply (proj1 (Forall_forall _ _) Hs). }
  destruct (Series64.dropna s) as [|x v] eqn:E; [reflexivity|].
  apply not_negative_side, fdiv_count_on_side, not_negative_side.
  by apply Series64.sum_no_negative.
Qed.

End MeanSide.

Section HitRate64.
Import Binary64 SpecFloat FloatOps FloatAxioms.

Lemma fltb_zero_asym (x : double) : fltb x zero = true -> fltb zero x = false.
Proof.
  unfold fltb. rewrite !ltb_spec, Prim2SF_zero. unfold SFltb, SFcompare.
  by destruct (Prim2SF x) as [s|[]| |[] m e].
Qed.


Lemma sign_of_positive (x : double) :
  (ConsistencyScorer64.sign_of x =? 1) = Spec64.is_positive x.
Proof.
  unfold ConsistencyScorer64.sign_of, Spec64.is_positive.
  destruct (fgtb x _); [reflexivity|]. by destruct (fltb x _).
Qed.

Lemma sign_of_negative (x : double) :
  (ConsistencyScorer64.sign_of x =? -1) = Spec64.is_negative x.
Proof.
  pose proof (fltb_zero_asym x) as Hasym.
  unfold ConsistencyScorer64.sign_of, Spec64.is_negative, fgtb, fltb, zero in *.
  destruct (PrimFloat.ltb x _) eqn:E.
  - by rewrite (Hasym eq_refl).
  - by destruct (PrimFloat.ltb _ x).
Qed.

Lemma filter_id_fmap {A} (P : A -> bool) (l : list A) :
  length (List.filter id (P <$> l)) = length (List.filter P l).
Proof.
  induction l as [|b l IH]; [reflexivity|].
  rewrite fmap_cons. cbn [List.filter id]. destruct (P b); cbn [length]; by rewrite IH.
Qed.

Lemma mean_bool_share {A} (P : A -> bool) (l : list A) :
  l <> [] -> Series64.mean_bool (P <$> l) = Series64.share P l.
Proof.
  intros Hne. unfold Series64.mean_bool, Series64.share.
  rewrite filter_id_fmap, length_fmap. by destruct l.
Qed.

Lemma present_oc_ret_count (table : list ConsistencyScorer64.MetricsRow) :
  length (Spec64.present_oc_ret table) =
  length (ConsistencyScorer64.dropna_oc_ret table).
Proof. unfold Spec64.present_oc_ret, ConsistencyScorer64.column_oc_ret. apply length_fmap. Qed.

(** What the scorer returns on a table with a return, once the baseline is
    there. *)
Lemma score64_reading (np : Series64.Summation) (pd : SortValues)
    (self : ConsistencyScorer64.t) (ticker : string)
    (table : list ConsistencyScorer64.MetricsRow) (nem : double) :
  Spec64.present_oc_ret table <> [] ->
  ConsistencyScorer64._median_abs_oc_non_earnings pd self ticker
    (ConsistencyScorer64.dropna_oc_ret table) = Ok nem ->
  exists r,
    ConsistencyScorer64.score np pd self ticker table = Ok r /\
    Score64.hit_main_dir r =
      (if Spec64.mean_positive np table
       then Series64.share Spec64.is_positive (Spec64.present_oc_ret table)
       else if Spec64.mean_negative np table
       then Series64.share Spec64.is_negative (Spec64.present_oc_ret table)
       else zero) /\
    Score64.events_count r = Z.of_nat (length (Spec64.present_oc_ret table)).
Proof.
  intros Hne Hnem. unfold ConsistencyScorer64.score.
  destruct table as [|row0 table]; [done|].
  set (valid := ConsistencyScorer64.dropna_oc_ret (row0 :: table)) in *.
  assert (Hlen : (Z.of_nat (length valid) =? 0) = false).
  { apply Z.eqb_neq. unfold Spec64.present_oc_ret in Hne. fold valid in Hne.
    destruct valid; [done | cbn; lia]. }
  rewrite Hlen, Hnem. cbn [bind]. eexists. split; [reflexivity|].
  cbn [Score64.hit_main_dir Score64.events_count].
  split; [|by rewrite present_oc_ret_count].
  unfold Spec64.mean_positive, Spec64.mean_negative, Spec64.computed_mean,
    Spec64.present_oc_ret. fold valid.
  unfold Spec64.present_oc_ret in Hne. fold valid in Hne.
  set (oc := ConsistencyScorer64.column_oc_ret valid) in *.
  unfold zero.
  destruct (fgtb (Series64.mean np oc) _) eqn:Egt.
  - cbn [Z.eqb]. rewrite <- list_fmap_compose.
    rewrite (mean_bool_share _ oc Hne). unfold Series64.share.
    do 3 f_equal. apply List.filter_ext. intros x. apply sign_of_positive.
  - destruct (fltb (Series64.mean np oc) _) eqn:Elt; [|reflexivity].
    cbn [Z.eqb]. rewrite <- list_fmap_compose.
    rewrite (mean_bool_share _ oc Hne). unfold Series64.share.
    do 3 f_equal. apply List.filter_ext. intros x. apply sign_of_negative.
Qed.

End HitRate64.

Section ZeroHit.
Import Binary64.

Lemma count_positive {A} (P : A -> bool) (l : list A) (a : A) :
  a ∈ l -> P a = true -> (0 < length (List.filter P l))%nat.
Proof.
  intros Hin HP.
  assert (Hf : In a (List.filter P l)).
  { apply filter_In. split; [by apply list_elem_of_In | exact HP]. }
  destruct (List.filter P l); [destruct Hf | cbn; lia].
Qed.

(** A share is positive as soon as one element counts. *)
Lemma share_positive {A} (P : A -> bool) (l : list A) (a : A) :
  Z.of_nat (length l) < 2 ^ 53 -> a ∈ l -> P a = true ->
  fltb zero (Series64.share P l) = true.
Proof.
  intros Hlen Hin HP. unfold Series64.share.
  pose proof (count_positive P l a Hin HP) as Hc.
  pose proof (filter_length_le P l) as Hle.
  apply fdiv_counts_positive; lia.
Qed.

(** A mean with a sign has a value with that sign under it. *)
Lemma positive_mean_has_gain (np : Series64.Summation) (s : list double) :
  fgtb (Series64.mean np s) zero = true -> exists x, x ∈ s /\ fgtb x zero = true.
Proof.
  intros Hm.
  destruct (decide (Exists (fun x => fgtb x zero = true) s)) as [He|Hn].
  { apply Exists_exists in He. exact He. }
  exfalso. apply (not_Exists_Forall _ _) in Hn.
  assert (Hall : Forall (fun x => fltb zero x = false) s).
  { eapply Forall_impl; [exact Hn|]. intros x Hx.
    apply Bool.not_true_is_false. exact Hx. }
  pose proof (mean_no_positive np s Hall) as H0.
  unfold fgtb, fltb in *. congruence.
Qed.

Lemma negative_mean_has_loss (np : Series64.Summation) (s : list double) :
  fltb (Series64.mean np s) zero = true -> exists x, x ∈ s /\ fltb x zero = true.
Proof.
  intros Hm.
  destruct (decide (Exists (fun x => fltb x zero = true) s)) as [He|Hn].
  { apply Exists_exists in He. exact He. }
  exfalso. apply (not_Exists_Forall _ _) in Hn.
  assert (Hall : Forall (fun x => fltb x zero = false) s).
  { eapply Forall_impl; [exact Hn|]. intros x Hx.
    apply Bool.not_true_is_false. exact Hx. }
  pose proof (mean_no_negative np s Hall) as H0. congruence.
Qed.

Lemma positive_not_zero (x : double) : fltb zero x = true -> feqb x zero = false.
Proof.
  unfold fltb, feqb. rewrite FloatAxioms.ltb_spec, FloatAxioms.eqb_spec, Prim2SF_zero.
  unfold SpecFloat.SFltb, SpecFloat.SFeqb, SpecFloat.SFcompare.
  by destruct (FloatOps.Prim2SF x) as [s|[]| |[] m e].
Qed.

End ZeroHit.





(** The other way round: the returns 1e16, 1, -1e16 and -1 have mean zero,
    half of them positive and half negative; the scorer computes a positive
    mean and returns 0.5. *)
Example absorbed_returns_example :
  (Spec.Qmean (Spec64.exact (Spec64.present_oc_ret Sample64.absorbed)) == 0)%Q /\
  (Spec.fraction Spec.is_positive
     (Spec64.exact (Spec64.present_oc_ret Sample64.absorbed)) == 1 # 2)%Q /\
  (Spec.fraction Spec.is_negative
     (Spec64.exact (Spec64.present_oc_ret Sample64.absorbed)) == 1 # 2)%Q /\
  exists r,
    ConsistencyScorer64.score numpy stable_pandas Sample64.scorer "ACME"
      Sample64.absorbed = Ok r /\
    Score64.hit_main_dir r = Sample64.half.
Proof.
  split; [vm_compute; reflexivity|]. split; [vm_compute; reflexivity|].
  split; [vm_compute; reflexivity|].
  eexists. split; [vm_compute; reflexivity|]. reflexivity.
Qed.



Section BaselineFacts.

Lemma zmax_spec (x : Z) (s : list Z) :
  x <= Series.zmax x s /\
  (forall y, y ∈ s -> y <= Series.zmax x s) /\
  Series.zmax x s ∈ x :: s.
Proof.
  unfold Series.zmax. revert x. induction s as [|b s IH]; intros x; cbn [foldl].
  - split; [lia|]. split; [intros y Hy; inversion Hy | left].
  - destruct (IH (Z.max x b)) as (H1 & H2 & H3).
    split; [lia|]. split.
    + intros y Hy. apply elem_of_cons in Hy as [-> | Hy]; [lia | by apply H2].
    + apply elem_of_cons in H3 as [H3 | H3]; [|right; by right].
      rewrite H3. destruct (Z.max_spec x b) as [[_ ->] | [_ ->]]; [right; left | left].
Qed.

Lemma zmax_latest (x : Z) (s : list Z) : Spec.latest (Series.zmax x s) (x :: s).
Proof.
  destruct (zmax_spec x s) as (H1 & H2 & H3).
  split; [exact H3|]. intros d Hd.
  apply elem_of_cons in Hd as [-> | Hd]; [exact H1 | by apply H2].
Qed.

Lemma latest_unique (a b : date) (days : list date) :
  Spec.latest a days -> Spec.latest b days -> a = b.
Proof.
  intros [Ha Ha'] [Hb Hb']. pose proof (Ha' _ Hb). pose proof (Hb' _ Ha). lia.
Qed.

Lemma sort_values_nil (pd : SortValues) {A} (key : A -> option Z) asc :
  sort_values pd key asc [] = [].
Proof. apply Permutation_nil_r, sort_values_perm. Qed.

(** Where no candidate opens at zero the moves are finite. *)
Lemma abs_daily_oc_ret (candidates : list DailyBar) :
  Forall (fun b => ~ (db_open b == 0)%Q) candidates ->
  Series.abs (ConsistencyScorer.daily_oc_ret <$> candidates) =
  Fin <$> (Spec.abs_oc <$> candidates).
Proof.
  unfold Series.abs. induction 1 as [|b l Hb Hl IH]; [reflexivity|].
  rewrite !fmap_cons, IH. f_equal.
  unfold ConsistencyScorer.daily_oc_ret, Spec.abs_oc. cbn [fdiv].
  apply Qeqb_false in Hb. rewrite Hb. reflexivity.
Qed.

End BaselineFacts.

(** C6. With the default settings the baseline is computed from the daily
    bars of the 120 calendar days that end on the latest session day of
    the filtered records: the bars dated on one of the session days are
    dropped, the rest is sorted by date, most recent first, and cut after
    ten; the result is the median of [|close / open - 1|] over these bars,
    and [0] when no bar was returned or none is left. *)
Theorem baseline_is_median_of_recent_days
    (pd : SortValues) (client : PolygonIntradayClient) (ticker : string)
    (valid : list Metric.t) (end_day : date) (bars : list DailyBar) :
  Spec.latest end_day (Metric.session_day <$> valid) ->
  get_daily_bars client ticker (add_days end_day (-120)) end_day = Ok bars ->
  (forall b, b ∈ Spec.baseline_candidates pd (Metric.session_day <$> valid) bars ->
     b ∈ bars /\ db_date b ∉ Metric.session_day <$> valid) /\
  (length (Spec.baseline_candidates pd (Metric.session_day <$> valid) bars) <= 10)%nat /\
  StronglySorted (fun a b => db_date b <= db_date a)
    (Spec.baseline_candidates pd (Metric.session_day <$> valid) bars) /\
  (forall b b',
     b ∈ Spec.baseline_candidates pd (Metric.session_day <$> valid) bars ->
     b' ∈ bars -> db_date b' ∉ Metric.session_day <$> valid ->
     db_date b < db_date b' ->
     b' ∈ Spec.baseline_candidates pd (Metric.session_day <$> valid) bars) /\
  ConsistencyScorer._median_abs_oc_non_earnings pd (ConsistencyScorer.make client)
    ticker valid =
    Ok (match Spec.baseline_candidates pd (Metric.session_day <$> valid) bars with
        | [] => Fin 0
        | candidates =>
            Series.median (Series.abs (ConsistencyScorer.daily_oc_ret <$> candidates))
        end) /\
  (Spec.baseline_candidates pd (Metric.session_day <$> valid) bars <> [] ->
   Forall (fun b => ~ (db_open b == 0)%Q)
     (Spec.baseline_candidates pd (Metric.session_day <$> valid) bars) ->
   ConsistencyScorer._median_abs_oc_non_earnings pd (ConsistencyScorer.make client)
     ticker valid =
     Ok (Fin (Spec.Qmedian
                (Spec.abs_oc <$>
                   Spec.baseline_candidates pd (Metric.session_day <$> valid) bars)))) /\
  (bars = [] \/ (forall b, b ∈ bars -> db_date b ∈ Metric.session_day <$> valid) ->
   ConsistencyScorer._median_abs_oc_non_earnings pd (ConsistencyScorer.make client)
     ticker valid = Ok (Fin 0)).
Proof.
  intros Hlatest Hbars.
  set (days := Metric.session_day <$> valid) in *.
  set (remaining := filter (fun b => db_date b ∉ days) bars).
  set (sorted := sort_values pd (fun b => Some (db_date b)) false remaining).
  assert (Hcand : Spec.baseline_candidates pd days bars = take 10 sorted) by reflexivity.
  assert (Hperm : sorted ≡ₚ remaining) by apply sort_values_perm.
  assert (Hsorted : StronglySorted (fun a b => db_date b <= db_date a) sorted).
  { pose proof (sort_values_sorted pd _ (fun b => Some (db_date b)) false remaining) as Hs.
    apply (proj2 (StronglySorted_by_key _ (key_le false) _)) in Hs. exact Hs. }
  assert (Hrun :
    ConsistencyScorer._median_abs_oc_non_earnings pd (ConsistencyScorer.make client)
      ticker valid =
    Ok (match Spec.baseline_candidates pd days bars with
        | [] => Fin 0
        | candidates =>
            Series.median (Series.abs (ConsistencyScorer.daily_oc_ret <$> candidates))
        end)).
  { unfold ConsistencyScorer._median_abs_oc_non_earnings.
    fold days. destruct days as [|day0 days'] eqn:Edays.
    { destruct Hlatest as [Hin _]. inversion Hin. }
    rewrite (latest_unique _ _ _ (zmax_latest day0 days') Hlatest).
    cbn [ConsistencyScorer.make ConsistencyScorer.intraday_client
         ConsistencyScorer.non_earnings_lookback_days
         ConsistencyScorer.sample_non_earnings_days Z.opp].
    change (- (120)) with (-120).
    rewrite Hbars. cbn [bind].
    destruct bars as [|bar0 bars'].
    { rewrite Hcand. unfold sorted, remaining.
      rewrite filter_nil, sort_values_nil. reflexivity. }
    change (ConsistencyScorer.head 10) with (@take DailyBar 10).
    replace (filter (fun b => db_date b ∉ (list_to_set (day0 :: days') : gset Z)) (bar0 :: bars'))
      with remaining.
    2:{ unfold remaining. apply list_filter_iff. intros b.
        by rewrite elem_of_list_to_set. }
    fold sorted. rewrite Hcand.
    by destruct (take 10 sorted). }
  split.
  { intros b Hb. rewrite Hcand in Hb.
    apply (sublist_subseteq _ _ (sublist_take _ _)) in Hb.
    rewrite Hperm in Hb. unfold remaining in Hb.
    by apply list_elem_of_filter in Hb as [? ?]. }
  split.
  { rewrite Hcand, length_take. lia. }
  split.
  { rewrite Hcand. eapply StronglySorted_sublist; [apply sublist_take | exact Hsorted]. }
  split.
  { intros b b' Hb Hb' Hday Hlt. rewrite Hcand in *.
    assert (Hin : b' ∈ sorted).
    { rewrite Hperm. unfold remaining. by apply list_elem_of_filter. }
    rewrite <- (take_drop 10 sorted) in Hin, Hsorted.
    apply elem_of_app in Hin as [Hin | Hin]; [exact Hin|].
    apply StronglySorted_app in Hsorted as (Hcross & _ & _).
    specialize (Hcross _ _ Hb Hin). lia. }
  split; [exact Hrun|].
  split.
  { intros Hne Hopen. rewrite Hrun.
    destruct (Spec.baseline_candidates pd days bars) as [|c cs] eqn:Ec; [done|].
    rewrite (abs_daily_oc_ret _ Hopen), median_Fin by done. reflexivity. }
  intros Hnone. rewrite Hrun.
  assert (Hrem : remaining = []).
  { destruct Hnone as [-> | Hall]; [reflexivity|].
    apply elem_of_nil_inv. intros b Hb. unfold remaining in Hb.
    apply list_elem_of_filter in Hb as [Hday Hin]. by apply Hday, Hall. }
  rewrite Hcand. unfold sorted. rewrite Hrem, sort_values_nil. reflexivity.
Qed.

Lemma baseline_is_median_of_recent_days_witness :
  ConsistencyScorer._median_abs_oc_non_earnings stable_pandas
    (ConsistencyScorer.make Sample.client) "ACME"
    (ConsistencyScorer.dropna_oc_ret Sample.metrics) =
  Ok (Fin (Spec.Qmedian
             (Spec.abs_oc <$>
                Spec.baseline_candidates stable_pandas
                  (Metric.session_day <$> ConsistencyScorer.dropna_oc_ret Sample.metrics)
                  (daily_of_agg Sample.client <$> take 8 Sample.daily_history)))).
Proof.
  apply (baseline_is_median_of_recent_days stable_pandas Sample.client "ACME"
           (ConsistencyScorer.dropna_oc_ret Sample.metrics) (Sample.jan 11)
           (daily_of_agg Sample.client <$> take 8 Sample.daily_history)).
  - split.
    + apply (bool_decide_unpack _). vm_compute. exact I.
    + apply Forall_forall. apply (bool_decide_unpack _). vm_compute. exact I.
  - vm_compute. reflexivity.
  - vm_compute. discriminate.
  - vm_compute. repeat (constructor; [intros H; discriminate H|]). constructor.
Defined.

(** On the sample history the four session days are dropped, the four
    earlier days remain, most recent first, and the median of their moves
    is one percent. *)
Example baseline_example :
  db_date <$>
    Spec.baseline_candidates stable_pandas
      (Metric.session_day <$> ConsistencyScorer.dropna_oc_ret Sample.metrics)
      (daily_of_agg Sample.client <$> take 8 Sample.daily_history) =
    [Sample.jan 5; Sample.jan 4; Sample.jan 3; Sample.jan 2] /\
  exists m,
    ConsistencyScorer._median_abs_oc_non_earnings stable_pandas
      (ConsistencyScorer.make Sample.client) "ACME"
      (ConsistencyScorer.dropna_oc_ret Sample.metrics) = Ok (Fin m) /\
    (m == 0.01)%Q.
Proof.
  split; [vm_compute; reflexivity|].
  eexists. split; [vm_compute; reflexivity | reflexivity].
Qed.

(** A daily bar that opens at zero gives an infinite or undefined move
    instead of an exception; an undefined move is left out of the
    median. *)
Example zero_open_baseline_example :
  ConsistencyScorer.daily_oc_ret (mkDailyBar (Sample.jan 2) 0 1 0 1 10) = PInf /\
  ConsistencyScorer.daily_oc_ret (mkDailyBar (Sample.jan 2) 0 0 0 0 10) = NaN /\
  Series.median (Series.abs [NaN; Fin (-0.02); PInf]) = fdiv (fadd (Fin 0.02) PInf) (Fin 2) /\
  fdiv (fadd (Fin 0.02) PInf) (Fin 2) = PInf /\
  fdiv (Fin 0.03) PInf = Fin 0.
Proof. repeat split; vm_compute; reflexivity. Qed.

(** The score is returned whenever the provider answers the daily bars
    request, and raises what that request raises. *)
Lemma baseline_returns pd self ticker valid :
  (forall start_day end_day, exists bars,
     get_daily_bars (ConsistencyScorer.intraday_client self) ticker start_day end_day =
       Ok bars) ->
  exists nem,
    ConsistencyScorer._median_abs_oc_non_earnings pd self ticker valid = Ok nem.
Proof.
  intros Hfetch. unfold ConsistencyScorer._median_abs_oc_non_earnings.
  destruct (Metric.session_day <$> valid) as [|day0 days]; [by eexists|].
  destruct (Hfetch (add_days (Series.zmax day0 days)
                      (- ConsistencyScorer.non_earnings_lookback_days self))
                   (Series.zmax day0 days)) as [bars ->].
  cbn [bind]. destruct bars as [|b bars]; [by eexists|].
  destruct (ConsistencyScorer.head _ _); by eexists.
Qed.

Lemma score_returns pd self ticker table :
  (forall start_day end_day, exists bars,
     get_daily_bars (ConsistencyScorer.intraday_client self) ticker start_day end_day =
       Ok bars) ->
  exists r, ConsistencyScorer.score pd self ticker table = Ok r.
Proof.
  intros Hfetch.
  destruct (Spec.present_oc_ret table) as [|q qs] eqn:E.
  - eexists. by apply score_of_no_valid_events.
  - destruct (baseline_returns pd self ticker
                (ConsistencyScorer.dropna_oc_ret table) Hfetch) as [nem Hnem].
    assert (Hne : Spec.present_oc_ret table <> []) by (by rewrite E).
    destruct (score_reading pd self ticker table nem Hne Hnem) as (h & g & b & H & _).
    eexists. exact H.
Qed.

(** Every field of a returned score record is a number. *)
Lemma score_fields_finite pd self ticker table r :
  ConsistencyScorer.score pd self ticker table = Ok r ->
  is_finite (Score.hit_main_dir r) /\ is_finite (Score.big_move_hit r) /\
  is_finite (Score.boost r) /\ is_finite (Score.score r).
Proof.
  intros Hscore.
  destruct (Spec.present_oc_ret table) as [|q0 qs] eqn:Epresent.
  - rewrite (score_of_no_valid_events pd self ticker table Epresent) in Hscore.
    injection Hscore as <-. by cbn.
  - assert (Hne : Spec.present_oc_ret table <> []) by (by rewrite Epresent).
    destruct (ConsistencyScorer._median_abs_oc_non_earnings pd self ticker
                (ConsistencyScorer.dropna_oc_ret table)) as [nem|e] eqn:Enem.
    2:{ rewrite (score_raises pd self ticker table e Hne Enem) in Hscore.
        discriminate. }
    destruct (score_reading pd self ticker table nem Hne Enem)
      as (h & g & b & Hrec & _).
    rewrite Hrec in Hscore. injection Hscore as <-. by cbn.
Qed.

(* ===================================================================== *)
(** * Properties of the rest of the program *)
(* ===================================================================== *)

(** ** Trading days and the client *)

Section ClientFacts.

Lemma previous_trading_loop_spec (d : date) :
  previous_trading_loop d <= d /\
  weekday (previous_trading_loop d) < 5 /\
  forall d', d' <= d -> weekday d' < 5 -> d' <= previous_trading_loop d.
Proof.
  funelim (previous_trading_loop d).
  - match goal with
    | IH : previous_trading_loop _ <= _ /\ _ |- _ => destruct IH as (Hle & Hwd & Hmax)
    end.
    unfold add_days in *. repeat split; [lia | exact Hwd |].
    intros d' Hd' Hw. apply Hmax; [|exact Hw].
    assert (d' <> prev_day) by (intros ->; lia). lia.
  - repeat split; [lia | lia |]. intros d' Hd' _. exact Hd'.
Qed.

Lemma previous_trading_day_spec (day : date) :
  _previous_trading_day day < day /\
  weekday (_previous_trading_day day) < 5 /\
  forall d', d' < day -> weekday d' < 5 -> d' <= _previous_trading_day day.
Proof.
  unfold _previous_trading_day, add_days.
  destruct (previous_trading_loop_spec (day + -1)) as (Hle & Hwd & Hmax).
  repeat split; [lia | exact Hwd |].
  intros d' Hd' Hw. apply Hmax; [lia | exact Hw].
Qed.

End ClientFacts.

(** X1. The previous trading day of a day is strictly before it, is
    neither a Saturday nor a Sunday, and is the latest such day; it is at
    most three days back. *)
Theorem previous_trading_day_is_last_weekday (day : date) :
  _previous_trading_day day < day /\
  weekday (_previous_trading_day day) <> 5 /\
  weekday (_previous_trading_day day) <> 6 /\
  (forall d', d' < day -> weekday d' <> 5 -> weekday d' <> 6 ->
     d' <= _previous_trading_day day) /\
  day - 3 <= _previous_trading_day day.
Proof.
  destruct (previous_trading_day_spec day) as (Hlt & Hwd & Hmax).
  split; [exact Hlt|]. split; [lia|]. split; [lia|].
  split.
  { intros d' Hd' H5 H6. apply Hmax; [exact Hd'|].
    pose proof (weekday_range d'). lia. }
  pose proof (weekday_range (day - 1)) as H1.
  pose proof (weekday_range (day - 2)) as H2.
  pose proof (weekday_range (day - 3)) as H3.
  pose proof (Hmax (day - 1) ltac:(lia)) as M1.
  pose proof (Hmax (day - 2) ltac:(lia)) as M2.
  pose proof (Hmax (day - 3) ltac:(lia)) as M3.
  unfold weekday in *. Z.to_euclidean_division_equations. lia.
Qed.

(** X2. Going to the next trading day and back returns to the day one
    started from exactly when that day is a weekday; from a weekend day it
    returns to the Friday before.  Going back and then forward returns to a
    weekday as well. *)
Theorem trading_day_round_trip (day : date) :
  (weekday day < 5 <-> _previous_trading_day (_next_trading_day day) = day) /\
  (weekday day < 5 <-> _next_trading_day (_previous_trading_day day) = day) /\
  _previous_trading_day (_next_trading_day day) <= day /\
  day <= _next_trading_day (_previous_trading_day day).
Proof.
  destruct (next_trading_day_spec day) as (Hn1 & Hn2 & Hn3).
  destruct (previous_trading_day_spec (_next_trading_day day)) as (Hp1 & Hp2 & Hp3).
  destruct (previous_trading_day_spec day) as (Hq1 & Hq2 & Hq3).
  destruct (next_trading_day_spec (_previous_trading_day day)) as (Hm1 & Hm2 & Hm3).
  assert (Hback : _previous_trading_day (_next_trading_day day) <= day).
  { destruct (Z_le_gt_dec (_previous_trading_day (_next_trading_day day)) day) as [|Hgt];
      [assumption|].
    pose proof (Hn3 (_previous_trading_day (_next_trading_day day)) ltac:(lia) Hp2). lia. }
  assert (Hforth : day <= _next_trading_day (_previous_trading_day day)).
  { destruct (Z_le_gt_dec day (_next_trading_day (_previous_trading_day day))) as [|Hgt];
      [assumption|].
    pose proof (Hq3 (_next_trading_day (_previous_trading_day day)) ltac:(lia) Hm2). lia. }
  split; [|split; [|split; assumption]].
  - split.
    + intros Hw. pose proof (Hp3 day Hn1 Hw). lia.
    + intros <-. exact Hp2.
  - split.
    + intros Hw. pose proof (Hm3 day Hq1 Hw). lia.
    + intros <-. exact Hm2.
Qed.

(** X3. The resolver and the window fetch accept exactly the flags that
    upper-case to AMC or BMO: for such a flag the resolver returns a day,
    for any other both raise the same [ValueError], whatever the provider
    would answer. *)
Theorem release_flag_decides_resolution
    (self : PolygonIntradayClient) (ticker : string) (ts : Timestamp)
    (release_flag : string) :
  ((upper release_flag = "AMC"%string \/ upper release_flag = "BMO"%string) /\
   exists day, get_session_day self ts release_flag = Ok day) \/
  (upper release_flag <> "AMC"%string /\ upper release_flag <> "BMO"%string /\
   get_session_day self ts release_flag =
     Raise (ValueError "release_flag must be 'AMC' or 'BMO'.") /\
   get_intraday_window self ticker ts release_flag =
     Raise (ValueError "release_flag must be 'AMC' or 'BMO'.")).
Proof.
  unfold get_session_day, get_intraday_window, supported_flag.
  destruct (String.eqb_spec (upper release_flag) "AMC") as [Ha|Ha].
  - left. split; [by left|]. cbn [orb negb]. by eexists.
  - destruct (String.eqb_spec (upper release_flag) "BMO") as [Hb|Hb].
    + left. split; [by right|]. cbn [orb negb]. by eexists.
    + right. cbn [orb negb]. by repeat split.
Qed.

(** X4. For a flag the resolver accepts, the window fetched for an
    announcement is the regular session of the resolved session day: the
    5-minute bars from 09:30 to 16:00 US/Eastern of that day, one bar per
    aggregate of the answer, in the answer's order. *)
Theorem intraday_window_is_regular_session
    (self : PolygonIntradayClient) (ticker : string) (ts : Timestamp)
    (release_flag : string) (day : date) :
  get_session_day self ts release_flag = Ok day ->
  get_intraday_window self ticker ts release_flag =
    Client.get_regular_session self ticker day /\
  forall results,
    _request self ticker 5 Minute
      (mkDatetime day (time 9 30 0) EASTERN)
      (mkDatetime day (time 16 0 0) EASTERN) 50000 = Ok results ->
    get_intraday_window self ticker ts release_flag = Ok (bar_of_agg <$> results).
Proof.
  intros Hday.
  pose proof (get_session_day_supported _ _ _ _ Hday) as Hsup.
  assert (Hday' : get_session_day self ts (upper release_flag) = Ok day).
  { unfold get_session_day in *. by rewrite upper_idem. }
  assert (Heq : get_intraday_window self ticker ts release_flag =
                Client.get_regular_session self ticker day).
  { unfold get_intraday_window. rewrite Hsup. cbn [negb].
    rewrite Hday'. reflexivity. }
  split; [exact Heq|].
  intros results Hres. rewrite Heq.
  unfold Client.get_regular_session, _fetch_agg_bars, _combine_day_time.
  by rewrite Hres.
Qed.

Lemma intraday_window_is_regular_session_witness :
  get_intraday_window Sample.client "ACME"
    (Sample.utc_timestamp (Sample.jan 5) 21 30) "amc" =
    Client.get_regular_session Sample.client "ACME" (Sample.jan 8) /\
  forall results,
    _request Sample.client "ACME" 5 Minute
      (mkDatetime (Sample.jan 8) (time 9 30 0) EASTERN)
      (mkDatetime (Sample.jan 8) (time 16 0 0) EASTERN) 50000 = Ok results ->
    get_intraday_window Sample.client "ACME"
      (Sample.utc_timestamp (Sample.jan 5) 21 30) "amc" = Ok (bar_of_agg <$> results).
Proof.
  apply (intraday_window_is_regular_session Sample.client "ACME"
           (Sample.utc_timestamp (Sample.jan 5) 21 30) "amc" (Sample.jan 8)).
  vm_compute. reflexivity.
Defined.

(** X5. For a release after the close, the previous close is asked for the
    latest weekday up to the announcement date: the announcement day itself
    when it is a weekday, the Friday before when it falls on a weekend.
    The request covers that day from 00:00:00 to 23:59:59 UTC with a limit
    of two aggregates, and the close of the last aggregate is taken. *)
Theorem amc_previous_close_day
    (self : PolygonIntradayClient) (ticker : string) (ts : Timestamp)
    (release_flag : string) :
  upper release_flag = "AMC"%string ->
  exists day prev_day,
    get_session_day self ts release_flag = Ok day /\
    prev_day = _previous_trading_day day /\
    (weekday (ts_date self (_normalize_timestamp ts)) < 5 ->
       prev_day = ts_date self (_normalize_timestamp ts)) /\
    (5 <= weekday (ts_date self (_normalize_timestamp ts)) ->
       prev_day = _previous_trading_day (ts_date self (_normalize_timestamp ts))) /\
    get_previous_close self ticker day =
      match _request self ticker 1 Day
              (mkDatetime prev_day (time 0 0 0) UTC)
              (mkDatetime prev_day (time 23 59 59) UTC) 2 with
      | Ok results => Ok (agg_c <$> last results)
      | Raise e => Raise e
      end.
Proof.
  intros Hflag.
  set (d := ts_date self (_normalize_timestamp ts)).
  exists (_next_trading_day d), (_previous_trading_day (_next_trading_day d)).
  split.
  { unfold get_session_day. rewrite Hflag. reflexivity. }
  split; [reflexivity|].
  destruct (next_trading_day_spec d) as (Hn1 & Hn2 & Hn3).
  destruct (previous_trading_day_spec (_next_trading_day d)) as (Hp1 & Hp2 & Hp3).
  destruct (previous_trading_day_spec d) as (Hq1 & Hq2 & Hq3).
  assert (Hback : _previous_trading_day (_next_trading_day d) <= d).
  { destruct (Z_le_gt_dec (_previous_trading_day (_next_trading_day d)) d) as [|Hgt];
      [assumption|].
    pose proof (Hn3 (_previous_trading_day (_next_trading_day d)) ltac:(lia) Hp2). lia. }
  split.
  { intros Hw. pose proof (Hp3 d Hn1 Hw). lia. }
  split.
  { intros Hw.
    assert (_previous_trading_day (_next_trading_day d) <> d) by (intros E; rewrite E in Hp2; lia).
    pose proof (Hq3 (_previous_trading_day (_next_trading_day d)) ltac:(lia) Hp2).
    pose proof (Hp3 (_previous_trading_day d) ltac:(lia) Hq2). lia. }
  unfold get_previous_close, _combine_day_time.
  destruct (_request _ _ _ _ _ _ _) as [results|e]; cbn [bind]; [|reflexivity].
  by destruct (last results).
Qed.

Lemma amc_previous_close_day_witness :
  exists day prev_day,
    get_session_day Sample.client (Sample.utc_timestamp (Sample.jan 5) 21 30) "amc" = Ok day /\
    prev_day = _previous_trading_day day /\
    (weekday (ts_date Sample.client
                (_normalize_timestamp (Sample.utc_timestamp (Sample.jan 5) 21 30))) < 5 ->
       prev_day = ts_date Sample.client
                    (_normalize_timestamp (Sample.utc_timestamp (Sample.jan 5) 21 30))) /\
    (5 <= weekday (ts_date Sample.client
                     (_normalize_timestamp (Sample.utc_timestamp (Sample.jan 5) 21 30))) ->
       prev_day = _previous_trading_day
                    (ts_date Sample.client
                       (_normalize_timestamp (Sample.utc_timestamp (Sample.jan 5) 21 30)))) /\
    get_previous_close Sample.client "ACME" day =
      match _request Sample.client "ACME" 1 Day
              (mkDatetime prev_day (time 0 0 0) UTC)
              (mkDatetime prev_day (time 23 59 59) UTC) 2 with
      | Ok results => Ok (agg_c <$> last results)
      | Raise e => Raise e
      end.
Proof.
  apply (amc_previous_close_day Sample.client "ACME"
           (Sample.utc_timestamp (Sample.jan 5) 21 30) "amc").
  reflexivity.
Defined.

(** A Friday evening release is measured against Friday's close, a
    Saturday release too. *)
Example previous_close_examples :
  get_previous_close Sample.client "ACME" (Sample.jan 8) = Ok (Some 100%Q) /\
  _previous_trading_day (_next_trading_day (Sample.jan 5)) = Sample.jan 5 /\
  _previous_trading_day (_next_trading_day (Sample.jan 6)) = Sample.jan 5 /\
  get_previous_close Sample.offline "ACME" (Sample.jan 8) = Raise HTTPError /\
  get_previous_close Sample.client "ACME" (Sample.jan 2) = Ok None.
Proof. repeat split; vm_compute; reflexivity. Qed.

(** X6. The client starts with a key exactly when the key it ends up with
    is not empty: the argument when one is passed, the environment's
    [POLYGON_API_KEY] otherwise.  A key passed as the empty string is not
    replaced by the environment's and raises. *)
Theorem api_key_resolution
    (api_key : option string) (environ : string -> option string) (k : string) :
  (Client.__post_init__ api_key environ = Client.KeyReady k <->
   Client.nonempty k = true /\
   (api_key = Some k \/
    (api_key = None /\ environ "POLYGON_API_KEY"%string = Some k))) /\
  Client.__post_init__ (Some ""%string) environ =
    Client.EnvironmentError "POLYGON_API_KEY environment variable is required." /\
  ((exists k', Client.__post_init__ api_key environ = Client.KeyReady k') \/
   Client.__post_init__ api_key environ =
     Client.EnvironmentError "POLYGON_API_KEY environment variable is required.").
Proof.
  split; [|split; [reflexivity|]].
  - unfold Client.__post_init__. split.
    + destruct api_key as [a|].
      * destruct (Client.nonempty a) eqn:E; [|discriminate].
        intros [= <-]. auto.
      * destruct (environ _) as [a|]; [|discriminate].
        destruct (Client.nonempty a) eqn:E; [|discriminate].
        intros [= <-]. auto.
    + intros [Hk [-> | [-> ->]]]; by rewrite Hk.
  - unfold Client.__post_init__.
    destruct api_key as [a|].
    + destruct (Client.nonempty a); [left; by eexists | by right].
    + destruct (environ _) as [a|]; [|by right].
      destruct (Client.nonempty a); [left; by eexists | by right].
Qed.

Section TableFacts.

Lemma supported_flag_cases (f : string) :
  supported_flag f = true -> f = "AMC"%string \/ f = "BMO"%string.
Proof.
  unfold supported_flag. intros H. apply orb_true_iff in H as [H|H];
    apply String.eqb_eq in H; auto.
Qed.

Lemma flag_upper (event : Event.t) : upper (Spec.flag event) = Spec.flag event.
Proof. unfold Spec.flag. apply upper_idem. Qed.

(** The loop appends one record for each event of a sublist of the events
    it goes through, in their order. *)
Lemma iterrows_made self ticker events records out :
  Analyzer.iterrows self ticker events records = Ok out ->
  exists used new,
    out = records ++ new /\
    sublist used events /\
    Forall2 (Props.made_from self ticker) used new.
Proof.
  revert records. induction events as [|e events IH]; intros records Hrun.
  - cbn in Hrun. injection Hrun as <-. exists [], [].
    rewrite app_nil_r. repeat split; constructor.
  - cbn [Analyzer.iterrows] in Hrun.
    assert (Hskip : Analyzer.iterrows self ticker events records = Ok out ->
      exists used new, out = records ++ new /\ sublist used (e :: events) /\
        Forall2 (Props.made_from self ticker) used new).
    { intros H. destruct (IH _ H) as (used & new & Hout & Hsub & Hall).
      exists used, new. repeat split; [exact Hout | by apply sublist_cons | exact Hall]. }
    destruct (supported_flag _) eqn:Esup; cbn [negb] in Hrun; [|by apply Hskip].
    destruct (Event.earnings_date e) as [ts|] eqn:Ets; [|by apply Hskip].
    destruct (get_session_day _ _ _) as [day|err] eqn:Eday; [|discriminate].
    cbn [bind] in Hrun.
    destruct (get_intraday_window _ _ _ _) as [[|first rest]|err] eqn:Ewin;
      cbn [bind] in Hrun; [by apply Hskip | | discriminate].
    destruct (get_previous_close _ _ _) as [pc|err] eqn:Epc; cbn [bind] in Hrun;
      [|discriminate].
    destruct (IH _ Hrun) as (used & new & Hout & Hsub & Hall).
    eexists (e :: used), (_ :: new).
    split; [rewrite Hout, <- app_assoc; reflexivity|].
    split; [by apply sublist_skip|].
    constructor; [|exact Hall].
    exists ts, day, first, rest, pc. by repeat split.
Qed.

Lemma sublist_filter_mono {A} (P : A -> Prop) `{!forall x, Decision (P x)}
    (l1 l2 : list A) :
  sublist l1 l2 -> sublist (filter P l1) (filter P l2).
Proof.
  induction 1 as [|x l1 l2 Hsub IH|x l1 l2 Hsub IH]; [constructor| |].
  - rewrite !filter_cons. destruct (decide (P x)); [by apply sublist_skip | exact IH].
  - rewrite filter_cons. destruct (decide (P x)); [by apply sublist_cons | exact IH].
Qed.

Lemma made_from_usable self ticker event r :
  Props.made_from self ticker event r -> Props.usable event = true.
Proof.
  intros (ts & day & first & rest & pc & Hts & Hsup & _).
  unfold Props.usable. by rewrite Hsup, Hts.
Qed.

Lemma made_from_well_formed self ticker event r :
  Props.made_from self ticker event r -> Props.well_formed self ticker r.
Proof.
  intros (ts & day & first & rest & pc & Hts & Hsup & Hday & Hwin & Hpc & ->).
  unfold Props.well_formed.
  cbn [Analyzer.reaction_record Metric.ticker Metric.release_flag
       Metric.earnings_date Metric.session_day Metric.oc_ret Metric.range_pct
       Metric.gap_ret Metric.open Metric.close Metric.high Metric.low
       Metric.prev_close].
  split; [reflexivity|].
  split; [by apply supported_flag_cases|].
  split; [exact Hday|].
  split.
  { intros Hamc. unfold get_session_day in Hday.
    rewrite flag_upper, Hsup, Hamc in Hday.
    change ("AMC" =? "AMC")%string with true in Hday.
    cbv iota beta zeta delta [negb] in Hday. injection Hday as <-.
    destruct (next_trading_day_spec (ts_date self (_normalize_timestamp ts)))
      as (_ & Hwd & _). lia. }
  destruct (Qeqb (bar_open first) 0) eqn:Eopen; cbn [negb].
  - apply Qeqb_true in Eopen.
    split; [by split|]. split; [by split|].
    split; [|split; [discriminate | split; [discriminate|]]].
    + destruct pc as [p|]; [|split; auto].
      destruct (Qeqb p 0) eqn:Ep; cbn [negb andb].
      * apply Qeqb_true in Ep. split; [intros _; right; eauto | reflexivity].
      * apply Qeqb_false in Ep. split; [discriminate|].
        intros [? | (p' & [= <-] & Hp')]; [discriminate | contradiction].
    + destruct pc as [p|]; [|discriminate].
      destruct (Qeqb p 0); cbn [negb andb]; [discriminate|].
      intros x [= <-]. eauto.
  - apply Qeqb_false in Eopen.
    split; [split; [discriminate | contradiction]|].
    split; [split; [discriminate | contradiction]|].
    split; [|split; [by intros x [= <-] | split; [by intros x [= <-]|]]].
    + destruct pc as [p|]; [|split; auto].
      destruct (Qeqb p 0) eqn:Ep; cbn [negb andb].
      * apply Qeqb_true in Ep. split; [intros _; right; eauto | reflexivity].
      * apply Qeqb_false in Ep. split; [discriminate|].
        intros [? | (p' & [= <-] & Hp')]; [discriminate | contradiction].
    + destruct pc as [p|]; [|discriminate].
      destruct (Qeqb p 0); cbn [negb andb]; [discriminate|].
      intros x [= <-]. eauto.
Qed.

End TableFacts.

(** X7. Every row of a table the analyzer returns is well formed: it
    carries the ticker analysed and a flag that is AMC or BMO, its session
    day is the one the resolver gives for its timestamp and flag (never a
    weekend day for AMC), its open-to-close return and its range are
    missing exactly when the open is zero, its gap is missing exactly when
    the previous close is missing or zero, and each ratio that is there is
    the ratio of the prices of the same row. *)
Theorem analyzer_rows_are_well_formed
    (pd : SortValues) (self : PolygonIntradayClient) (ticker : string)
    (events : list Event.t) (records : list Metric.t) :
  Analyzer.analyze_ticker pd self ticker events = Ok records ->
  forall r, r ∈ records -> Props.well_formed self ticker r.
Proof.
  intros Hrun r Hr. unfold Analyzer.analyze_ticker in Hrun.
  destruct events as [|e events].
  { injection Hrun as <-. by apply elem_of_nil in Hr. }
  apply iterrows_made in Hrun as (used & new & -> & _ & Hall).
  rewrite app_nil_l in Hr.
  apply list_elem_of_lookup in Hr as [i Hi].
  destruct (Forall2_lookup_r _ _ _ _ _ Hall Hi) as (event & _ & Hmade).
  by eapply made_from_well_formed.
Qed.

Lemma analyzer_rows_are_well_formed_witness :
  Props.well_formed Sample.client "ACME"
    (Analyzer.reaction_record "ACME" (Sample.utc_timestamp (Sample.jan 5) 21 30)
       "AMC" (Sample.jan 8)
       (bar_of_agg (mkAgg (Sample.day_ms (Sample.jan 8) + 34200000) 100 104 99 103 5000))
       (bar_of_agg <$> tail (Sample.session_aggs (Sample.jan 8))) (Some 100%Q)).
Proof.
  apply (analyzer_rows_are_well_formed stable_pandas Sample.client "ACME"
           [Sample.bmo_event; Sample.no_date_event; Sample.amc_event]
           [Analyzer.reaction_record "ACME" (Sample.utc_timestamp (Sample.jan 5) 21 30)
              "AMC" (Sample.jan 8)
              (bar_of_agg (mkAgg (Sample.day_ms (Sample.jan 8) + 34200000) 100 104 99 103 5000))
              (bar_of_agg <$> tail (Sample.session_aggs (Sample.jan 8))) (Some 100%Q);
            Analyzer.reaction_record "ACME" (Sample.utc_timestamp (Sample.jan 9) 13 0)
              "BMO" (Sample.jan 9)
              (bar_of_agg (mkAgg (Sample.day_ms (Sample.jan 9) + 34200000) 100 104 99 103 5000))
              (bar_of_agg <$> tail (Sample.session_aggs (Sample.jan 9))) (Some 98%Q)]).
  - vm_compute. reflexivity.
  - constructor.
Defined.

(** X8. The rows of a returned table come from usable events, one row for
    each event of a selection of the sorted events, in their order, with
    the event's timestamp and upper-cased flag; so there are at most as
    many rows as usable events. *)
Theorem analyzer_rows_come_from_usable_events
    (pd : SortValues) (self : PolygonIntradayClient) (ticker : string)
    (events : list Event.t) (records : list Metric.t) :
  Analyzer.analyze_ticker pd self ticker events = Ok records ->
  (exists used,
     sublist used (filter (fun e => Props.usable e = true)
                     (Analyzer.events_sorted pd events)) /\
     Forall2 (fun e r =>
                Event.earnings_date e = Some (Metric.earnings_date r) /\
                Spec.flag e = Metric.release_flag r) used records) /\
  (length records <= length (filter (fun e => Props.usable e = true) events))%nat.
Proof.
  intros Hrun.
  assert (Hused : exists used,
     sublist used (filter (fun e => Props.usable e = true)
                     (Analyzer.events_sorted pd events)) /\
     Forall2 (fun e r =>
                Event.earnings_date e = Some (Metric.earnings_date r) /\
                Spec.flag e = Metric.release_flag r) used records).
  { unfold Analyzer.analyze_ticker in Hrun. destruct events as [|e events].
    { injection Hrun as <-. exists []. split; [apply sublist_nil_l | constructor]. }
    apply iterrows_made in Hrun as (used & new & -> & Hsub & Hall).
    rewrite app_nil_l. exists used. split.
    - assert (Hf : filter (fun e => Props.usable e = true) used = used).
      { clear Hsub. induction Hall as [|e0 r0 used new Hm _ IH]; [reflexivity|].
        rewrite filter_cons, decide_True by (by eapply made_from_usable).
        by rewrite IH. }
      rewrite <- Hf. by apply sublist_filter_mono.
    - eapply Forall2_impl; [exact Hall|].
      intros e0 r0 (ts & day & first & rest & pc & Hts & _ & _ & _ & _ & ->).
      by split. }
  split; [exact Hused|].
  destruct Hused as (used & Hsub & Hall).
  rewrite <- (Forall2_length _ _ _ Hall).
  etransitivity; [by apply sublist_length|].
  apply Nat.eq_le_incl, Permutation_length.
  apply filter_Permutation, sort_values_perm.
Qed.

Lemma analyzer_rows_come_from_usable_events_witness :
  (exists used,
     sublist used
       (filter (fun e => Props.usable e = true)
          (Analyzer.events_sorted stable_pandas
             [Sample.bmo_event; Sample.no_date_event; Sample.amc_event])) /\
     Forall2 (fun e r =>
                Event.earnings_date e = Some (Metric.earnings_date r) /\
                Spec.flag e = Metric.release_flag r) used
       [Analyzer.reaction_record "ACME" (Sample.utc_timestamp (Sample.jan 5) 21 30)
          "AMC" (Sample.jan 8)
          (bar_of_agg (mkAgg (Sample.day_ms (Sample.jan 8) + 34200000) 100 104 99 103 5000))
          (bar_of_agg <$> tail (Sample.session_aggs (Sample.jan 8))) (Some 100%Q);
        Analyzer.reaction_record "ACME" (Sample.utc_timestamp (Sample.jan 9) 13 0)
          "BMO" (Sample.jan 9)
          (bar_of_agg (mkAgg (Sample.day_ms (Sample.jan 9) + 34200000) 100 104 99 103 5000))
          (bar_of_agg <$> tail (Sample.session_aggs (Sample.jan 9))) (Some 98%Q)]) /\
  (2 <= length (filter (fun e => Props.usable e = true)
                  [Sample.bmo_event; Sample.no_date_event; Sample.amc_event]))%nat.
Proof.
  apply (analyzer_rows_come_from_usable_events stable_pandas Sample.client "ACME"
           [Sample.bmo_event; Sample.no_date_event; Sample.amc_event]).
  vm_compute. reflexivity.
Defined.

Section LoopFacts.

(** An event the loop passes over can be taken out of the events. *)
Lemma iterrows_drop_skipped self ticker before event after records :
  (forall rest acc,
     Analyzer.iterrows self ticker (event :: rest) acc =
     Analyzer.iterrows self ticker rest acc) ->
  Analyzer.iterrows self ticker (before ++ event :: after) records =
  Analyzer.iterrows self ticker (before ++ after) records.
Proof.
  intros Hskip. revert records.
  induction before as [|e before IH]; intros records.
  - apply Hskip.
  - rewrite <- !app_comm_cons. cbn [Analyzer.iterrows].
    destruct (negb _); [apply IH|].
    destruct (Event.earnings_date e) as [ts|]; [|apply IH].
    destruct (get_session_day _ _ _) as [day|err]; [|reflexivity].
    cbn [bind].
    destruct (get_intraday_window _ _ _ _) as [[|first rest]|err];
      cbn [bind]; [apply IH | | reflexivity].
    destruct (get_previous_close _ _ _) as [pc|err]; cbn [bind];
      [apply IH | reflexivity].
Qed.

Lemma get_intraday_window_supported self ticker ts release_flag bars :
  get_intraday_window self ticker ts release_flag = Ok bars ->
  supported_flag (upper release_flag) = true.
Proof.
  unfold get_intraday_window.
  destruct (supported_flag (upper release_flag)); [done | discriminate].
Qed.

Lemma get_session_day_returns self ts release_flag :
  supported_flag (upper release_flag) = true ->
  exists day, get_session_day self ts release_flag = Ok day.
Proof.
  intros Hsup. unfold get_session_day. rewrite Hsup. cbn [negb].
  destruct (_ =? _)%string; by eexists.
Qed.

(** A usable event whose window or previous close request raises makes
    the loop raise, wherever the event stands. *)
Lemma iterrows_raises self ticker events records event ts :
  event ∈ events ->
  Event.earnings_date event = Some ts ->
  supported_flag (Spec.flag event) = true ->
  (forall bars, get_intraday_window self ticker ts (Spec.flag event) = Ok bars ->
     bars <> [] /\
     forall day, get_session_day self ts (Spec.flag event) = Ok day ->
                 exists e, get_previous_close self ticker day = Raise e) ->
  exists e, Analyzer.iterrows self ticker events records = Raise e.
Proof.
  intros Hin Hts Hsup Hfail. revert records.
  induction events as [|e0 events IH]; intros records.
  { by apply elem_of_nil in Hin. }
  cbn [Analyzer.iterrows].
  apply elem_of_cons in Hin as [<- | Hin].
  - unfold Spec.flag in Hsup, Hfail. rewrite Hsup, Hts. cbn [negb].
    destruct (get_session_day_returns self ts
                (upper (Analyzer.str (Event.release_flag event))))
      as [day Hday].
    { by rewrite upper_idem. }
    rewrite Hday. cbn [bind].
    destruct (get_intraday_window _ _ _ _) as [bars|err] eqn:Ewin;
      cbn [bind]; [|by eexists].
    destruct (Hfail bars eq_refl) as [Hne Hprev].
    destruct bars as [|first rest]; [done|].
    destruct (Hprev day Hday) as [e ->]. cbn [bind]. by eexists.
  - destruct (negb _); [by apply IH|].
    destruct (Event.earnings_date e0) as [ts0|]; [|by apply IH].
    destruct (get_session_day self ts0 _) as [day|err]; cbn [bind]; [|by eexists].
    destruct (get_intraday_window self ticker ts0 _) as [[|first rest]|err];
      cbn [bind]; [by apply IH | | by eexists].
    destruct (get_previous_close self ticker day) as [pc|err]; cbn [bind];
      [by apply IH | by eexists].
Qed.

(** When every usable event has bars and its requests are answered, the
    loop makes one record for each of them. *)
Lemma iterrows_complete self ticker events records :
  (forall event, event ∈ events -> Props.usable event = true ->
     exists r, Props.made_from self ticker event r) ->
  exists new,
    Analyzer.iterrows self ticker events records = Ok (records ++ new) /\
    Forall2 (Props.made_from self ticker)
      (filter (fun e => Props.usable e = true) events) new.
Proof.
  revert records. induction events as [|e events IH]; intros records Hall.
  - exists []. rewrite app_nil_r. split; [reflexivity | constructor].
  - assert (Hrest : forall event, event ∈ events -> Props.usable event = true ->
              exists r, Props.made_from self ticker event r).
    { intros event Hin. apply Hall. by right. }
    cbn [Analyzer.iterrows]. rewrite filter_cons.
    destruct (Props.usable e) eqn:Eu.
    2:{ rewrite decide_False by discriminate.
        unfold Props.usable, Spec.flag in Eu.
        destruct (supported_flag _); cbn [negb andb] in *; [|by apply IH].
        destruct (Event.earnings_date e); [discriminate | by apply IH]. }
    rewrite decide_True by reflexivity.
    destruct (Hall e ltac:(left) Eu) as (r & Hmade).
    unfold Props.usable, Spec.flag in Eu.
    destruct (supported_flag _) eqn:Esup; cbn [negb andb] in *; [|discriminate].
    destruct (Event.earnings_date e) as [ts|] eqn:Ets; [|discriminate].
    pose proof Hmade as (ts' & day & first & rest & pc & Hts' & _ & Hday & Hwin & Hpc & Hr).
    rewrite Ets in Hts'. injection Hts' as <-.
    unfold Spec.flag in Hday, Hwin. rewrite Hday. cbn [bind].
    rewrite Hwin. cbn [bind]. rewrite Hpc. cbn [bind].
    destruct (IH (records ++ [r]) Hrest) as (new & Hrun & Hnew).
    exists (r :: new). split.
    + rewrite Hr in Hrun |- *. unfold Spec.flag in Hrun |- *. rewrite Hrun.
      by rewrite <- app_assoc.
    + by constructor.
Qed.

End LoopFacts.

(** X9. A usable event whose session has no bars gives no record and no
    error, and no previous close is asked for it: the analysis of the
    ticker is the analysis of the other events. *)
Theorem empty_session_is_skipped
    (pd : SortValues) (self : PolygonIntradayClient) (ticker : string)
    (events before after : list Event.t) (event : Event.t) (ts : Timestamp) :
  Analyzer.events_sorted pd events = before ++ event :: after ->
  Event.earnings_date event = Some ts ->
  get_intraday_window self ticker ts (Spec.flag event) = Ok [] ->
  Analyzer.analyze_ticker pd self ticker events =
    Analyzer.iterrows self ticker (before ++ after) [].
Proof.
  intros Hsorted Hts Hwin.
  assert (Hskip : forall rest acc,
            Analyzer.iterrows self ticker (event :: rest) acc =
            Analyzer.iterrows self ticker rest acc).
  { intros rest acc. cbn [Analyzer.iterrows].
    pose proof (get_intraday_window_supported _ _ _ _ _ Hwin) as Hsup.
    unfold Spec.flag in *. rewrite upper_idem in Hsup.
    rewrite Hsup, Hts. cbn [negb].
    destruct (get_session_day_returns self ts
                (upper (Analyzer.str (Event.release_flag event))))
      as [day ->]; [by rewrite upper_idem|].
    cbn [bind]. by rewrite Hwin. }
  unfold Analyzer.analyze_ticker. destruct events as [|e events].
  - pose proof (sort_values_perm pd _ Analyzer.earnings_key true []) as Hp.
    unfold Analyzer.events_sorted in Hsorted. rewrite Hsorted in Hp.
    apply Permutation_nil_r in Hp. by destruct before.
  - rewrite Hsorted. by apply iterrows_drop_skipped.
Qed.

Lemma empty_session_is_skipped_witness :
  Analyzer.analyze_ticker stable_pandas (Fixtures.closed_on (Sample.jan 8)) "ACME"
    [Sample.bmo_event; Sample.amc_event] =
  Analyzer.iterrows (Fixtures.closed_on (Sample.jan 8)) "ACME"
    ([] ++ [Sample.bmo_event]) [].
Proof.
  apply (empty_session_is_skipped stable_pandas (Fixtures.closed_on (Sample.jan 8))
           "ACME" [Sample.bmo_event; Sample.amc_event] [] [Sample.bmo_event]
           Sample.amc_event (Sample.utc_timestamp (Sample.jan 5) 21 30)).
  - vm_compute. reflexivity.
  - reflexivity.
  - vm_compute. reflexivity.
Defined.

(** X10. A failed request for a usable event fails the whole ticker: when
    the bars request of such an event raises, or its previous close
    request raises after bars were returned, the analysis raises and
    returns no table, wherever the event stands among the events. *)
Theorem transport_failure_fails_ticker
    (pd : SortValues) (self : PolygonIntradayClient) (ticker : string)
    (events : list Event.t) (event : Event.t) (ts : Timestamp) :
  event ∈ events ->
  Event.earnings_date event = Some ts ->
  supported_flag (Spec.flag event) = true ->
  (exists e, get_intraday_window self ticker ts (Spec.flag event) = Raise e) \/
  (exists day first rest e,
     get_session_day self ts (Spec.flag event) = Ok day /\
     get_intraday_window self ticker ts (Spec.flag event) = Ok (first :: rest) /\
     get_previous_close self ticker day = Raise e) ->
  exists e, Analyzer.analyze_ticker pd self ticker events = Raise e.
Proof.
  intros Hin Hts Hsup Hfail.
  unfold Analyzer.analyze_ticker. destruct events as [|e0 events].
  { by apply elem_of_nil in Hin. }
  apply (iterrows_raises self ticker _ [] event ts); [|exact Hts|exact Hsup|].
  { unfold Analyzer.events_sorted. by rewrite sort_values_perm. }
  intros bars Hbars. destruct Hfail as [[e He] | (day & first & rest & e & Hday & Hwin & Hpc)].
  - rewrite He in Hbars. discriminate.
  - rewrite Hwin in Hbars. injection Hbars as <-. split; [done|].
    intros day' Hday'. rewrite Hday in Hday'. injection Hday' as <-. by exists e.
Qed.

Lemma transport_failure_fails_ticker_witness :
  exists e,
    Analyzer.analyze_ticker stable_pandas (Fixtures.failing_on (Sample.jan 9)) "ACME"
      [Sample.bmo_event; Sample.amc_event] = Raise e.
Proof.
  apply (transport_failure_fails_ticker stable_pandas
           (Fixtures.failing_on (Sample.jan 9)) "ACME"
           [Sample.bmo_event; Sample.amc_event] Sample.bmo_event
           (Sample.utc_timestamp (Sample.jan 9) 13 0)).
  - left.
  - reflexivity.
  - reflexivity.
  - left. exists HTTPError. vm_compute. reflexivity.
Defined.

(** X11. When every usable event has bars for its session and the requests
    made for it are answered, the analysis returns one row for each usable
    event, in the sorted order of the events. *)
Theorem one_row_per_usable_event
    (pd : SortValues) (self : PolygonIntradayClient) (ticker : string)
    (events : list Event.t) :
  (forall event, event ∈ events -> Props.usable event = true ->
     exists r, Props.made_from self ticker event r) ->
  exists records,
    Analyzer.analyze_ticker pd self ticker events = Ok records /\
    Forall2 (Props.made_from self ticker)
      (filter (fun e => Props.usable e = true) (Analyzer.events_sorted pd events))
      records /\
    length records = length (filter (fun e => Props.usable e = true) events).
Proof.
  intros Hall.
  assert (Hperm : Analyzer.events_sorted pd events ≡ₚ events) by apply sort_values_perm.
  destruct (iterrows_complete self ticker (Analyzer.events_sorted pd events) [])
    as (new & Hrun & Hnew).
  { intros event Hin. apply Hall. by rewrite <- Hperm. }
  rewrite app_nil_l in Hrun.
  assert (Hlen : length new = length (filter (fun e => Props.usable e = true) events)).
  { rewrite <- (Forall2_length _ _ _ Hnew).
    apply Permutation_length. by rewrite Hperm. }
  unfold Analyzer.analyze_ticker. destruct events as [|e0 events].
  - exists []. apply Permutation_nil_r in Hperm. rewrite Hperm in *.
    cbn in Hrun. injection Hrun as <-. by repeat split.
  - exists new. by repeat split.
Qed.

Lemma one_row_per_usable_event_witness :
  exists records,
    Analyzer.analyze_ticker stable_pandas Sample.client "ACME"
      [Sample.bmo_event; Sample.bad_flag_event; Sample.amc_event] = Ok records /\
    Forall2 (Props.made_from Sample.client "ACME")
      (filter (fun e => Props.usable e = true)
         (Analyzer.events_sorted stable_pandas
            [Sample.bmo_event; Sample.bad_flag_event; Sample.amc_event]))
      records /\
    length records =
      length (filter (fun e => Props.usable e = true)
                [Sample.bmo_event; Sample.bad_flag_event; Sample.amc_event]).
Proof.
  apply (one_row_per_usable_event stable_pandas Sample.client "ACME"
           [Sample.bmo_event; Sample.bad_flag_event; Sample.amc_event]).
  intros event Hin Husable.
  apply elem_of_cons in Hin as [-> | Hin];
    [eexists; do 5 eexists; repeat split; vm_compute; reflexivity|].
  apply elem_of_cons in Hin as [-> | Hin]; [discriminate Husable|].
  apply elem_of_cons in Hin as [-> | Hin];
    [eexists; do 5 eexists; repeat split; vm_compute; reflexivity|].
  by apply elem_of_nil in Hin.
Defined.

Section OrderFacts.

Lemma key_le_antisym asc a b : key_le asc a b -> key_le asc b a -> a = b.
Proof.
  unfold key_le. destruct a as [x|], b as [y|]; try done.
  destruct asc; intros; f_equal; lia.
Qed.

Lemma NoDup_key_inj {A} (key : A -> option Z) (l : list A) a b :
  NoDup (key <$> l) -> a ∈ l -> b ∈ l -> key a = key b -> a = b.
Proof.
  induction l as [|x l IH]; intros Hnd Ha Hb Hk.
  { by apply elem_of_nil in Ha. }
  rewrite fmap_cons in Hnd. apply NoDup_cons in Hnd as [Hx Hnd].
  apply elem_of_cons in Ha as [-> | Ha]; apply elem_of_cons in Hb as [-> | Hb].
  - reflexivity.
  - exfalso. apply Hx. rewrite Hk. by apply list_elem_of_fmap_2.
  - exfalso. apply Hx. rewrite <- Hk. by apply list_elem_of_fmap_2.
  - by apply IH.
Qed.

(** With pairwise distinct keys there is one sorted rearrangement. *)
Lemma sorted_rows_unique {A} (key : A -> option Z) asc (l l1 l2 : list A) :
  NoDup (key <$> l) ->
  l1 ≡ₚ l -> l2 ≡ₚ l ->
  column_sorted asc (key <$> l1) -> column_sorted asc (key <$> l2) ->
  l1 = l2.
Proof.
  intros Hnd Hp1 Hp2 Hs1 Hs2.
  apply (proj2 (StronglySorted_by_key key (key_le asc) _)) in Hs1, Hs2.
  apply (StronglySorted_unique_strong (fun a b => key_le asc (key a) (key b)));
    [| exact Hs1 | exact Hs2 | by rewrite Hp1, Hp2].
  intros x1 x2 Hx1 Hx2 H12 H21.
  apply (NoDup_key_inj key l); [exact Hnd | by rewrite <- Hp1 | by rewrite <- Hp2 |].
  by eapply key_le_antisym.
Qed.

End OrderFacts.

(** X12. When no two events have the same announcement timestamp (and at
    most one has none), the analysis depends neither on how the sort
    breaks ties nor on the order in which the events are given. *)
Theorem distinct_timestamps_fix_the_analysis
    (pd pd' : SortValues) (self : PolygonIntradayClient) (ticker : string)
    (events events' : list Event.t) :
  NoDup (Analyzer.earnings_key <$> events) ->
  events' ≡ₚ events ->
  Analyzer.events_sorted pd' events' = Analyzer.events_sorted pd events /\
  Analyzer.analyze_ticker pd' self ticker events' =
    Analyzer.analyze_ticker pd self ticker events.
Proof.
  intros Hnd Hperm.
  assert (Heq : Analyzer.events_sorted pd' events' = Analyzer.events_sorted pd events).
  { apply (sorted_rows_unique Analyzer.earnings_key true events); [exact Hnd| | | |].
    - unfold Analyzer.events_sorted. by rewrite sort_values_perm.
    - apply sort_values_perm.
    - apply sort_values_sorted.
    - apply sort_values_sorted. }
  split; [exact Heq|].
  unfold Analyzer.analyze_ticker. rewrite Heq.
  destruct events as [|e events], events' as [|e' events']; try reflexivity.
  - by apply Permutation_nil_r in Hperm.
  - symmetry in Hperm. by apply Permutation_nil_r in Hperm.
Qed.

Lemma distinct_timestamps_fix_the_analysis_witness :
  Analyzer.events_sorted numpy_pandas
    [Sample.amc_event; Sample.no_date_event; Sample.bmo_event] =
    Analyzer.events_sorted stable_pandas
      [Sample.bmo_event; Sample.no_date_event; Sample.amc_event] /\
  Analyzer.analyze_ticker numpy_pandas Sample.client "ACME"
    [Sample.amc_event; Sample.no_date_event; Sample.bmo_event] =
    Analyzer.analyze_ticker stable_pandas Sample.client "ACME"
      [Sample.bmo_event; Sample.no_date_event; Sample.amc_event].
Proof.
  apply (distinct_timestamps_fix_the_analysis stable_pandas numpy_pandas
           Sample.client "ACME"
           [Sample.bmo_event; Sample.no_date_event; Sample.amc_event]
           [Sample.amc_event; Sample.no_date_event; Sample.bmo_event]).
  - apply (bool_decide_unpack _). vm_compute. exact I.
  - apply (Permutation_trans (Permutation_swap _ _ _)).
    apply (Permutation_trans (perm_skip _ (Permutation_swap _ _ _))).
    apply Permutation_swap.
Defined.

(** ** consistency.py: what the score depends on *)

Section ScoreInputs.

Lemma dropna_oc_ret_idem (table : list Metric.t) :
  ConsistencyScorer.dropna_oc_ret (ConsistencyScorer.dropna_oc_ret table) =
  ConsistencyScorer.dropna_oc_ret table.
Proof.
  unfold ConsistencyScorer.dropna_oc_ret.
  induction table as [|r table IH]; [reflexivity|].
  rewrite filter_cons. destruct (decide (is_Some (Metric.oc_ret r))) as [Hr|Hr];
    [|exact IH].
  rewrite filter_cons, decide_True by exact Hr. by rewrite IH.
Qed.

Lemma score_of_cons pd self ticker r table :
  ConsistencyScorer.score pd self ticker (r :: table) =
  let valid_events := ConsistencyScorer.dropna_oc_ret (r :: table) in
  match valid_events with
  | [] => Ok Score.zero
  | _ => ConsistencyScorer.score pd self ticker valid_events
  end.
Proof.
  cbv zeta.
  destruct (ConsistencyScorer.dropna_oc_ret (r :: table)) as [|v valid] eqn:Ev.
  - apply score_of_no_valid_events. apply (f_equal length) in Ev.
    rewrite valid_events_count in Ev. by destruct (Spec.present_oc_ret (r :: table)).
  - unfold ConsistencyScorer.score at 2. rewrite <- Ev, dropna_oc_ret_idem.
    rewrite Ev at 1. rewrite <- Ev. reflexivity.
Qed.

End ScoreInputs.

(** X13. Records without an open-to-close return have no part in the
    score: the score of a table is the score of the table without them.
    In particular their session days are not kept out of the baseline. *)
Theorem score_ignores_rows_without_oc_ret
    (pd : SortValues) (self : ConsistencyScorer.t) (ticker : string)
    (table : list Metric.t) :
  ConsistencyScorer.score pd self ticker table =
  ConsistencyScorer.score pd self ticker (ConsistencyScorer.dropna_oc_ret table).
Proof.
  destruct table as [|r table]; [reflexivity|].
  rewrite score_of_cons. cbv zeta.
  by destruct (ConsistencyScorer.dropna_oc_ret (r :: table)).
Qed.

Section ColumnFacts.

Lemma scored_columns_valid (t1 t2 : list Metric.t) :
  Columns.scored t1 = Columns.scored t2 ->
  Columns.scored (ConsistencyScorer.dropna_oc_ret t1) =
  Columns.scored (ConsistencyScorer.dropna_oc_ret t2).
Proof.
  unfold Columns.scored, ConsistencyScorer.dropna_oc_ret.
  revert t2. induction t1 as [|r1 t1 IH]; intros [|r2 t2] Heq; try done.
  rewrite !fmap_cons in Heq. injection Heq as Hoc Hday Hrest.
  rewrite !filter_cons, <- Hoc.
  destruct (decide (is_Some (Metric.oc_ret r1))); [|by apply IH].
  rewrite !fmap_cons, Hoc, Hday. f_equal. by apply IH.
Qed.

Lemma scored_columns_oc (t1 t2 : list Metric.t) :
  Columns.scored t1 = Columns.scored t2 ->
  ConsistencyScorer.column_oc_ret t1 = ConsistencyScorer.column_oc_ret t2 /\
  Metric.session_day <$> t1 = Metric.session_day <$> t2 /\
  length t1 = length t2.
Proof.
  unfold Columns.scored, ConsistencyScorer.column_oc_ret.
  revert t2. induction t1 as [|r1 t1 IH]; intros [|r2 t2] Heq; try done.
  rewrite !fmap_cons in Heq. injection Heq as Hoc Hday Hrest.
  destruct (IH _ Hrest) as (H1 & H2 & H3).
  rewrite !fmap_cons, Hoc, Hday, H1, H2. cbn [length]. by rewrite H3.
Qed.

Lemma baseline_reads_session_days pd self ticker (v1 v2 : list Metric.t) :
  Metric.session_day <$> v1 = Metric.session_day <$> v2 ->
  ConsistencyScorer._median_abs_oc_non_earnings pd self ticker v1 =
  ConsistencyScorer._median_abs_oc_non_earnings pd self ticker v2.
Proof.
  intros Heq. unfold ConsistencyScorer._median_abs_oc_non_earnings.
  by rewrite Heq.
Qed.

End ColumnFacts.

(** X14. The score reads two columns of the table only, the open-to-close
    return and the session day: two tables that agree on them row by row
    get the same score, whatever their prices, gaps, ranges, flags and
    timestamps. *)
Theorem score_reads_two_columns
    (pd : SortValues) (self : ConsistencyScorer.t) (ticker : string)
    (t1 t2 : list Metric.t) :
  Columns.scored t1 = Columns.scored t2 ->
  ConsistencyScorer.score pd self ticker t1 =
  ConsistencyScorer.score pd self ticker t2.
Proof.
  intros Heq.
  destruct (scored_columns_oc _ _ (scored_columns_valid _ _ Heq)) as (Hoc & Hday & Hlen).
  unfold ConsistencyScorer.score.
  destruct t1 as [|r1 t1], t2 as [|r2 t2]; try done.
  rewrite Hlen, Hoc.
  by rewrite (baseline_reads_session_days pd self ticker _ _ Hday).
Qed.

Lemma score_reads_two_columns_witness :
  ConsistencyScorer.score stable_pandas (ConsistencyScorer.make Sample.client) "ACME"
    [Analyzer.reaction_record "ACME" (Sample.utc_timestamp (Sample.jan 9) 13 0)
       "BMO" (Sample.jan 9)
       (bar_of_agg (mkAgg 0 100 104 99 103 5000)) [] None] =
  ConsistencyScorer.score stable_pandas (ConsistencyScorer.make Sample.client) "ACME"
    [Sample.metric (Sample.jan 9) (Some (103 / 100 - 1)%Q)].
Proof.
  apply (score_reads_two_columns stable_pandas (ConsistencyScorer.make Sample.client)
           "ACME").
  reflexivity.
Defined.

Section BaselineSign.

Lemma fabs_nan_or_nonneg (x : fnum) : Props.nan_or_nonneg (fabs x).
Proof.
  destruct x as [q| | |]; cbn; [right | right | right | left]; try reflexivity.
  apply Qleb_true, Qabs_nonneg.
Qed.

Lemma abs_nan_or_nonneg (s : list fnum) :
  forall x, x ∈ Series.abs s -> Props.nan_or_nonneg x.
Proof.
  intros x Hx. unfold Series.abs in Hx.
  apply list_elem_of_fmap in Hx as (y & -> & _). apply fabs_nan_or_nonneg.
Qed.

Lemma fadd_nonneg (a b : fnum) :
  fleb (Fin 0) a = true -> fleb (Fin 0) b = true -> fleb (Fin 0) (fadd a b) = true.
Proof.
  destruct a as [x| | |], b as [y| | |]; cbn; try done.
  intros Hx Hy. apply Qleb_true in Hx, Hy. apply Qleb_true. lra.
Qed.

Lemma fhalf_nonneg (a : fnum) :
  fleb (Fin 0) a = true -> fleb (Fin 0) (fdiv a (Fin 2)) = true.
Proof.
  destruct a as [x| | |]; cbn; try done.
  intros Hx. apply Qleb_true in Hx. apply Qleb_true.
  apply Qle_shift_div_l; [reflexivity | lra].
Qed.

Lemma nth_elem_of_fnum (k : nat) (v : list fnum) :
  (k < length v)%nat -> nth k v NaN ∈ v.
Proof. intros Hk. apply list_elem_of_In, nth_In, Hk. Qed.

(** The median of values that are not negative is not negative, or is
    [nan] when none of them is a number. *)
Lemma median_nan_or_nonneg (s : list fnum) :
  (forall x, x ∈ s -> Props.nan_or_nonneg x) -> Props.nan_or_nonneg (Series.median s).
Proof.
  intros Hall. unfold Series.median.
  set (v := Series.isort fleb (Series.dropna s)).
  assert (Hv : forall x, x ∈ v -> fleb (Fin 0) x = true).
  { intros x Hx. unfold v in Hx. rewrite isort_perm in Hx.
    unfold Series.dropna in Hx. apply list_elem_of_filter in Hx as [Hnan Hin].
    destruct (Hall x Hin) as [H|H]; [congruence | exact H]. }
  destruct (length v) as [|n] eqn:En; [by left|].
  assert (Hh : (S n / 2 < length v)%nat) by (rewrite En; apply half_lt; lia).
  right. destruct (Nat.even (S n)).
  - apply fhalf_nonneg, fadd_nonneg; apply Hv, nth_elem_of_fnum; lia.
  - by apply Hv, nth_elem_of_fnum.
Qed.

Lemma baseline_of_bars pd self ticker valid end_day bars :
  Spec.latest end_day (Metric.session_day <$> valid) ->
  get_daily_bars (ConsistencyScorer.intraday_client self) ticker
    (add_days end_day (- ConsistencyScorer.non_earnings_lookback_days self))
    end_day = bars ->
  ConsistencyScorer._median_abs_oc_non_earnings pd self ticker valid =
  (daily_bars <- bars ;;
   match daily_bars with
   | [] => Ok (Fin 0)
   | _ =>
       match ConsistencyScorer.head (ConsistencyScorer.sample_non_earnings_days self)
               (sort_values pd (fun b => Some (db_date b)) false
                  (filter (fun b => db_date b ∉ Metric.session_day <$> valid)
                     daily_bars)) with
       | [] => Ok (Fin 0)
       | candidates =>
           Ok (Series.median (Series.abs (ConsistencyScorer.daily_oc_ret <$> candidates)))
       end
   end).
Proof.
  intros Hlatest Hbars. unfold ConsistencyScorer._median_abs_oc_non_earnings.
  destruct (Metric.session_day <$> valid) as [|day0 days] eqn:Edays.
  { destruct Hlatest as [Hin _]. by apply elem_of_nil in Hin. }
  rewrite (latest_unique _ _ _ (zmax_latest day0 days) Hlatest), Hbars.
  destruct bars as [daily_bars|e]; cbn [bind]; [|reflexivity].
  destruct daily_bars as [|b0 bs]; [reflexivity|].
  replace (filter (fun b => db_date b ∉ (list_to_set (day0 :: days) : gset Z)) (b0 :: bs))
    with (filter (fun b => db_date b ∉ day0 :: days) (b0 :: bs)).
  2:{ apply list_filter_iff. intros b. by rewrite elem_of_list_to_set. }
  by destruct (ConsistencyScorer.head _ _).
Qed.

End BaselineSign.

(** X15. The baseline the scorer computes is never negative: it is a
    number that is zero or more, plus infinity, or [nan]; so the boost is
    zero only for a baseline that is zero or [nan]. *)
Theorem baseline_is_never_negative
    (pd : SortValues) (self : ConsistencyScorer.t) (ticker : string)
    (valid : list Metric.t) (nem : fnum) :
  ConsistencyScorer._median_abs_oc_non_earnings pd self ticker valid = Ok nem ->
  isnan nem = true \/ fleb (Fin 0) nem = true.
Proof.
  unfold ConsistencyScorer._median_abs_oc_non_earnings.
  destruct (Metric.session_day <$> valid) as [|day0 days].
  { intros [= <-]. by right. }
  destruct (get_daily_bars _ _ _ _) as [bars|e]; cbn [bind]; [|discriminate].
  destruct bars as [|b0 bs]; [intros [= <-]; by right|].
  destruct (ConsistencyScorer.head _ _) as [|c cs]; [intros [= <-]; by right|].
  intros [= <-]. apply median_nan_or_nonneg.
  intros x Hx.
  exact (abs_nan_or_nonneg (ConsistencyScorer.daily_oc_ret <$> c :: cs) x Hx).
Qed.

Lemma baseline_is_never_negative_witness :
  isnan (Fin (200 # 20000)) = true \/ fleb (Fin 0) (Fin (200 # 20000)) = true.
Proof.
  apply (baseline_is_never_negative stable_pandas
           (ConsistencyScorer.make Sample.client) "ACME"
           (ConsistencyScorer.dropna_oc_ret Sample.metrics)).
  vm_compute. reflexivity.
Defined.

(** X16. On a table with at least one open-to-close return the scorer
    requests the daily bars of the look-back window that ends on the
    latest session day of the rows with a return, from 00:00:00 UTC of its
    first day to 23:59:59 UTC of its last.  What this request raises, the
    scorer raises; a request answered without a bar leaves the baseline at
    zero and the score is returned. *)
Theorem score_raises_what_daily_request_raises
    (pd : SortValues) (self : ConsistencyScorer.t) (ticker : string)
    (table : list Metric.t) (end_day : date) :
  Spec.latest end_day
    (Metric.session_day <$> ConsistencyScorer.dropna_oc_ret table) ->
  (forall e,
     _request (ConsistencyScorer.intraday_client self) ticker 1 Day
       (mkDatetime
          (add_days end_day (- ConsistencyScorer.non_earnings_lookback_days self))
          (time 0 0 0) UTC)
       (mkDatetime end_day (time 23 59 59) UTC) 5000 = Raise e ->
     ConsistencyScorer.score pd self ticker table = Raise e) /\
  (_request (ConsistencyScorer.intraday_client self) ticker 1 Day
     (mkDatetime
        (add_days end_day (- ConsistencyScorer.non_earnings_lookback_days self))
        (time 0 0 0) UTC)
     (mkDatetime end_day (time 23 59 59) UTC) 5000 = Ok [] ->
   exists r,
     ConsistencyScorer.score pd self ticker table = Ok r /\
     Score.boost r = Fin 0).
Proof.
  intros Hlatest.
  assert (Hne : Spec.present_oc_ret table <> []).
  { intros Hnil. destruct Hlatest as [Hin _].
    pose proof (valid_events_count table) as Hlen. rewrite Hnil in Hlen.
    destruct (ConsistencyScorer.dropna_oc_ret table); [|discriminate].
    by apply elem_of_nil in Hin. }
  pose proof (baseline_of_bars pd self ticker _ end_day _ Hlatest eq_refl) as Hbase.
  unfold get_daily_bars, _combine_day_time in Hbase.
  split.
  - intros e Hreq. rewrite Hreq in Hbase. cbn [bind] in Hbase.
    exact (score_raises pd self ticker table e Hne Hbase).
  - intros Hreq. rewrite Hreq in Hbase. cbn [bind fmap list_fmap] in Hbase.
    destruct (score_reading pd self ticker table (Fin 0) Hne Hbase)
      as (h & g & b & Hs & _ & _ & _ & _ & Hb & _).
    eexists. split; [exact Hs|]. cbn [Score.boost]. cbn in Hb. by injection Hb as ->.
Qed.

Lemma score_raises_what_daily_request_raises_witness :
  (forall e,
     _request
       (ConsistencyScorer.intraday_client (ConsistencyScorer.make Sample.offline))
       "ACME" 1 Day
       (mkDatetime
          (add_days (Sample.jan 11)
             (- ConsistencyScorer.non_earnings_lookback_days
                  (ConsistencyScorer.make Sample.offline)))
          (time 0 0 0) UTC)
       (mkDatetime (Sample.jan 11) (time 23 59 59) UTC) 5000 = Raise e ->
     ConsistencyScorer.score stable_pandas (ConsistencyScorer.make Sample.offline)
       "ACME" Sample.metrics = Raise e) /\
  (_request
     (ConsistencyScorer.intraday_client (ConsistencyScorer.make Sample.offline))
     "ACME" 1 Day
     (mkDatetime
        (add_days (Sample.jan 11)
           (- ConsistencyScorer.non_earnings_lookback_days
                (ConsistencyScorer.make Sample.offline)))
        (time 0 0 0) UTC)
     (mkDatetime (Sample.jan 11) (time 23 59 59) UTC) 5000 = Ok [] ->
   exists r,
     ConsistencyScorer.score stable_pandas (ConsistencyScorer.make Sample.offline)
       "ACME" Sample.metrics = Ok r /\
     Score.boost r = Fin 0).
Proof.
  apply (score_raises_what_daily_request_raises stable_pandas
           (ConsistencyScorer.make Sample.offline) "ACME" Sample.metrics
           (Sample.jan 11)).
  split.
  - apply (bool_decide_unpack _). vm_compute. exact I.
  - apply Forall_forall. apply (bool_decide_unpack _). vm_compute. exact I.
Defined.

(** The provider that is off line: the scorer raises its error. *)
Example offline_score_example :
  ConsistencyScorer.score stable_pandas (ConsistencyScorer.make Sample.offline)
    "ACME" Sample.metrics = Raise HTTPError.
Proof. vm_compute. reflexivity. Qed.

Section NoBaseline.

Lemma head_nil {A} (n : Z) : ConsistencyScorer.head n (@nil A) = [].
Proof. unfold ConsistencyScorer.head. destruct (0 <=? n); apply take_nil. Qed.

End NoBaseline.

(** X17. When the provider has no daily bar for the window, or only bars
    dated on session days, the boost is zero and the score is
    [0.5*hit_main_dir + 0.3*big_move_hit], which is at most 0.8, whatever
    the size of the earnings moves. *)
Theorem score_without_baseline
    (pd : SortValues) (self : ConsistencyScorer.t) (ticker : string)
    (table : list Metric.t) (end_day : date) (bars : list DailyBar) :
  Spec.latest end_day
    (Metric.session_day <$> ConsistencyScorer.dropna_oc_ret table) ->
  get_daily_bars (ConsistencyScorer.intraday_client self) ticker
    (add_days end_day (- ConsistencyScorer.non_earnings_lookback_days self))
    end_day = Ok bars ->
  (forall b, b ∈ bars ->
     db_date b ∈ Metric.session_day <$> ConsistencyScorer.dropna_oc_ret table) ->
  exists h g,
    ConsistencyScorer.score pd self ticker table =
      Ok {| Score.hit_main_dir := Fin h;
            Score.big_move_hit := Fin g;
            Score.boost := Fin 0;
            Score.score := Fin (0.5 * h + 0.3 * g + 0.2 * 0);
            Score.events_count := Z.of_nat (length (Spec.present_oc_ret table)) |} /\
    (0.5 * h + 0.3 * g + 0.2 * 0 == 0.5 * h + 0.3 * g)%Q /\
    (0.5 * h + 0.3 * g + 0.2 * 0 <= 0.8)%Q.
Proof.
  intros Hlatest Hbars Hall.
  assert (Hne : Spec.present_oc_ret table <> []).
  { intros Hnil. destruct Hlatest as [Hin _].
    pose proof (valid_events_count table) as Hlen. rewrite Hnil in Hlen.
    destruct (ConsistencyScorer.dropna_oc_ret table); [|discriminate].
    by apply elem_of_nil in Hin. }
  assert (Hnem : ConsistencyScorer._median_abs_oc_non_earnings pd self ticker
                   (ConsistencyScorer.dropna_oc_ret table) = Ok (Fin 0)).
  { rewrite (baseline_of_bars pd self ticker _ end_day _ Hlatest Hbars). cbn [bind].
    destruct bars as [|b0 bs]; [reflexivity|].
    replace (filter _ (b0 :: bs)) with (@nil DailyBar).
    - by rewrite sort_values_nil, head_nil.
    - symmetry. apply elem_of_nil_inv. intros b Hb.
      apply list_elem_of_filter in Hb as [Hday Hin]. by apply Hday, Hall. }
  destruct (score_reading pd self ticker table (Fin 0) Hne Hnem)
    as (h & g & b & Hs & _ & _ & _ & _ & Hb & [Hh0 Hh1] & [Hg0 Hg1] & _).
  cbn in Hb. injection Hb as ->.
  exists h, g. split; [exact Hs|]. split; lra.
Qed.

Lemma score_without_baseline_witness :
  exists h g,
    ConsistencyScorer.score stable_pandas
      (ConsistencyScorer.make (Fixtures.closed_on (Sample.jan 8))) "ACME"
      [Sample.metric (Sample.jan 1) (Some 0.03%Q)] =
      Ok {| Score.hit_main_dir := Fin h;
            Score.big_move_hit := Fin g;
            Score.boost := Fin 0;
            Score.score := Fin (0.5 * h + 0.3 * g + 0.2 * 0);
            Score.events_count :=
              Z.of_nat (length (Spec.present_oc_ret
                                  [Sample.metric (Sample.jan 1) (Some 0.03%Q)])) |} /\
    (0.5 * h + 0.3 * g + 0.2 * 0 == 0.5 * h + 0.3 * g)%Q /\
    (0.5 * h + 0.3 * g + 0.2 * 0 <= 0.8)%Q.
Proof.
  apply (score_without_baseline stable_pandas
           (ConsistencyScorer.make (Fixtures.closed_on (Sample.jan 8))) "ACME"
           [Sample.metric (Sample.jan 1) (Some 0.03%Q)] (Sample.jan 1) []).
  - split.
    + apply (bool_decide_unpack _). vm_compute. exact I.
    + apply Forall_forall. apply (bool_decide_unpack _). vm_compute. exact I.
  - vm_compute. reflexivity.
  - intros b Hb. by apply elem_of_nil in Hb.
Defined.

(** X18. The hit rate of a returned score is zero exactly when the mean
    the scorer has computed is neither positive nor negative; a positive
    computed mean comes with a positive value among the present ones and a
    negative one with a negative value, so that the share the scorer
    returns then is not zero. *)
Theorem hit_rate_is_zero_only_without_direction
    (np : Series64.Summation) (pd : SortValues) (self : ConsistencyScorer64.t)
    (ticker : string) (table : list ConsistencyScorer64.MetricsRow)
    (nem : Binary64.double) :
  Spec64.present_oc_ret table <> [] ->
  Z.of_nat (length (Spec64.present_oc_ret table)) < 2 ^ 53 ->
  ConsistencyScorer64._median_abs_oc_non_earnings pd self ticker
    (ConsistencyScorer64.dropna_oc_ret table) = Ok nem ->
  exists r,
    ConsistencyScorer64.score np pd self ticker table = Ok r /\
    (Binary64.feqb (Score64.hit_main_dir r) Binary64.zero = true <->
     Spec64.mean_positive np table = false /\
     Spec64.mean_negative np table = false) /\
    (Spec64.mean_positive np table = true ->
     exists x, x ∈ Spec64.present_oc_ret table /\ Spec64.is_positive x = true) /\
    (Spec64.mean_negative np table = true ->
     exists x, x ∈ Spec64.present_oc_ret table /\ Spec64.is_negative x = true).
Proof.
  intros Hne Hlen Hnem.
  destruct (score64_reading np pd self ticker table nem Hne Hnem)
    as (r & Hscore & Hhit & _).
  exists r. split; [exact Hscore|]. rewrite Hhit.
  unfold Spec64.mean_positive, Spec64.mean_negative, Spec64.computed_mean.
  split; [|split; [apply positive_mean_has_gain | apply negative_mean_has_loss]].
  destruct (Binary64.fgtb (Series64.mean np _) Binary64.zero) eqn:Egt.
  - destruct (positive_mean_has_gain _ _ Egt) as (x & Hx & Hpos).
    rewrite (positive_not_zero _ (share_positive Spec64.is_positive _ x Hlen Hx Hpos)).
    split; [discriminate | by intros [? _]].
  - destruct (Binary64.fltb (Series64.mean np _) Binary64.zero) eqn:Elt.
    + destruct (negative_mean_has_loss _ _ Elt) as (x & Hx & Hneg).
      rewrite (positive_not_zero _ (share_positive Spec64.is_negative _ x Hlen Hx Hneg)).
      split; [discriminate | by intros [_ ?]].
    + split; [done | reflexivity].
Qed.

Lemma hit_rate_is_zero_only_without_direction_witness :
  exists r,
    ConsistencyScorer64.score numpy stable_pandas Sample64.scorer "ACME"
      Sample64.cancelling = Ok r /\
    (Binary64.feqb (Score64.hit_main_dir r) Binary64.zero = true <->
     Spec64.mean_positive numpy Sample64.cancelling = false /\
     Spec64.mean_negative numpy Sample64.cancelling = false) /\
    (Spec64.mean_positive numpy Sample64.cancelling = true ->
     exists x, x ∈ Spec64.present_oc_ret Sample64.cancelling /\
               Spec64.is_positive x = true) /\
    (Spec64.mean_negative numpy Sample64.cancelling = true ->
     exists x, x ∈ Spec64.present_oc_ret Sample64.cancelling /\
               Spec64.is_negative x = true).
Proof.
  apply (hit_rate_is_zero_only_without_direction numpy stable_pandas Sample64.scorer
           "ACME" Sample64.cancelling Binary64.zero).
  - vm_compute. discriminate.
  - vm_compute. reflexivity.
  - vm_compute. reflexivity.
Defined.

(** ** The universe and the scan *)

Section UniverseFacts.

Lemma head_sublist {A} (n : Z) (l : list A) :
  sublist (ConsistencyScorer.head n l) l.
Proof. unfold ConsistencyScorer.head. destruct (0 <=? n); apply sublist_take. Qed.

Lemma head_length {A} (n : Z) (l : list A) :
  0 <= n -> (length (ConsistencyScorer.head n l) <= Z.to_nat n)%nat.
Proof.
  intros Hn. unfold ConsistencyScorer.head.
  destruct (Z.leb_spec 0 n); [|lia]. rewrite length_take. lia.
Qed.

Lemma ticker_column_candidates (table : Universe.Table) (column : string) :
  Universe.ticker_column table = Some column ->
  is_Some (table !! column) /\
  (column = "Symbol" \/
   (column = "Ticker" /\ table !! "Symbol"%string = None) \/
   (column = "Ticker Symbol" /\ table !! "Symbol"%string = None /\
    table !! "Ticker"%string = None))%string.
Proof.
  unfold Universe.ticker_column. cbn [List.find].
  destruct (bool_decide (is_Some (table !! "Symbol"%string))) eqn:E1.
  { intros [= <-]. apply bool_decide_eq_true in E1. auto. }
  apply bool_decide_eq_false in E1.
  assert (N1 : table !! "Symbol"%string = None).
  { destruct (table !! "Symbol"%string); [exfalso; eauto | reflexivity]. }
  destruct (bool_decide (is_Some (table !! "Ticker"%string))) eqn:E2.
  { intros [= <-]. apply bool_decide_eq_true in E2. auto. }
  apply bool_decide_eq_false in E2.
  assert (N2 : table !! "Ticker"%string = None).
  { destruct (table !! "Ticker"%string); [exfalso; eauto | reflexivity]. }
  destruct (bool_decide (is_Some (table !! "Ticker Symbol"%string))) eqn:E3;
    [|discriminate].
  intros [= <-]. apply bool_decide_eq_true in E3. auto 6.
Qed.

Lemma universe_fetch_reads_column page top_n tickers :
  Universe.fetch page top_n = Ok tickers ->
  exists table tables column,
    page = Ok (table :: tables) /\ Universe.ticker_column table = Some column.
Proof.
  unfold Universe.fetch. destruct page as [[|table tables]|e]; cbn [bind];
    try discriminate.
  destruct (Universe.ticker_column table) as [column|] eqn:Ecol; [|discriminate].
  intros _. by exists table, tables, column.
Qed.

End UniverseFacts.

(** X19. Every symbol the universe builder returns is a non-empty string
    of capital letters and dots.  The symbols are cells of one column of
    the first table of the page ([Symbol], else [Ticker], else
    [Ticker Symbol]), without the white space around them, in the order of
    the table; for a non-negative [top_n] there are at most [top_n] of
    them. *)
Theorem universe_symbols_are_clean
    (page : result (list Universe.Table)) (top_n : Z) (tickers : list string) :
  Universe.fetch page top_n = Ok tickers ->
  (forall t, t ∈ tickers ->
     t <> ""%string /\ Universe.all_ticker_chars t = true) /\
  (0 <= top_n -> Z.of_nat (length tickers) <= top_n) /\
  exists table tables column cells,
    page = Ok (table :: tables) /\
    Universe.ticker_column table = Some column /\
    table !! column = Some cells /\
    sublist tickers (Universe.strip <$> cells).
Proof.
  unfold Universe.fetch. destruct page as [[|table tables]|e]; cbn [bind];
    try discriminate.
  destruct (Universe.ticker_column table) as [column|] eqn:Ecol; [|discriminate].
  destruct (ticker_column_candidates _ _ Ecol) as [[cells Hcells] _].
  rewrite Hcells. cbn [default]. intros [= <-].
  set (kept := filter (fun s => Universe.fullmatch_ticker s = true)
                 (Universe.strip <$> cells)).
  split.
  { intros t Ht. apply (sublist_subseteq _ _ (head_sublist _ _)) in Ht.
    unfold kept in Ht. apply list_elem_of_filter in Ht as [Hm _].
    unfold Universe.fullmatch_ticker in Hm. by destruct t. }
  split.
  { intros Hn. pose proof (head_length top_n kept Hn). lia. }
  exists table, tables, column, cells. repeat split; try done.
  etransitivity; [apply head_sublist | apply sublist_filter].
Qed.

Lemma universe_symbols_are_clean_witness :
  (forall t, t ∈ ["AAPL"; "BRK.B"]%string ->
     t <> ""%string /\ Universe.all_ticker_chars t = true) /\
  (0 <= 2 -> Z.of_nat (length ["AAPL"; "BRK.B"]%string) <= 2) /\
  exists table tables column cells,
    Ok [ ({[ "No."%string := ["1"; "2"; "3"; "4"; "5"]%string;
             "Symbol"%string := [" AAPL"; "nan"; "BRK.B "; "msft"; "NVDA"]%string ]}
          : Universe.Table) ] = Ok (table :: tables) /\
    Universe.ticker_column table = Some column /\
    table !! column = Some cells /\
    sublist ["AAPL"; "BRK.B"]%string (Universe.strip <$> cells).
Proof.
  apply (universe_symbols_are_clean
           (Ok [ ({[ "No."%string := ["1"; "2"; "3"; "4"; "5"]%string;
                     "Symbol"%string := [" AAPL"; "nan"; "BRK.B "; "msft"; "NVDA"]%string ]}
                  : Universe.Table) ]) 2).
  vm_compute. reflexivity.
Defined.

(** X20. The universe builder returns a list exactly when the page was
    read, has a table, and the first table has a column named [Symbol],
    [Ticker] or [Ticker Symbol]; a page without table or without such a
    column raises [ValueError], and a failed page request raises what it
    raised. *)
Theorem universe_fetch_outcome
    (page : result (list Universe.Table)) (top_n : Z) :
  ((exists tickers, Universe.fetch page top_n = Ok tickers) <->
   exists table tables,
     page = Ok (table :: tables) /\
     (is_Some (table !! "Symbol"%string) \/ is_Some (table !! "Ticker"%string) \/
      is_Some (table !! "Ticker Symbol"%string))) /\
  (page = Ok [] ->
   Universe.fetch page top_n =
     Raise (ValueError "No tables found on universe source page.")) /\
  (forall e, page = Raise e -> Universe.fetch page top_n = Raise e) /\
  (forall table tables,
     page = Ok (table :: tables) ->
     table !! "Symbol"%string = None -> table !! "Ticker"%string = None ->
     table !! "Ticker Symbol"%string = None ->
     Universe.fetch page top_n =
       Raise (ValueError "Ticker column not found in universe table.")).
Proof.
  split; [|split; [by intros -> | split; [by intros e -> |]]].
  - split.
    + intros [tickers Hok].
      destruct (universe_fetch_reads_column page top_n tickers Hok)
        as (table & tables & column & Hpage & Hcol).
      exists table, tables. split; [exact Hpage|].
      destruct (ticker_column_candidates _ _ Hcol) as [Hsome [-> | [[-> _] | [-> _]]]];
        auto.
    + intros (table & tables & -> & Hcols). unfold Universe.fetch. cbn [bind].
      destruct (Universe.ticker_column table) as [column|] eqn:Ecol; [by eexists|].
      exfalso. unfold Universe.ticker_column in Ecol. cbn [List.find] in Ecol.
      destruct Hcols as [H | [H | H]];
        repeat (match type of Ecol with
                | (if bool_decide ?P then _ else _) = _ =>
                    destruct (bool_decide_reflect P); [discriminate|]
                end); try discriminate; contradiction.
  - intros table tables -> N1 N2 N3. unfold Universe.fetch. cbn [bind].
    unfold Universe.ticker_column. cbn [List.find].
    rewrite N1, N2, N3.
    rewrite !bool_decide_eq_false_2 by (by intros [? ?]). reflexivity.
Qed.

Section FloatOrder.

Lemma fleb_total (a b : fnum) :
  isnan a = false -> isnan b = false -> fleb a b = false -> fleb b a = true.
Proof.
  destruct a as [x| | |], b as [y| | |]; cbn; try done.
  intros _ _ H. apply Qleb_false in H. apply Qleb_true. by apply Qlt_le_weak.
Qed.

Lemma fleb_not_nan (a b : fnum) : fleb a b = true -> isnan a = false /\ isnan b = false.
Proof. by destruct a, b. Qed.

Lemma fleb_trans (a b c : fnum) : fleb a b = true -> fleb b c = true -> fleb a c = true.
Proof.
  destruct a as [x| | |], b as [y| | |], c as [z| | |]; cbn; try done.
  intros H1 H2. apply Qleb_true in H1, H2. apply Qleb_true. by eapply Qle_trans.
Qed.

Lemma fkey_leb_le asc a b : fkey_leb asc a b = true <-> fkey_le asc a b.
Proof. unfold fkey_leb, fkey_le. by rewrite orb_true_iff. Qed.

Lemma fkey_leb_total asc a b : fkey_leb asc a b = false -> fkey_leb asc b a = true.
Proof.
  unfold fkey_leb. intros H. apply orb_false_iff in H as [Hb H].
  destruct (isnan a) eqn:Ha; [reflexivity|]. cbn [orb].
  destruct asc; by apply fleb_total.
Qed.

Lemma fkey_le_trans asc a b c : fkey_le asc a b -> fkey_le asc b c -> fkey_le asc a c.
Proof.
  unfold fkey_le. intros Hab [Hc | Hbc]; [by left|]. right.
  destruct asc.
  - destruct (fleb_not_nan _ _ Hbc) as [Hb _].
    destruct Hab as [Hb' | Hab]; [congruence|]. by eapply fleb_trans.
  - destruct (fleb_not_nan _ _ Hbc) as [_ Hb].
    destruct Hab as [Hb' | Hab]; [congruence|]. by eapply fleb_trans.
Qed.

Lemma insertion_sort_perm {A} (key : A -> fnum) asc (l : list A) :
  insertion_sort key asc l ≡ₚ l.
Proof. apply isort_perm. Qed.

Lemma insertion_sort_sorted {A} (key : A -> fnum) asc (l : list A) :
  StronglySorted (fun a b => fkey_le asc (key a) (key b)) (insertion_sort key asc l).
Proof.
  unfold insertion_sort. induction l as [|x l IH]; cbn [Series.isort]; [constructor|].
  induction IH as [|y l' Hs IH' Hy]; cbn [Series.insert_sorted].
  - repeat constructor.
  - destruct (fkey_leb asc (key y) (key x)) eqn:E.
    + constructor; [exact IH'|].
      rewrite insert_sorted_perm. constructor; [by apply fkey_leb_le | exact Hy].
    + apply fkey_leb_total, fkey_leb_le in E.
      constructor; [by constructor|]. constructor; [exact E|].
      eapply Forall_impl; [exact Hy|]. intros z Hz. cbn in Hz.
      by eapply fkey_le_trans.
Qed.

End FloatOrder.

Definition insertion_floats : SortFloats :=
  {| sort_floats := @insertion_sort;
     sort_floats_perm := @insertion_sort_perm;
     sort_floats_sorted := @insertion_sort_sorted |}.

Section CliFacts.

Lemma dropna_to_numeric (series : list (option Q)) :
  Series.dropna (Cli.to_numeric series) = Fin <$> omap id series.
Proof.
  unfold Series.dropna, Cli.to_numeric.
  induction series as [|[q|] series IH]; [reflexivity | |].
  - rewrite fmap_cons, filter_cons_True by reflexivity.
    cbn [omap list_omap id]. by rewrite fmap_cons, IH.
  - rewrite fmap_cons, filter_cons_False by (cbn; discriminate).
    exact IH.
Qed.

Lemma existsb_to_numeric (series : list (option Q)) :
  existsb (fun x => negb (isnan x)) (Cli.to_numeric series) =
  match omap id series with [] => false | _ => true end.
Proof.
  unfold Cli.to_numeric.
  induction series as [|[q|] series IH]; [reflexivity | reflexivity |].
  rewrite fmap_cons. cbn [existsb isnan negb orb omap list_omap]. exact IH.
Qed.

Lemma mean_to_numeric (series : list (option Q)) :
  Series.mean (Cli.to_numeric series) = Series.mean (Fin <$> omap id series).
Proof.
  unfold Series.mean. by rewrite dropna_to_numeric, dropna_Fin.
Qed.

Lemma safe_mean_reading (series : list (option Q)) :
  (omap id series = [] -> Cli._safe_numeric_mean series = None) /\
  (omap id series <> [] ->
   exists m, Cli._safe_numeric_mean series = Some (Fin m) /\
             (m == Spec.Qmean (omap id series))%Q).
Proof.
  unfold Cli._safe_numeric_mean. split.
  - intros Hnil. destruct series as [|c series]; [reflexivity|].
    by rewrite existsb_to_numeric, Hnil.
  - intros Hne. destruct series as [|c series]; [done|].
    rewrite existsb_to_numeric, mean_to_numeric.
    destruct (mean_Fin _ Hne) as (m & Hm & Hmq).
    destruct (omap id (c :: series)); [done|]. rewrite Hm. by exists m.
Qed.


Lemma scan_ticker_ticker pd fetch client ticker row :
  Cli.scan_ticker pd fetch client ticker = Ok row -> Row.ticker row = ticker.
Proof.
  unfold Cli.scan_ticker.
  destruct (fetch ticker) as [events|e]; cbn [bind]; [|discriminate].
  destruct (Analyzer.analyze_ticker _ _ _ _) as [metrics|e]; cbn [bind]; [|discriminate].
  destruct (ConsistencyScorer.score _ _ _ _) as [s|e]; cbn [bind]; [|discriminate].
  by intros [= <-].
Qed.

(** The rows of the loop are rows of tickers of the list, in its order. *)
Lemma scan_tickers_tickers pd fetch client tickers records :
  exists scanned,
    sublist scanned tickers /\
    Row.ticker <$> Cli.scan_tickers pd fetch client tickers records =
      (Row.ticker <$> records) ++ scanned.
Proof.
  revert records. induction tickers as [|t tickers IH]; intros records.
  - exists []. cbn. by rewrite app_nil_r.
  - cbn [Cli.scan_tickers].
    destruct (Cli.scan_ticker pd fetch client t) as [row|e] eqn:Erow.
    + destruct (IH (records ++ [row])) as (scanned & Hsub & Heq).
      exists (t :: scanned). split; [by apply sublist_skip|].
      rewrite Heq, fmap_app, <- app_assoc. cbn.
      by rewrite (scan_ticker_ticker _ _ _ _ _ Erow).
    + destruct (IH records) as (scanned & Hsub & Heq).
      exists scanned. split; [by apply sublist_cons | exact Heq].
Qed.

Lemma scan_tickers_drop pd fetch client before ticker after records e :
  Cli.scan_ticker pd fetch client ticker = Raise e ->
  Cli.scan_tickers pd fetch client (before ++ ticker :: after) records =
  Cli.scan_tickers pd fetch client (before ++ after) records.
Proof.
  intros Hfail. revert records.
  induction before as [|t before IH]; intros records.
  - cbn [app Cli.scan_tickers]. by rewrite Hfail.
  - rewrite <- !app_comm_cons. cbn [Cli.scan_tickers].
    destruct (Cli.scan_ticker pd fetch client t); apply IH.
Qed.

End CliFacts.

(** X21. The mean reported for a column of the metrics table is missing
    exactly when the column has no value, and is otherwise the arithmetic
    mean of the values that are there; missing cells count neither in the
    sum nor in the number of values. *)
Theorem safe_mean_is_mean_of_present_values (series : list (option Q)) :
  (Cli._safe_numeric_mean series = None <-> omap id series = []) /\
  (forall x, Cli._safe_numeric_mean series = Some x ->
     feq x (Fin (Spec.Qmean (omap id series)))).
Proof.
  destruct (safe_mean_reading series) as [Hnil Hsome].
  destruct (omap id series) as [|q qs] eqn:E.
  - rewrite (Hnil eq_refl). split; [done | discriminate].
  - destruct (Hsome ltac:(discriminate)) as (m & Hm & Hmq). rewrite Hm.
    split; [split; discriminate|]. by intros x [= <-].
Qed.

(** The mean of a gap column with a missing cell. *)
Example safe_mean_example :
  (exists m, Cli._safe_numeric_mean [Some 0.02%Q; None; Some 0.04%Q] = Some m /\
             feq m (Fin 0.03)) /\
  Cli._safe_numeric_mean [None; None] = None /\
  Cli._safe_numeric_mean [] = None.
Proof.
  split; [eexists; split; [vm_compute; reflexivity | reflexivity]|].
  split; reflexivity.
Qed.

(** A world for the scan: three symbols on the universe page, a history
    for two of them, the sample provider behind any key, and a file system
    without a directory [missing], where every other path can be written. *)
Module Scan.

Definition page : result (list Universe.Table) :=
  Ok [ ({[ "Symbol"%string := ["ACME"; "NOPE"; " ZED "]%string ]} : Universe.Table) ].

Definition history (years : Z) (ticker : string) : result (list Event.t) :=
  if String.eqb ticker "ACME" then Ok [Sample.bmo_event; Sample.amc_event]
  else if String.eqb ticker "ZED" then Ok []
  else Raise HTTPError.

Definition write (path : string) (rows : list Row.t) : result unit :=
  if String.prefix "missing/" path
  then Raise (OSError "Cannot save file into a non-existent directory: 'missing'")
  else Ok tt.

Definition world : Cli.Collaborators :=
  {| Cli.environ := fun name =>
       if String.eqb name "POLYGON_API_KEY" then Some "secret"%string else None;
     Cli.universe_page := page;
     Cli.earnings_fetch := history;
     Cli.polygon := fun _ => Sample.client;
     Cli.to_csv := write |}.

(** The same world without the key. *)
Definition keyless : Cli.Collaborators :=
  {| Cli.environ := fun _ => None;
     Cli.universe_page := page;
     Cli.earnings_fetch := history;
     Cli.polygon := fun _ => Sample.client;
     Cli.to_csv := write |}.

(** The frame the scan of [world] sorts for [top = 10] and two years. *)
Definition records : list Row.t :=
  Cli.scan_tickers stable_pandas (Cli.earnings_fetch world 2) Sample.client
    ["ACME"; "NOPE"; "ZED"]%string [].

(** What that scan leaves when the file is written. *)
Definition output : Cli.ScanOutput :=
  let results := sort_floats insertion_floats Row.score false records in
  {| Cli.results := results;
     Cli.written := Some results;
     Cli.printed :=
       Some (Cli.TopRows
               ((fun r => (Row.ticker r, Row.score r, Row.hit_main_dir r,
                           Row.big_move_hit r, Row.boost r)) <$> results)) |}.


End Scan.

(** X22. A ticker whose processing raises, be it in the earnings fetch,
    in the analysis or in the scoring, is left out of the results and
    changes nothing else: the scan ends as the scan of the other tickers
    does. *)
Theorem failing_ticker_is_left_out
    (ps : SortFloats) (pd : SortValues) (world : Cli.Collaborators)
    (top years : Z) (output : string) (api_key : string)
    (before after : list string) (ticker : string) (e : exn) :
  Client.__post_init__ None (Cli.environ world) = Client.KeyReady api_key ->
  Universe.fetch (Cli.universe_page world) top = Ok (before ++ ticker :: after) ->
  Cli.scan_ticker pd (Cli.earnings_fetch world years) (Cli.polygon world api_key)
    ticker = Raise e ->
  Cli.run_scan ps pd world top years output =
    Cli.conclude
      (Cli.publish ps (Cli.to_csv world output)
         (Cli.scan_tickers pd (Cli.earnings_fetch world years)
            (Cli.polygon world api_key) (before ++ after) [])).
Proof.
  intros Hkey Huniverse Hfail. unfold Cli.run_scan.
  rewrite Hkey, Huniverse. do 2 f_equal. by eapply scan_tickers_drop.
Qed.

Lemma failing_ticker_is_left_out_witness :
  Cli.run_scan insertion_floats stable_pandas Scan.world 10 2 "scan.csv" =
    Cli.conclude
      (Cli.publish insertion_floats (Cli.to_csv Scan.world "scan.csv")
         (Cli.scan_tickers stable_pandas (Cli.earnings_fetch Scan.world 2)
            (Cli.polygon Scan.world "secret") (["ACME"%string] ++ ["ZED"%string]) [])).
Proof.
  apply (failing_ticker_is_left_out insertion_floats stable_pandas Scan.world 10 2
           "scan.csv" "secret" ["ACME"%string] ["ZED"%string] "NOPE" HTTPError).
  - reflexivity.
  - vm_compute. reflexivity.
  - reflexivity.
Defined.

(** X23. The scan completes exactly when the environment holds a
    non-empty [POLYGON_API_KEY], the universe builder returns its list
    and, if a ticker of the list gave a record, the sorted results can be
    written to the output path; with no record the path is not touched.
    No earnings history and no answer of the bar provider raises out of
    the scan.  Without the key the scan fails before the universe is
    fetched, an exception of the universe builder ends it before any
    ticker is processed, and an exception of [to_csv] ends it before
    anything is printed. *)
Theorem scan_completes_unless_startup_or_write_fails
    (ps : SortFloats) (pd : SortValues) (world : Cli.Collaborators)
    (top years : Z) (output : string) :
  ((exists out, Cli.run_scan ps pd world top years output = Cli.Scanned out) <->
   (exists api_key tickers,
      Cli.environ world "POLYGON_API_KEY"%string = Some api_key /\
      api_key <> ""%string /\
      Universe.fetch (Cli.universe_page world) top = Ok tickers /\
      (Cli.scan_tickers pd (Cli.earnings_fetch world years)
         (Cli.polygon world api_key) tickers [] = [] \/
       Cli.to_csv world output
         (sort_floats ps Row.score false
            (Cli.scan_tickers pd (Cli.earnings_fetch world years)
               (Cli.polygon world api_key) tickers [])) = Ok tt))) /\
  ((Cli.environ world "POLYGON_API_KEY"%string = None \/
    Cli.environ world "POLYGON_API_KEY"%string = Some ""%string) ->
   Cli.run_scan ps pd world top years output =
     Cli.ScanFailed
       (Cli.StartupError "POLYGON_API_KEY environment variable is required.")) /\
  (forall api_key e,
     Cli.environ world "POLYGON_API_KEY"%string = Some api_key ->
     api_key <> ""%string ->
     Universe.fetch (Cli.universe_page world) top = Raise e ->
     Cli.run_scan ps pd world top years output =
       Cli.ScanFailed (Cli.UniverseError e)) /\
  (forall api_key tickers e,
     Cli.environ world "POLYGON_API_KEY"%string = Some api_key ->
     api_key <> ""%string ->
     Universe.fetch (Cli.universe_page world) top = Ok tickers ->
     Cli.scan_tickers pd (Cli.earnings_fetch world years)
       (Cli.polygon world api_key) tickers [] <> [] ->
     Cli.to_csv world output
       (sort_floats ps Row.score false
          (Cli.scan_tickers pd (Cli.earnings_fetch world years)
             (Cli.polygon world api_key) tickers [])) = Raise e ->
     Cli.run_scan ps pd world top years output =
       Cli.ScanFailed (Cli.WriteError e)).
Proof.
  unfold Cli.run_scan, Client.__post_init__.
  destruct (Cli.environ world "POLYGON_API_KEY"%string) as [k|] eqn:Ek.
  2:{ split; [|split; [|split]]; [| by intros _ | by intros ? ? [=] | by intros ? ? ? [=]].
      split; [by intros [out [=]] | by intros (k & ts & [=] & _)]. }
  destruct k as [|c k]; cbn [Client.nonempty].
  { split; [|split; [|split]];
      [| by intros _ | by intros ? ? [= <-] ? | by intros ? ? ? [= <-] ?].
    split; [by intros [out [=]] | by intros (k & ts & [= <-] & ? & _)]. }
  set (key := String c k).
  destruct (Universe.fetch _ _) as [tickers|e] eqn:Efetch.
  2:{ split; [|split; [|split]].
      - split; [by intros [out [=]] | by intros (k' & ts & _ & _ & [=] & _)].
      - intros [[=] | [=]].
      - by intros api_key e' [= <-] _ [= <-].
      - by intros api_key ts e' _ _ [=]. }
  set (records := Cli.scan_tickers pd (Cli.earnings_fetch world years)
                    (Cli.polygon world key) tickers []).
  assert (Hpub : forall w,
    Cli.publish ps w records =
      match records with
      | [] => Ok {| Cli.results := []; Cli.written := None; Cli.printed := None |}
      | _ => Cli.publish ps w records
      end) by (intros w; by destruct records).
  split; [|split; [|split]].
  - split.
    + intros [out Hout]. exists key, tickers.
      split; [reflexivity|]. split; [done|]. split; [reflexivity|].
      fold records. destruct records as [|r0 rs] eqn:Erec; [by left|right].
      unfold Cli.publish in Hout.
      destruct (Cli.to_csv world output _) as [[]|e]; [reflexivity | discriminate].
    + intros (api_key & ts & [= <-] & _ & [= <-] & Hwrite). fold key records in Hwrite.
      unfold Cli.publish. destruct records as [|r0 rs] eqn:Erec; [by eexists|].
      destruct Hwrite as [[=] | ->]. by eexists.
  - intros [[=] | [=]].
  - by intros api_key e [= <-] _ [=].
  - intros api_key ts e [= <-] _ [= <-] Hne Hwrite. fold key records in Hne, Hwrite.
    unfold Cli.publish. destruct records as [|r0 rs] eqn:Erec; [done|].
    by rewrite Hwrite.
Qed.


(** X24. The results of a completed scan are ranked: the rows descend by
    score; every row is the row of a symbol of the universe, a non-empty
    string of capital letters and dots, and for a non-negative [top] there
    are at most [top] rows.  The CSV file is written, with all the rows,
    exactly when there is a row; the first ten rows are printed then, and
    the message for an empty table is never printed. *)
Theorem scan_results_are_ranked
    (ps : SortFloats) (pd : SortValues) (world : Cli.Collaborators)
    (top years : Z) (output : string) (out : Cli.ScanOutput) :
  Cli.run_scan ps pd world top years output = Cli.Scanned out ->
  StronglySorted (fun a b => fkey_le false (Row.score a) (Row.score b))
    (Cli.results out) /\
  (forall row, row ∈ Cli.results out ->
     Row.ticker row <> ""%string /\
     Universe.all_ticker_chars (Row.ticker row) = true) /\
  (0 <= top -> Z.of_nat (length (Cli.results out)) <= top) /\
  (Cli.results out = [] -> Cli.written out = None /\ Cli.printed out = None) /\
  (Cli.results out <> [] ->
   Cli.written out = Some (Cli.results out) /\
   Cli.printed out =
     Some (Cli.TopRows
             ((fun r => (Row.ticker r, Row.score r, Row.hit_main_dir r,
                         Row.big_move_hit r, Row.boost r)) <$>
                take 10 (Cli.results out)))) /\
  Cli.printed out <> Some Cli.NoResultsToDisplay.
Proof.
  unfold Cli.run_scan.
  destruct (Client.__post_init__ _ _) as [api_key|msg]; [|discriminate].
  destruct (Universe.fetch _ _) as [tickers|e] eqn:Efetch; [|discriminate].
  set (records := Cli.scan_tickers pd (Cli.earnings_fetch world years)
                    (Cli.polygon world api_key) tickers []).
  (* the universe *)
  assert (Hclean : forall t, t ∈ tickers ->
            t <> ""%string /\ Universe.all_ticker_chars t = true).
  { unfold Universe.fetch in Efetch.
    destruct (Cli.universe_page world) as [[|table tables]|e]; cbn [bind] in Efetch;
      try discriminate.
    destruct (Universe.ticker_column table); [|discriminate].
    injection Efetch as <-. intros t Ht.
    apply (sublist_subseteq _ _ (head_sublist _ _)) in Ht.
    apply list_elem_of_filter in Ht as [Hm _].
    unfold Universe.fullmatch_ticker in Hm. by destruct t. }
  assert (Hlen : 0 <= top -> Z.of_nat (length tickers) <= top).
  { intros Hn. unfold Universe.fetch in Efetch.
    destruct (Cli.universe_page world) as [[|table tables]|e]; cbn [bind] in Efetch;
      try discriminate.
    destruct (Universe.ticker_column table); [|discriminate].
    injection Efetch as <-. pose proof (head_length top
      (filter (fun s => Universe.fullmatch_ticker s = true)
         (Universe.strip <$> default [] (table !! s))) Hn). lia. }
  destruct (scan_tickers_tickers pd (Cli.earnings_fetch world years)
              (Cli.polygon world api_key) tickers []) as (scanned & Hsub & Hrows).
  fold records in Hrows. rewrite app_nil_l in Hrows.
  (* the published frame *)
  unfold Cli.publish. destruct records as [|r0 rs] eqn:Erec.
  { intros [= <-]. cbn. split; [constructor|].
    split; [intros row Hrow; by apply elem_of_nil in Hrow|].
    split; [intros Hn; exact Hn|]. split; [done|]. split; [done | discriminate]. }
  set (sorted := sort_floats ps Row.score false (r0 :: rs)).
  destruct (Cli.to_csv world output sorted) as [[]|e]; [|discriminate].
  intros [= <-].
  assert (Hperm : sorted ≡ₚ r0 :: rs) by apply sort_floats_perm.
  assert (Hne : sorted <> []).
  { intros Hnil. rewrite Hnil in Hperm. by apply Permutation_nil_l in Hperm. }
  assert (Htop : ConsistencyScorer.head 10 sorted = take 10 sorted) by reflexivity.
  cbn [Cli.results Cli.written Cli.printed]. rewrite Htop.
  assert (Htake : take 10 sorted <> []) by (by destruct sorted).
  split; [apply sort_floats_sorted|].
  split.
  { intros row Hrow. apply Hclean. rewrite Hperm in Hrow.
    apply (sublist_subseteq _ _ Hsub). rewrite <- Hrows.
    by apply list_elem_of_fmap_2. }
  split.
  { intros Hn. rewrite Hperm. specialize (Hlen Hn).
    apply (f_equal length) in Hrows. rewrite length_fmap in Hrows.
    pose proof (sublist_length _ _ Hsub). lia. }
  split; [done|].
  split; [intros _; split; [reflexivity|]|]; by destruct (take 10 sorted).
Qed.

Lemma scan_results_are_ranked_witness :
  StronglySorted (fun a b => fkey_le false (Row.score a) (Row.score b))
    (Cli.results Scan.output) /\
  (forall row, row ∈ Cli.results Scan.output ->
     Row.ticker row <> ""%string /\
     Universe.all_ticker_chars (Row.ticker row) = true) /\
  (0 <= 10 -> Z.of_nat (length (Cli.results Scan.output)) <= 10) /\
  (Cli.results Scan.output = [] ->
   Cli.written Scan.output = None /\ Cli.printed Scan.output = None) /\
  (Cli.results Scan.output <> [] ->
   Cli.written Scan.output = Some (Cli.results Scan.output) /\
   Cli.printed Scan.output =
     Some (Cli.TopRows
             ((fun r => (Row.ticker r, Row.score r, Row.hit_main_dir r,
                         Row.big_move_hit r, Row.boost r)) <$>
                take 10 (Cli.results Scan.output)))) /\
  Cli.printed Scan.output <> Some Cli.NoResultsToDisplay.
Proof.
  apply (scan_results_are_ranked insertion_floats stable_pandas Scan.world 10 2
           "scan.csv" Scan.output).
  vm_compute. reflexivity.
Defined.

(** The sample scan: the symbol without history is left out, the one with
    two events comes before the one with none; into a directory that does
    not exist nothing is written and the scan ends with the [OSError] of
    pandas; without the key it ends at once. *)
Example scan_example :
  Cli.run_scan insertion_floats stable_pandas Scan.world 10 2 "scan.csv" =
    Cli.Scanned Scan.output /\
  Row.ticker <$> Cli.results Scan.output = ["ACME"; "ZED"]%string /\
  Row.events_count <$> Cli.results Scan.output = [2; 0] /\
  Cli.run_scan insertion_floats stable_pandas Scan.world 10 2 "missing/scan.csv" =
    Cli.ScanFailed
      (Cli.WriteError
         (OSError "Cannot save file into a non-existent directory: 'missing'")) /\
  Cli.run_scan insertion_floats stable_pandas Scan.keyless 10 2 "scan.csv" =
    Cli.ScanFailed
      (Cli.StartupError "POLYGON_API_KEY environment variable is required.").
Proof. repeat split; vm_compute; reflexivity. Qed.


